(** * Listing Lens: the response-normalisation pipeline of the three handlers

    Shallow embedding of
      - netlify/functions/analyzeListing.js   (single-image Netlify handler),
      - the multi-image Netlify handler        (imagesBase64, up to 4 images),
      - functions/index.js                     (Firebase callable, Gemini),
    together with the fragment of ECMAScript the handlers rely on
    (truthiness, property access, ToString, ToNumber, String.prototype.slice,
    indexOf/lastIndexOf, Math.min/Math.max and JSON.parse). *)

From Stdlib Require Import List ZArith NArith Lia Bool String Ascii.
From Stdlib Require Import DecimalString.
From Stdlib Require DecimalFacts DecimalPos.
Import ListNotations.

Open Scope Z_scope.

(* ================================================================== *)
(** * ECMAScript strings *)
(* ================================================================== *)

Module JS.

(** A string is a sequence of UTF-16 code units; [length] is what the
    [.length] of the source measures, and [slice] cuts at code units. *)
Definition jsstring := list N.

Definition str (s : string) : jsstring :=
  List.map N_of_ascii (list_ascii_of_string s).

Fixpoint jsstring_eqb (a b : jsstring) : bool :=
  match a, b with
  | [], [] => true
  | x :: a', y :: b' => N.eqb x y && jsstring_eqb a' b'
  | _, _ => false
  end.

Fixpoint starts_with (p s : jsstring) : bool :=
  match p, s with
  | [], _ => true
  | x :: p', y :: s' => N.eqb x y && starts_with p' s'
  | _ :: _, [] => false
  end.

(** [String.prototype.indexOf(p)]: index of the first occurrence, or -1. *)
Fixpoint indexOf_from (p s : jsstring) (i : Z) : Z :=
  if starts_with p s then i
  else match s with
       | [] => -1
       | _ :: s' => indexOf_from p s' (i + 1)
       end.

Definition indexOf (s p : jsstring) : Z := indexOf_from p s 0.

(** [String.prototype.lastIndexOf(p)]: index of the last occurrence, or -1. *)
Fixpoint lastIndexOf_from (p s : jsstring) (i : Z) (found : Z) : Z :=
  let found' := if starts_with p s then i else found in
  match s with
  | [] => found'
  | _ :: s' => lastIndexOf_from p s' (i + 1) found'
  end.

Definition lastIndexOf (s p : jsstring) : Z := lastIndexOf_from p s 0 (-1).

(** [s.slice(from, to)] of String.prototype and Array.prototype: negative
    indices count from the end, both ends are clipped to the length. *)
Definition slice_index (len i : Z) : Z :=
  if i <? 0 then Z.max (len + i) 0 else Z.min i len.

Definition slice {A : Type} (s : list A) (from to : Z) : list A :=
  let len := Z.of_nat (List.length s) in
  let a := slice_index len from in
  let b := slice_index len to in
  firstn (Z.to_nat (b - a)) (skipn (Z.to_nat a) s).

(** [s.replace(/p/g, '')] for a literal pattern [p]: every occurrence,
    scanning left to right without overlap, is removed. *)
Fixpoint remove_all_from (fuel : nat) (p s : jsstring) : jsstring :=
  match fuel with
  | O => s
  | S fuel' =>
      match s with
      | [] => []
      | c :: s' =>
          if starts_with p s
          then remove_all_from fuel' p (skipn (List.length p) s)
          else c :: remove_all_from fuel' p s'
      end
  end.

Definition remove_all (p s : jsstring) : jsstring :=
  match p with
  | [] => s
  | _ => remove_all_from (List.length s) p s
  end.

(** WhiteSpace and LineTerminator code units (what [trim] and
    StringToNumber strip). *)
Definition is_js_space (c : N) : bool :=
  (existsb (N.eqb c)
     [9; 10; 11; 12; 13; 32; 160; 5760; 8232; 8233; 8239; 8287; 12288; 65279]
   || ((8192 <=? c) && (c <=? 8202)))%N.

Fixpoint trim_start (s : jsstring) : jsstring :=
  match s with
  | c :: s' => if is_js_space c then trim_start s' else s
  | [] => []
  end.

Definition trim (s : jsstring) : jsstring :=
  rev (trim_start (rev (trim_start s))).

(* ================================================================== *)
(** * ECMAScript numbers *)
(* ================================================================== *)

(** A Number is NaN, an infinity, or a finite value.  A finite value is
    kept as an exact decimal [m * 10^e]: every JSON literal and every
    numeric string denotes one.  Overflow to an infinity and underflow to
    zero are those of binary64 ([to_double]); the rounding of the
    significand is not modelled, and the two zeros are one value (both are
    falsy and both print as "0").  The handlers only compare a number with
    0 and 100 and convert it to text; the comparisons are the same before
    and after rounding, because rounding is monotone and 0, 50 and 100 are
    doubles. *)
Inductive number :=
| NaN
| PosInfinity
| NegInfinity
| Finite (m e : Z).

(** The value read from a literal [m * 10^e]: a magnitude of at least
    2^1024 - 2^970 rounds to an infinity, one of at most 2^-1075 to zero. *)
Definition to_double (m e : Z) : number :=
  let a := Z.abs m in
  let inf := if m <? 0 then NegInfinity else PosInfinity in
  if m =? 0 then Finite 0 0
  else if 0 <=? e then
    if 2 ^ 1024 - 2 ^ 970 <=? a * 10 ^ e then inf else Finite m e
  else
    if (2 ^ 1024 - 2 ^ 970) * 10 ^ (- e) <=? a then inf
    else if a * 2 ^ 1075 <=? 10 ^ (- e) then Finite 0 0
    else Finite m e.

Definition scaled (m e e0 : Z) : Z := m * 10 ^ (e - e0).

(** [a < b] on Numbers; false when either side is NaN. *)
Definition num_ltb (a b : number) : bool :=
  match a, b with
  | NaN, _ | _, NaN => false
  | _, NegInfinity => false
  | NegInfinity, _ => true
  | PosInfinity, _ => false
  | _, PosInfinity => true
  | Finite m1 e1, Finite m2 e2 =>
      let e0 := Z.min e1 e2 in scaled m1 e1 e0 <? scaled m2 e2 e0
  end.

(** [a <= b] on Numbers; false when either side is NaN. *)
Definition num_leb (a b : number) : bool :=
  match a, b with
  | NaN, _ | _, NaN => false
  | NegInfinity, _ => true
  | _, NegInfinity => false
  | _, PosInfinity => true
  | PosInfinity, _ => false
  | Finite m1 e1, Finite m2 e2 =>
      let e0 := Z.min e1 e2 in scaled m1 e1 e0 <=? scaled m2 e2 e0
  end.

Definition is_NaN (n : number) : bool :=
  match n with NaN => true | _ => false end.

Definition is_zero (n : number) : bool :=
  match n with Finite m _ => m =? 0 | _ => false end.

(** Integer-valued finite number. *)
Definition is_integer (n : number) : bool :=
  match n with
  | Finite m e => if 0 <=? e then true else m mod 10 ^ (- e) =? 0
  | _ => false
  end.

Definition Math_min (a b : number) : number :=
  match a, b with
  | NaN, _ | _, NaN => NaN
  | _, _ => if num_ltb b a then b else a
  end.

Definition Math_max (a b : number) : number :=
  match a, b with
  | NaN, _ | _, NaN => NaN
  | _, _ => if num_ltb a b then b else a
  end.

(** ** Number::toString (radix 10) *)

Definition decimal_digits (n : N) : jsstring :=
  str (NilZero.string_of_uint (N.to_uint n)).

Fixpoint strip_zeros_front (ds : jsstring) : jsstring * Z :=
  match ds with
  | c :: ds' =>
      if N.eqb c 48 then let '(r, z) := strip_zeros_front ds' in (r, z + 1)
      else (ds, 0)
  | [] => ([], 0)
  end.

(** The digits of [s] and the count of the trailing zeros taken off. *)
Definition strip_trailing_zeros (ds : jsstring) : jsstring * Z :=
  let '(r, z) := strip_zeros_front (rev ds) in (rev r, z).

Definition zeros (n : Z) : jsstring := repeat 48%N (Z.to_nat n).

Definition exponent_part (x : Z) : jsstring :=
  str "e" ++ (if x <? 0 then str "-" else str "+")
          ++ decimal_digits (Z.to_N (Z.abs x)).

(** Steps 5-10 of Number::toString: [ds] are the [k] digits of the shortest
    significand [s] and the value is [s * 10^(n-k)]. *)
Definition format_digits (ds : jsstring) (n : Z) : jsstring :=
  let k := Z.of_nat (List.length ds) in
  if (k <=? n) && (n <=? 21) then ds ++ zeros (n - k)
  else if (0 <? n) && (n <=? 21) then
    firstn (Z.to_nat n) ds ++ str "." ++ skipn (Z.to_nat n) ds
  else if (-6 <? n) && (n <=? 0) then str "0." ++ zeros (- n) ++ ds
  else if k =? 1 then ds ++ exponent_part (n - 1)
  else firstn 1 ds ++ str "." ++ skipn 1 ds ++ exponent_part (n - 1).

Definition Number_toString (x : number) : jsstring :=
  match x with
  | NaN => str "NaN"
  | PosInfinity => str "Infinity"
  | NegInfinity => str "-Infinity"
  | Finite m e =>
      if m =? 0 then str "0"
      else
        let '(ds, z) := strip_trailing_zeros (decimal_digits (Z.to_N (Z.abs m))) in
        let n := Z.of_nat (List.length ds) + z + e in
        (if m <? 0 then str "-" else []) ++ format_digits ds n
  end.

(** ** StringToNumber *)

Definition is_digit (c : N) : bool := ((48 <=? c) && (c <=? 57))%N.

Definition hex_value (c : N) : option Z :=
  if is_digit c then Some (Z.of_N c - 48)
  else if ((97 <=? c) && (c <=? 102))%N then Some (Z.of_N c - 87)
  else if ((65 <=? c) && (c <=? 70))%N then Some (Z.of_N c - 55)
  else None.

(** The longest prefix of decimal digits, and the rest. *)
Fixpoint span_digits (s : jsstring) : jsstring * jsstring :=
  match s with
  | c :: s' =>
      if is_digit c then let '(ds, r) := span_digits s' in (c :: ds, r)
      else ([], s)
  | [] => ([], [])
  end.

Definition digits_value (ds : jsstring) : Z :=
  fold_left (fun acc c => acc * 10 + (Z.of_N c - 48)) ds 0.

(** Digits of radix [r] only, at least one: the value; otherwise none. *)
Definition radix_value (r : Z) (ds : jsstring) : option Z :=
  match ds with
  | [] => None
  | _ =>
      fold_left
        (fun acc c =>
           match acc, hex_value c with
           | Some a, Some d => if d <? r then Some (a * r + d) else None
           | _, _ => None
           end) ds (Some 0)
  end.

(** An optional character [c] at the head of [s]: whether it is there, and
    what follows it. *)
Definition strip_char (c : N) (s : jsstring) : bool * jsstring :=
  match s with
  | d :: t => if N.eqb d c then (true, t) else (false, s)
  | [] => (false, [])
  end.

(** ExponentPart, optional: [e] or [E], an optional sign, digits. *)
Definition exponent_of (s : jsstring) : option (Z * jsstring) :=
  match s with
  | c :: s' =>
      if (N.eqb c 101 || N.eqb c 69)%N then
        let '(neg, s1) := strip_char 45 s' in
        let s2 := if neg then s1 else snd (strip_char 43 s1) in
        match span_digits s2 with
        | ([], _) => None
        | (ds, r) => Some (if neg then - digits_value ds else digits_value ds, r)
        end
      else Some (0, s)
  | [] => Some (0, [])
  end.

(** StrUnsignedDecimalLiteral without Infinity: digits, an optional
    fraction, an optional exponent, then the end of the string. *)
Definition unsigned_decimal (s : jsstring) : option (Z * Z) :=
  let '(ip, r1) := span_digits s in
  let '(fp, r2) :=
    match strip_char 46 r1 with
    | (true, t) => span_digits t
    | (false, _) => ([], r1)
    end in
  match ip, fp with
  | [], [] => None
  | _, _ =>
      match exponent_of r2 with
      | Some (x, []) =>
          Some (digits_value (ip ++ fp), x - Z.of_nat (List.length fp))
      | _ => None
      end
  end.

Definition StringToNumber (s : jsstring) : number :=
  let t := trim s in
  match t with
  | [] => Finite 0 0
  | 48%N :: c :: ds =>
      if (N.eqb c 120 || N.eqb c 88)%N then
        match radix_value 16 ds with Some v => to_double v 0 | None => NaN end
      else if (N.eqb c 111 || N.eqb c 79)%N then
        match radix_value 8 ds with Some v => to_double v 0 | None => NaN end
      else if (N.eqb c 98 || N.eqb c 66)%N then
        match radix_value 2 ds with Some v => to_double v 0 | None => NaN end
      else
        match unsigned_decimal t with
        | Some (m, e) => to_double m e
        | None => NaN
        end
  | _ =>
      let '(neg, u) :=
        match t with
        | 45%N :: u => (true, u)
        | 43%N :: u => (false, u)
        | _ => (false, t)
        end in
      if jsstring_eqb u (str "Infinity")
      then (if neg then NegInfinity else PosInfinity)
      else
        match unsigned_decimal u with
        | Some (m, e) => to_double (if neg then - m else m) e
        | None => NaN
        end
  end.

(* ================================================================== *)
(** * ECMAScript values and conversions *)
(* ================================================================== *)

(** The values a handler meets: [undefined] and what JSON.parse builds.
    An object is its own properties in insertion order; none of them is
    callable, and JSON.parse never changes the prototype of what it
    builds. *)
Set Warnings "-register-all".

Inductive value :=
| VUndefined
| VNull
| VBool (b : bool)
| VNumber (n : number)
| VString (s : jsstring)
| VArray (elems : list value)
| VObject (props : list (jsstring * value)).

Inductive exn :=
| TypeError
| SyntaxError
| ProviderError (message : jsstring).

(** Outcome of an evaluation that may throw. *)
Inductive completion (A : Type) :=
| Normal (a : A)
| Throw (e : exn).
Arguments Normal {A} a.
Arguments Throw {A} e.

Definition bind {A B : Type} (c : completion A) (k : A -> completion B)
  : completion B :=
  match c with
  | Normal a => k a
  | Throw e => Throw e
  end.

Notation "x <- c ;; k" := (bind c (fun x => k))
  (at level 61, c at next level, right associativity).

Fixpoint mapM {A B : Type} (f : A -> completion B) (l : list A)
  : completion (list B) :=
  match l with
  | [] => Normal []
  | x :: l' => y <- f x ;; r <- mapM f l' ;; Normal (y :: r)
  end.

Fixpoint own_property (props : list (jsstring * value)) (k : jsstring)
  : option value :=
  match props with
  | [] => None
  | (k', v) :: props' =>
      if jsstring_eqb k' k then Some v else own_property props' k
  end.

(** [v.k] for the property names the handlers read ([vehicle_title],
    [lens_score], [summary], [market_value_estimate], [red_flags],
    [questions_to_ask], [imageBase64], [imagesBase64], [mimeType]): no
    built-in prototype defines any of them, so the read is the own property
    of an object and [undefined] on every other value; on [null] and
    [undefined] it throws. *)
Definition Get (v : value) (k : jsstring) : completion value :=
  match v with
  | VUndefined | VNull => Throw TypeError
  | VObject props =>
      Normal (match own_property props k with
              | Some x => x
              | None => VUndefined
              end)
  | _ => Normal VUndefined
  end.

(** ToBoolean. *)
Definition truthy (v : value) : bool :=
  match v with
  | VUndefined | VNull => false
  | VBool b => b
  | VNumber n => negb (is_NaN n || is_zero n)
  | VString s => match s with [] => false | _ => true end
  | VArray _ | VObject _ => true
  end.

(** [a || b]. *)
Definition or_else (a b : value) : value := if truthy a then a else b.

Definition isArray (v : value) : bool :=
  match v with VArray _ => true | _ => false end.

Section Join.
Variable elem_string : value -> completion jsstring.

(** Array.prototype.join(","): [undefined] and [null] elements give the
    empty string, every later element is preceded by the separator. *)
Fixpoint join_rest (l : list value) : completion jsstring :=
  match l with
  | [] => Normal []
  | x :: l' =>
      s <- match x with
           | VUndefined | VNull => Normal []
           | _ => elem_string x
           end ;;
      r <- join_rest l' ;;
      Normal (str "," ++ s ++ r)
  end.

Definition join (l : list value) : completion jsstring :=
  match l with
  | [] => Normal []
  | x :: l' =>
      s <- match x with
           | VUndefined | VNull => Normal []
           | _ => elem_string x
           end ;;
      r <- join_rest l' ;;
      Normal (s ++ r)
  end.
End Join.

(** ToString.  On an object it is OrdinaryToPrimitive with hint string:
    an own [toString] shadows Object.prototype.toString and is not callable,
    [valueOf] (own, or Object.prototype.valueOf, which returns the object)
    never gives a primitive, so the conversion throws; without an own
    [toString] the result is "[object Object]".  An array has no own
    [toString] or [join], so Array.prototype.toString joins its elements. *)
Fixpoint ToString (v : value) : completion jsstring :=
  match v with
  | VUndefined => Normal (str "undefined")
  | VNull => Normal (str "null")
  | VBool b => Normal (if b then str "true" else str "false")
  | VNumber n => Normal (Number_toString n)
  | VString s => Normal s
  | VArray l => join ToString l
  | VObject props =>
      match own_property props (str "toString") with
      | Some _ => Throw TypeError
      | None => Normal (str "[object Object]")
      end
  end.

(** The method call [v.toString()]. *)
Definition toString (v : value) : completion jsstring :=
  match v with
  | VUndefined | VNull => Throw TypeError
  | _ => ToString v
  end.

(** [String(v)], as called by [map(String)]. *)
Definition String_ (v : value) : completion jsstring := ToString v.

(** [Number(v)]: ToNumber; an array or object goes through ToPrimitive with
    hint number, where [valueOf] gives no primitive and [toString] decides
    as in [ToString]. *)
Definition Number_ (v : value) : completion number :=
  match v with
  | VUndefined => Normal NaN
  | VNull => Normal (Finite 0 0)
  | VBool b => Normal (Finite (if b then 1 else 0) 0)
  | VNumber n => Normal n
  | VString s => Normal (StringToNumber s)
  | VArray _ | VObject _ => s <- ToString v ;; Normal (StringToNumber s)
  end.

(** The values on which [ToString] returns: no object with an own
    [toString] among the value and, through nested arrays, its elements. *)
Fixpoint convertible (v : value) : bool :=
  match v with
  | VArray l => forallb convertible l
  | VObject props =>
      match own_property props (str "toString") with
      | Some _ => false
      | None => true
      end
  | _ => true
  end.

(** Induction on values, with the hypothesis on every element of an
    array and on every property value of an object. *)
Section ValueInduction.
Variable P : value -> Prop.
Hypothesis Hundefined : P VUndefined.
Hypothesis Hnull : P VNull.
Hypothesis Hbool : forall b, P (VBool b).
Hypothesis Hnumber : forall n, P (VNumber n).
Hypothesis Hstring : forall s, P (VString s).
Hypothesis Harray : forall l, Forall P l -> P (VArray l).
Hypothesis Hobject :
  forall props, Forall (fun kv => P (snd kv)) props -> P (VObject props).

Fixpoint value_induction (v : value) : P v :=
  match v with
  | VUndefined => Hundefined
  | VNull => Hnull
  | VBool b => Hbool b
  | VNumber n => Hnumber n
  | VString s => Hstring s
  | VArray l =>
      Harray l
        ((fix elems (l : list value) : Forall P l :=
            match l with
            | [] => Forall_nil P
            | x :: l' => Forall_cons x (value_induction x) (elems l')
            end) l)
  | VObject props =>
      Hobject props
        ((fix members (ps : list (jsstring * value))
            : Forall (fun kv => P (snd kv)) ps :=
            match ps with
            | [] => Forall_nil _
            | kv :: ps' =>
                Forall_cons kv (value_induction (snd kv)) (members ps')
            end) props)
  end.
End ValueInduction.

(* ================================================================== *)
(** * JSON.parse *)
(* ================================================================== *)

Definition is_json_ws (c : N) : bool :=
  (N.eqb c 32 || N.eqb c 9 || N.eqb c 10 || N.eqb c 13)%N.

Fixpoint skip_ws (s : jsstring) : jsstring :=
  match s with
  | c :: s' => if is_json_ws c then skip_ws s' else s
  | [] => []
  end.

Definition hex4 (a b c d : N) : option N :=
  match hex_value a, hex_value b, hex_value c, hex_value d with
  | Some x, Some y, Some z, Some w =>
      Some (Z.to_N (((x * 16 + y) * 16 + z) * 16 + w))
  | _, _, _, _ => None
  end.

Definition cons_char (c : N) (r : option (jsstring * jsstring))
  : option (jsstring * jsstring) :=
  match r with
  | Some (t, rest) => Some (c :: t, rest)
  | None => None
  end.

(** The character a two-character escape stands for: quotation mark,
    reverse solidus, solidus, then b, f, n, r and t. *)
Definition escape_char (e : N) : option N :=
  if N.eqb e 34 then Some 34%N
  else if N.eqb e 92 then Some 92%N
  else if N.eqb e 47 then Some 47%N
  else if N.eqb e 98 then Some 8%N
  else if N.eqb e 102 then Some 12%N
  else if N.eqb e 110 then Some 10%N
  else if N.eqb e 114 then Some 13%N
  else if N.eqb e 116 then Some 9%N
  else None.

(** The characters of a JSON string after its opening quote, up to the
    closing quote, and what follows. *)
Fixpoint string_body (s : jsstring) : option (jsstring * jsstring) :=
  match s with
  | [] => None
  | c :: rest =>
      if N.eqb c 34 then Some ([], rest)
      else if N.eqb c 92 then
        match rest with
        | [] => None
        | e :: rest1 =>
            if N.eqb e 117 then
              match rest1 with
              | a :: b :: c' :: d :: rest2 =>
                  match hex4 a b c' d with
                  | Some u => cons_char u (string_body rest2)
                  | None => None
                  end
              | _ => None
              end
            else
              match escape_char e with
              | Some x => cons_char x (string_body rest1)
              | None => None
              end
        end
      else if (c <? 32)%N then None
      else cons_char c (string_body rest)
  end.

(** A JSON number: [-]? (0 | [1-9][0-9]* ) (. [0-9]+)? ([eE][+-]?[0-9]+)? *)
Definition json_number (s : jsstring) : option (number * jsstring) :=
  let '(neg, s1) := strip_char 45 s in
  let int_part :=
    match strip_char 48 s1 with
    | (true, t) => Some ([48%N], t)
    | (false, _) =>
        match span_digits s1 with
        | ([], _) => None
        | r => Some r
        end
    end in
  match int_part with
  | None => None
  | Some (ip, r1) =>
      let frac :=
        match strip_char 46 r1 with
        | (true, t) =>
            match span_digits t with
            | ([], _) => None
            | r => Some r
            end
        | (false, _) => Some ([], r1)
        end in
      match frac with
      | None => None
      | Some (fp, r2) =>
          match exponent_of r2 with
          | None => None
          | Some (x, r3) =>
              let m := digits_value (ip ++ fp) in
              Some (to_double (if neg then - m else m)
                              (x - Z.of_nat (List.length fp)), r3)
          end
      end
  end.

(** CreateDataProperty during parsing: a repeated key keeps its place and
    takes the later value. *)
Fixpoint set_property (props : list (jsstring * value)) (k : jsstring)
  (v : value) : list (jsstring * value) :=
  match props with
  | [] => [(k, v)]
  | (k', v') :: props' =>
      if jsstring_eqb k' k then (k', v) :: props'
      else (k', v') :: set_property props' k v
  end.

(** The token [c], after white space: what follows it. *)
Definition token (c : N) (s : jsstring) : option jsstring :=
  match skip_ws s with
  | d :: r => if N.eqb d c then Some r else None
  | [] => None
  end.

(** A literal name at the head of [s]: what follows it. *)
Definition keyword (k s : jsstring) : option jsstring :=
  if starts_with k s then Some (skipn (List.length k) s) else None.

(** Recursive descent on the text.  [fuel] bounds the nesting of calls;
    every call but the one from [json_elements] to [json_value] comes after
    a character was consumed, so twice the length of the text is enough
    ([json_value_fuel] below). *)
Fixpoint json_value (fuel : nat) (s : jsstring) : option (value * jsstring) :=
  match fuel with
  | O => None
  | S fuel' =>
      match token 34 s with
      | Some rest =>
          match string_body rest with
          | Some (t, r) => Some (VString t, r)
          | None => None
          end
      | None =>
      match token 91 s with
      | Some rest =>
          match token 93 rest with
          | Some r => Some (VArray [], r)
          | None => json_elements fuel' rest []
          end
      | None =>
      match token 123 s with
      | Some rest =>
          match token 125 rest with
          | Some r => Some (VObject [], r)
          | None => json_members fuel' rest []
          end
      | None =>
      match keyword (str "null") (skip_ws s) with
      | Some r => Some (VNull, r)
      | None =>
      match keyword (str "true") (skip_ws s) with
      | Some r => Some (VBool true, r)
      | None =>
      match keyword (str "false") (skip_ws s) with
      | Some r => Some (VBool false, r)
      | None =>
      match json_number (skip_ws s) with
      | Some (n, r) => Some (VNumber n, r)
      | None => None
      end end end end end end end
  end

with json_elements (fuel : nat) (s : jsstring) (acc : list value)
  : option (value * jsstring) :=
  match fuel with
  | O => None
  | S fuel' =>
      match json_value fuel' s with
      | None => None
      | Some (v, r) =>
          match token 44 r with
          | Some r' => json_elements fuel' r' (acc ++ [v])
          | None =>
              match token 93 r with
              | Some r' => Some (VArray (acc ++ [v]), r')
              | None => None
              end
          end
      end
  end

with json_members (fuel : nat) (s : jsstring) (acc : list (jsstring * value))
  : option (value * jsstring) :=
  match fuel with
  | O => None
  | S fuel' =>
      match token 34 s with
      | None => None
      | Some rest =>
          match string_body rest with
          | None => None
          | Some (k, r) =>
              match token 58 r with
              | None => None
              | Some r1 =>
                  match json_value fuel' r1 with
                  | None => None
                  | Some (v, r2) =>
                      match token 44 r2 with
                      | Some r3 => json_members fuel' r3 (set_property acc k v)
                      | None =>
                          match token 125 r2 with
                          | Some r3 => Some (VObject (set_property acc k v), r3)
                          | None => None
                          end
                      end
                  end
              end
          end
      end
  end.

(** [JSON.parse(text)]: one value, white space around it, nothing else;
    a SyntaxError otherwise. *)
Definition JSON_parse (text : jsstring) : completion value :=
  match json_value (2 * List.length text + 2) text with
  | Some (v, rest) =>
      match skip_ws rest with
      | [] => Normal v
      | _ => Throw SyntaxError
      end
  | None => Throw SyntaxError
  end.

End JS.

(* ================================================================== *)
(** * netlify/functions/analyzeListing.js *)
(* ================================================================== *)

Module Netlify.
Import JS.

(** The record the front-end receives ([cleaned] in the source). *)
Record ListingReport := {
  vehicle_title : jsstring;
  lens_score : number;
  summary : jsstring;
  market_value_estimate : jsstring;
  red_flags : list jsstring;
  questions_to_ask : list jsstring
}.

(** The object literals handed to [response], before JSON.stringify. *)
Inductive bodyObj :=
| BodyOk                                   (* { ok: true } *)
| BodyError (error : jsstring) (raw : option jsstring)
                                           (* { error } and { error, raw } *)
| BodyFailed (error : jsstring) (err : exn)
                                           (* { error, message: err.message } *)
| BodyData (data : ListingReport).         (* { data: cleaned } *)

(** What [response(statusCode, bodyObj)] returns; the headers are the same
    constant on every call and are left out. *)
Record http_response := { statusCode : Z; body : bodyObj }.

Definition response (statusCode : Z) (b : bodyObj) : http_response :=
  {| statusCode := statusCode; body := b |}.

Definition clamp (n min max : number) : number :=
  Math_max min (Math_min max n).

(** [extractJson(text)]; [null] is [VNull]. *)
Definition extractJson (text : jsstring) : value :=
  match text with
  | [] => VNull
  | _ =>
      (* 1) direct parse *)
      match JSON_parse text with
      | Normal v => v
      | Throw _ =>
          (* 2) find first {...} block *)
          let start := indexOf text (str "{") in
          let end_ := lastIndexOf text (str "}") in
          if negb (start =? -1) && negb (end_ =? -1) && (end_ >? start) then
            let candidate := slice text start (end_ + 1) in
            match JSON_parse candidate with
            | Normal v => v
            | Throw _ => VNull
            end
          else VNull
      end
  end.

(** [Number(x) || 50] and the like, on numbers. *)
Definition number_or (n d : number) : number :=
  if truthy (VNumber n) then n else d.

(** [(report.k || fallback).toString().slice(0, limit)]. *)
Definition text_field (report : value) (k fallback : jsstring) (limit : Z)
  : completion jsstring :=
  v <- Get report k ;;
  s <- toString (or_else v (VString fallback)) ;;
  Normal (slice s 0 limit).

(** [Array.isArray(report.k) ? report.k.map(String).slice(0, 8) : []]. *)
Definition list_field (report : value) (k : jsstring)
  : completion (list jsstring) :=
  v <- Get report k ;;
  match v with
  | VArray elems => l <- mapM String_ elems ;; Normal (slice l 0 8)
  | _ => Normal []
  end.

Definition fallback_questions : list jsstring :=
  [ str "Can you confirm the service history and provide receipts/logbook photos?";
    str "Any accidents, repairs, paintwork, flood/hail damage, or insurance claims?";
    str "Is there finance owing, and can we do a PPSR check / clear title confirmation?" ].

(** "Ensure questions_to_ask has at least 3 items". *)
Definition ensure_questions (qs : list jsstring) : list jsstring :=
  if Z.of_nat (List.length qs) <? 3
  then slice (qs ++ fallback_questions) 0 8
  else qs.

(** "Normalize + guardrails": the object [cleaned] built from [report],
    fields evaluated in the order of the object literal, followed by the
    back-fill of [questions_to_ask]. *)
Definition cleaned (report : value) : completion ListingReport :=
  vehicle_title <- text_field report (str "vehicle_title") (str "Unknown Vehicle") 120 ;;
  ls <- Get report (str "lens_score") ;;
  n <- Number_ ls ;;
  summary <- text_field report (str "summary") (str "No summary returned.") 500 ;;
  market_value_estimate <- text_field report (str "market_value_estimate") (str "Unknown") 80 ;;
  red_flags <- list_field report (str "red_flags") ;;
  questions_to_ask <- list_field report (str "questions_to_ask") ;;
  Normal {| vehicle_title := vehicle_title;
            lens_score := clamp (number_or n (Finite 50 0)) (Finite 0 0) (Finite 100 0);
            summary := summary;
            market_value_estimate := market_value_estimate;
            red_flags := red_flags;
            questions_to_ask := ensure_questions questions_to_ask |}.

(** [cleaned] as the object it is: what a second pass would read. *)
Definition report_value (r : ListingReport) : value :=
  VObject
    [ (str "vehicle_title", VString (vehicle_title r));
      (str "lens_score", VNumber (lens_score r));
      (str "summary", VString (summary r));
      (str "market_value_estimate", VString (market_value_estimate r));
      (str "red_flags", VArray (List.map VString (red_flags r)));
      (str "questions_to_ask", VArray (List.map VString (questions_to_ask r))) ].

(** [cleaned] when [report] has none of the six properties. *)
Definition default_report : ListingReport :=
  {| vehicle_title := str "Unknown Vehicle";
     lens_score := Finite 50 0;
     summary := str "No summary returned.";
     market_value_estimate := str "Unknown";
     red_flags := [];
     questions_to_ask := fallback_questions |}.

(** The value read by [report.k], for a [report] that is neither [null]
    nor [undefined]. *)
Definition field (report : value) (k : jsstring) : value :=
  match Get report k with
  | Normal v => v
  | Throw _ => VUndefined
  end.

(** The handler from [extractJson(outText)] to its [return]: the
    extraction-failure reply, or the reply carrying [cleaned]. *)
Definition normalize (outText : jsstring) : completion http_response :=
  let report := extractJson outText in
  if negb (truthy report) then
    Normal (response 502 (BodyError (str "Model returned non-JSON output")
                                    (Some (slice outText 0 2000))))
  else
    c <- cleaned report ;;
    Normal (response 200 (BodyData c)).

(** [catch (err)] of the handler. *)
Definition catch_err (c : completion http_response) : http_response :=
  match c with
  | Normal r => r
  | Throw err => response 500 (BodyFailed (str "Analysis failed") err)
  end.

Record event := {
  httpMethod : jsstring;
  event_body : option jsstring       (* [event.body]; absent or null is None *)
}.

(** Result of a run: the requests sent to the model, in order, and the
    reply, or the error the handler let escape. *)
Record outcome := {
  gateway_calls : list (list jsstring);
  result : completion http_response
}.

Definition finish (r : http_response) : outcome :=
  {| gateway_calls := []; result := Normal r |}.

Definition escape (e : exn) : outcome :=
  {| gateway_calls := []; result := Throw e |}.

Definition nonempty (o : option jsstring) : bool :=
  match o with Some (_ :: _) => true | _ => false end.

(** [event.body || "{}"]. *)
Definition body_text (ev : event) : jsstring :=
  match event_body ev with
  | Some (c :: b) => c :: b
  | _ => str "{}"
  end.

Section Handler.
(** [client.responses.create] followed by [resp.output_text]: the images
    sent (as data URLs; the two prompts are constants) give the text of
    the reply, if any, or the call throws. *)
Variable responses_create : list jsstring -> completion (option jsstring).

(** [process.env.OPENAI_API_KEY]. *)
Variable OPENAI_API_KEY : option jsstring.

(** The [try] block, given the data URLs of the images. *)
Definition analyse (urls : list jsstring) : outcome :=
  {| gateway_calls := [urls];
     result :=
       Normal (catch_err (
         output_text <- responses_create urls ;;
         let outText := match output_text with
                        | Some t => t
                        | None => []
                        end in
         normalize outText)) |}.

Definition handler (ev : event) : outcome :=
  if jsstring_eqb (httpMethod ev) (str "OPTIONS") then finish (response 200 BodyOk)
  else if negb (jsstring_eqb (httpMethod ev) (str "POST")) then
    finish (response 405 (BodyError (str "Method Not Allowed") None))
  else if negb (nonempty OPENAI_API_KEY) then
    finish (response 500 (BodyError (str "Missing OPENAI_API_KEY in environment variables") None))
  else
    match JSON_parse (body_text ev) with
    | Throw _ => finish (response 400 (BodyError (str "Invalid JSON body") None))
    | Normal payload =>
        match Get payload (str "imageBase64"), Get payload (str "mimeType") with
        | Throw e, _ | _, Throw e => escape e
        | Normal imageBase64, Normal mt =>
            let mimeType := or_else mt (VString (str "image/jpeg")) in
            match imageBase64 with
            | VString img =>
                if negb (truthy imageBase64) then
                  finish (response 400 (BodyError (str "imageBase64 is required") None))
                else if Z.of_nat (List.length img) >? 12000000 then
                  finish (response 413 (BodyError (str "Image too large. Use a smaller screenshot.") None))
                else
                  match ToString mimeType with
                  | Throw e => escape e
                  | Normal m =>
                      analyse [str "data:" ++ m ++ str ";base64," ++ img]
                  end
            | _ => finish (response 400 (BodyError (str "imageBase64 is required") None))
            end
        end
    end.
End Handler.

End Netlify.

(* ================================================================== *)
(** * The multi-image Netlify handler *)
(* ================================================================== *)

Module NetlifyMulti.
Import JS.
Import Netlify.

(** The "size guard per image" loop: the first image that is not a string,
    or is too long, ends the handler with its reply. *)
Fixpoint size_guard (imgs : list value) : option http_response :=
  match imgs with
  | [] => None
  | img :: rest =>
      match img with
      | VString s =>
          if Z.of_nat (List.length s) >? 12000000 then
            Some (response 413 (BodyError (str "One of the images is too large.") None))
          else size_guard rest
      | _ => Some (response 400 (BodyError (str "All images must be base64 strings") None))
      end
  end.

Definition string_of (v : value) : jsstring :=
  match v with VString s => s | _ => [] end.

Section Handler.
Variable responses_create : list jsstring -> completion (option jsstring).
Variable OPENAI_API_KEY : option jsstring.

(** The handler; its [try] block is the one of the single-image handler
    ([Netlify.analyse]: same extraction, same [cleaned], same [catch]),
    with one data URL per image. *)
Definition handler (ev : event) : outcome :=
  if jsstring_eqb (httpMethod ev) (str "OPTIONS") then finish (response 200 BodyOk)
  else if negb (jsstring_eqb (httpMethod ev) (str "POST")) then
    finish (response 405 (BodyError (str "Method Not Allowed") None))
  else if negb (nonempty OPENAI_API_KEY) then
    finish (response 500 (BodyError (str "Missing OPENAI_API_KEY") None))
  else
    match JSON_parse (body_text ev) with
    | Throw _ => finish (response 400 (BodyError (str "Invalid JSON body") None))
    | Normal payload =>
        match Get payload (str "imagesBase64") with
        | Throw e => escape e
        | Normal (VArray imagesBase64) =>
            if Z.of_nat (List.length imagesBase64) =? 0 then
              finish (response 400 (BodyError (str "imagesBase64 must be a non-empty array") None))
            else if Z.of_nat (List.length imagesBase64) >? 4 then
              finish (response 400 (BodyError (str "Maximum 4 images allowed") None))
            else
              match size_guard imagesBase64 with
              | Some r => finish r
              | None =>
                  analyse responses_create
                    (List.map (fun b64 => str "data:image/jpeg;base64," ++ string_of b64)
                              imagesBase64)
              end
        | Normal _ =>
            finish (response 400 (BodyError (str "imagesBase64 must be a non-empty array") None))
        end
    end.
End Handler.

End NetlifyMulti.

(* ================================================================== *)
(** * functions/index.js *)
(* ================================================================== *)

Module Firebase.
Import JS.

Inductive FunctionsErrorCode := invalid_argument | internal.

(** What the callable gives back: [{ success: true, data }], an
    [HttpsError], or an error that escapes the function. *)
Inductive call_result :=
| Success (data : value)
| HttpsError (code : FunctionsErrorCode) (cause : option exn)
| Uncaught (e : exn).

Record outcome := {
  gateway_calls : list (list value);
  result : call_result
}.

Section Callable.
(** [model.generateContent] followed by [response.text()]: the image
    parts sent (after the prompt part) give the text, or the call
    throws. *)
Variable generateContent : list value -> completion jsstring.

(** Text of the reply to the value returned as [data]. *)
Definition parse_reply (text : jsstring) : completion value :=
  let jsonStr := trim (remove_all (str "```") (remove_all (str "```json") text)) in
  JSON_parse jsonStr.

(** The [try] block; [images.forEach] throws when [images] is no array. *)
Definition generate (images : value) : outcome :=
  match images with
  | VArray parts =>
      {| gateway_calls := [parts];
         result :=
           match (text <- generateContent parts ;; parse_reply text) with
           | Normal data => Success data
           | Throw e => HttpsError internal (Some e)
           end |}
  | _ => {| gateway_calls := []; result := HttpsError internal (Some TypeError) |}
  end.

(** [analyzeListing], applied to [request.data]. *)
Definition analyzeListing (data : value) : outcome :=
  match Get data (str "images") with
  | Throw e => {| gateway_calls := []; result := Uncaught e |}
  | Normal imgs =>
      if truthy imgs then generate imgs
      else
        match Get data (str "imageBase64") with
        | Throw e => {| gateway_calls := []; result := Uncaught e |}
        | Normal img =>
            if truthy img then generate (VArray [img])
            else {| gateway_calls := [];
                    result := HttpsError invalid_argument None |}
        end
  end.
End Callable.

End Firebase.

(* ================================================================== *)
(** * Sample inputs, and the claims that fail as they are stated *)
(* ================================================================== *)

Import JS.
Import Netlify.

(** JSON texts are written with ['] where the text has the double quote. *)
Definition text (s : string) : jsstring :=
  List.map (fun c => if N.eqb c 39 then 34%N else c) (str s).

(** [{"lens_score": 0}] *)
Definition report_score_zero : value :=
  VObject [(str "lens_score", VNumber (Finite 0 0))].

(** [{"lens_score": 85.5}] *)
Definition report_score_fraction : value :=
  VObject [(str "lens_score", VNumber (Finite 855 (-1)))].

(** [{"lens_score": 999}] *)
Definition report_score_large : value :=
  VObject [(str "lens_score", VNumber (Finite 999 0))].

(** Two questions, the second being the first fallback question. *)
Definition two_questions : list jsstring :=
  [ str "Any accidents?";
    str "Can you confirm the service history and provide receipts/logbook photos?" ].

(** The object whose [questions_to_ask] holds these two. *)
Definition report_two_questions : value :=
  VObject [(str "questions_to_ask", VArray (List.map VString two_questions))].

(** [cleaned] of it: the two entries, then the three fallback questions. *)
Definition cleaned_two_questions : ListingReport :=
  {| vehicle_title := str "Unknown Vehicle";
     lens_score := Finite 50 0;
     summary := str "No summary returned.";
     market_value_estimate := str "Unknown";
     red_flags := [];
     questions_to_ask := two_questions ++ fallback_questions |}.

(** C3 as stated: whenever the property coerces to a number the score is
    that number clamped to [0,100] (so 0 gives 0), it is 50 when the
    coercion gives NaN, and it is an integer between 0 and 100. *)
Definition lens_score_as_stated (report : value) : Prop :=
  forall r n,
    cleaned report = Normal r ->
    Number_ (field report (str "lens_score")) = Normal n ->
    (is_NaN n = false -> lens_score r = clamp n (Finite 0 0) (Finite 100 0))
    /\ (is_NaN n = true -> lens_score r = Finite 50 0)
    /\ is_integer (lens_score r) = true
    /\ num_leb (Finite 0 0) (lens_score r) = true
    /\ num_leb (lens_score r) (Finite 100 0) = true.

(** [{"vehicle_title": []}] *)
Definition report_title_empty_array : value :=
  VObject [(str "vehicle_title", VArray [])].

(** [{"vehicle_title": 2019}] *)
Definition report_title_number : value :=
  VObject [(str "vehicle_title", VNumber (Finite 2019 0))].

(** [{"lens_score": -10}] *)
Definition report_score_negative : value :=
  VObject [(str "lens_score", VNumber (Finite (-10) 0))].

(** The rule of a text field: the property's own text when the property is
    truthy, the fallback otherwise, cut to [limit] code units. *)
Definition text_rule (report : value) (k fallback : jsstring) (limit : Z)
  (s : jsstring) : Prop :=
  (truthy (field report k) = true
   /\ exists t, toString (field report k) = Normal t /\ s = slice t 0 limit)
  \/ (truthy (field report k) = false /\ s = slice fallback 0 limit).

(** C7 as stated: the title follows the rule, has at most 120 code units
    and is not empty. *)
Definition vehicle_title_as_stated (report : value) : Prop :=
  forall r,
    cleaned report = Normal r ->
    vehicle_title r <> []
    /\ Z.of_nat (List.length (vehicle_title r)) <= 120
    /\ text_rule report (str "vehicle_title") (str "Unknown Vehicle") 120
         (vehicle_title r).

(** C2 as stated: a second pass over [cleaned] changes nothing. *)
Definition idempotent_as_stated (x : value) : Prop :=
  forall r, cleaned x = Normal r -> cleaned (report_value r) = Normal r.

(** [s || fallback] on texts. *)
Definition or_fallback (s fallback : jsstring) : jsstring :=
  match s with [] => fallback | _ => s end.

(** [r] with its empty texts replaced by their fallbacks. *)
Definition refilled (r : ListingReport) : ListingReport :=
  {| vehicle_title := or_fallback (vehicle_title r) (str "Unknown Vehicle");
     lens_score := lens_score r;
     summary := or_fallback (summary r) (str "No summary returned.");
     market_value_estimate := or_fallback (market_value_estimate r) (str "Unknown");
     red_flags := red_flags r;
     questions_to_ask := questions_to_ask r |}.

(** [default_report] with another title and score. *)
Definition report_with (title : jsstring) (score : number) : ListingReport :=
  {| vehicle_title := title;
     lens_score := score;
     summary := str "No summary returned.";
     market_value_estimate := str "Unknown";
     red_flags := [];
     questions_to_ask := fallback_questions |}.

(** [{"vehicle_title": {"toString": 1}}] *)
Definition report_title_shadowed : value :=
  VObject [(str "vehicle_title", VObject [(str "toString", VNumber (Finite 1 0))])].

(** C1 as stated: on every value that extraction hands over, [cleaned]
    returns a report, so the step after extraction never throws. *)
Definition total_as_stated (raw : jsstring) : Prop :=
  truthy (extractJson raw) = true ->
  exists r, cleaned (extractJson raw) = Normal r.

(** The conversions [cleaned] performs all return: the four scalar
    properties are convertible, and so are the elements of the two lists
    when these are arrays. *)
Definition fields_convertible (report : value) : bool :=
  let list_ok v := if isArray v then convertible v else true in
  convertible (field report (str "vehicle_title"))
  && convertible (field report (str "lens_score"))
  && convertible (field report (str "summary"))
  && convertible (field report (str "market_value_estimate"))
  && list_ok (field report (str "red_flags"))
  && list_ok (field report (str "questions_to_ask")).

(** [ToString] returns on [v], or throws a TypeError, as [convertible]
    tells. *)
Definition ToString_decided (v : value) : Prop :=
  (convertible v = true -> exists s, ToString v = Normal s)
  /\ (convertible v = false -> ToString v = Throw TypeError).

(** C4 as stated: when the text from the first [{] to the last [}] parses
    as an object, [extractJson] returns that object. *)
Definition extract_as_stated (raw : jsstring) : Prop :=
  forall props,
    indexOf raw (str "{") <> -1 ->
    lastIndexOf raw (str "}") > indexOf raw (str "{") ->
    JSON_parse (slice raw (indexOf raw (str "{")) (lastIndexOf raw (str "}") + 1))
    = Normal (VObject props) ->
    extractJson raw = VObject props.

(** The reply of the handler when nothing was extracted. *)
Definition extraction_failure (outText : jsstring) : http_response :=
  response 502 (BodyError (str "Model returned non-JSON output")
                          (Some (slice outText 0 2000))).

(** An image the size guard refuses: no string, or a string of more than
    12,000,000 code units. *)
Definition refused_image (v : value) : bool :=
  match v with
  | VString s => Z.of_nat (List.length s) >? 12000000
  | _ => true
  end.

(** An image sequence the transport contract refuses: no sequence, empty,
    more than 4 elements, or holding a refused image. *)
Definition invalid_images (imgs : value) : bool :=
  match imgs with
  | VArray l =>
      (Z.of_nat (List.length l) =? 0) || (Z.of_nat (List.length l) >? 4)
      || existsb refused_image l
  | _ => true
  end.

(** C8 as stated, on the Firebase callable: an invalid sequence is turned
    down as an invalid argument and the model is not called. *)
Definition images_checked_as_stated
  (generateContent : list value -> completion jsstring) (data : value) : Prop :=
  forall imgs,
    Get data (str "images") = Normal (VArray imgs) ->
    invalid_images (VArray imgs) = true ->
    Firebase.analyzeListing generateContent data
    = {| Firebase.gateway_calls := [];
         Firebase.result := Firebase.HttpsError Firebase.invalid_argument None |}.

(** [{"images": ["a", "b", "c", "d", "e"]}] as [request.data]. *)
Definition five_images : list value :=
  [VString (str "a"); VString (str "b"); VString (str "c"); VString (str "d");
   VString (str "e")].

Definition data_five_images : value := VObject [(str "images", VArray five_images)].

(** A POST whose body holds five images. *)
Definition event_five_images : event :=
  {| httpMethod := str "POST";
     event_body := Some (text "{'imagesBase64': ['a', 'b', 'c', 'd', 'e']}") |}.

(** A POST with one image. *)
Definition event_one_image : event :=
  {| httpMethod := str "POST";
     event_body := Some (text "{'imageBase64': 'abc'}") |}.

(** A model that always replies with the same text. *)
Definition replies (t : jsstring) : list value -> completion jsstring :=
  fun _ => Normal t.

Definition replies_text (t : jsstring) : list jsstring -> completion (option jsstring) :=
  fun _ => Normal (Some t).

(** The bounds every [cleaned] meets. *)
Definition report_bounds (r : ListingReport) : Prop :=
  Z.of_nat (List.length (vehicle_title r)) <= 120
  /\ num_leb (Finite 0 0) (lens_score r) = true
  /\ num_leb (lens_score r) (Finite 100 0) = true
  /\ Z.of_nat (List.length (summary r)) <= 500
  /\ Z.of_nat (List.length (market_value_estimate r)) <= 80
  /\ (List.length (red_flags r) <= 8)%nat
  /\ (3 <= List.length (questions_to_ask r) <= 8)%nat.

(** The invariants of the data model: the bounds, a title that is not
    empty and an integer score. *)
Definition report_invariants (r : ListingReport) : Prop :=
  report_bounds r
  /\ vehicle_title r <> []
  /\ is_integer (lens_score r) = true.

(** C9 as stated, on the Firebase callable: the data of a success is a
    report that meets the invariants. *)
Definition firebase_success_as_stated
  (generateContent : list value -> completion jsstring) (data : value) : Prop :=
  forall d,
    Firebase.result (Firebase.analyzeListing generateContent data) = Firebase.Success d ->
    exists r, d = report_value r /\ report_invariants r.

(** C9 as stated, on the single-image Netlify handler. *)
Definition netlify_success_as_stated
  (responses_create : list jsstring -> completion (option jsstring))
  (key : option jsstring) (ev : event) : Prop :=
  forall resp d,
    result (Netlify.handler responses_create key ev) = Normal resp ->
    body resp = BodyData d ->
    report_invariants d.

(** [{"imageBase64": "abc"}] as [request.data]. *)
Definition data_one_image : value :=
  VObject [(str "imageBase64", VString (str "abc"))].

(** [cleaned] of [{"vehicle_title": [], "lens_score": 85.5}]. *)
Definition cleaned_degraded : ListingReport := report_with [] (Finite 855 (-1)).

(** A reply inside a code fence tagged json, the fence lines ending in a
    line feed. *)
Definition fenced_reply : jsstring :=
  str "```json" ++ [10%N]
  ++ text "{'vehicle_title':'2019 Toyota Hilux','lens_score':85,'summary':'Solid truck.','market_value_estimate':'$28k-$33k','red_flags':[],'questions_to_ask':['Any accidents?']}"
  ++ [10%N] ++ str "```".

(** [cleaned] for that reply. *)
Definition cleaned_hilux : ListingReport :=
  {| vehicle_title := str "2019 Toyota Hilux";
     lens_score := Finite 85 0;
     summary := str "Solid truck.";
     market_value_estimate := str "$28k-$33k";
     red_flags := [];
     questions_to_ask := str "Any accidents?" :: fallback_questions |}.

(** [{"lens_score": "1e999"}]: a text that reads as an infinity. *)
Definition report_score_infinite : value :=
  VObject [(str "lens_score", VString (str "1e999"))].

(** [{"red_flags": [1, null, "rust", true, [2, 3], {}, 7, 8, 9, 10]}] *)
Definition report_ten_flags : value :=
  VObject [(str "red_flags",
            VArray [VNumber (Finite 1 0); VNull; VString (str "rust"); VBool true;
                    VArray [VNumber (Finite 2 0); VNumber (Finite 3 0)]; VObject [];
                    VNumber (Finite 7 0); VNumber (Finite 8 0); VNumber (Finite 9 0);
                    VNumber (Finite 10 0)])].

(** The first eight of them, as texts. *)
Definition eight_flags : list jsstring :=
  List.map str ["1"; "null"; "rust"; "true"; "2,3"; "[object Object]"; "7"; "8"]%string.

(** [{"summary": ["a", ["b"]], "market_value_estimate": 15000}] *)
Definition report_odd_texts : value :=
  VObject [(str "summary", VArray [VString (str "a"); VArray [VString (str "b")]]);
           (str "market_value_estimate", VNumber (Finite 15000 0))].

(** The six properties [cleaned] reads. *)
Definition report_keys : list jsstring :=
  List.map str ["vehicle_title"; "lens_score"; "summary"; "market_value_estimate";
                "red_flags"; "questions_to_ask"]%string.

(** [{"lens_score": 7, "red_flags": ["rust"], "note": "x"}] *)
Definition report_with_note : value :=
  VObject [(str "lens_score", VNumber (Finite 7 0));
           (str "red_flags", VArray [VString (str "rust")]);
           (str "note", VString (str "x"))].

(** [{"extra": [1], "red_flags": ["rust"], "lens_score": 7}] *)
Definition report_with_extra : value :=
  VObject [(str "extra", VArray [VNumber (Finite 1 0)]);
           (str "red_flags", VArray [VString (str "rust")]);
           (str "lens_score", VNumber (Finite 7 0))].

(** No code unit of [s] is [c]. *)
Definition no_char (c : N) (s : jsstring) : bool :=
  forallb (fun x => negb (N.eqb x c)) s.

(** The data URL the single-image handler sends. *)
Definition data_url (mime img : jsstring) : jsstring :=
  str "data:" ++ mime ++ str ";base64," ++ img.

(** A GET request. *)
Definition event_get : event :=
  {| httpMethod := str "GET"; event_body := Some (text "{'imageBase64': 'abc'}") |}.

(** A POST whose body is the JSON text null. *)
Definition event_null_body : event :=
  {| httpMethod := str "POST"; event_body := Some (str "null") |}.

(** A POST with one image and a MIME type. *)
Definition event_png : event :=
  {| httpMethod := str "POST";
     event_body := Some (text "{'imageBase64': 'abc', 'mimeType': 'image/png'}") |}.

(** A POST whose MIME type is an object with a property named toString. *)
Definition event_mime_shadowed : event :=
  {| httpMethod := str "POST";
     event_body := Some (text "{'imageBase64': 'abc', 'mimeType': {'toString': 1}}") |}.

(** A POST whose image is a number. *)
Definition event_image_number : event :=
  {| httpMethod := str "POST"; event_body := Some (text "{'imageBase64': 42}") |}.

(** A POST with two images. *)
Definition event_two_images : event :=
  {| httpMethod := str "POST";
     event_body := Some (text "{'imagesBase64': ['abc', 'def']}") |}.

(** A POST with six images, the first of which is no string. *)
Definition event_six_images : event :=
  {| httpMethod := str "POST";
     event_body := Some (text "{'imagesBase64': [1, 'b', 'c', 'd', 'e', 'f']}") |}.

(** The status and the body of a reply go together. *)
Definition reply_shape (resp : http_response) : Prop :=
  match body resp with
  | BodyOk => statusCode resp = 200
  | BodyData _ => statusCode resp = 200
  | BodyFailed error _ => statusCode resp = 500 /\ error = str "Analysis failed"
  | BodyError _ (Some raw) =>
      statusCode resp = 502 /\ (List.length raw <= 2000)%nat
  | BodyError _ None =>
      statusCode resp = 400 \/ statusCode resp = 405
      \/ statusCode resp = 413 \/ statusCode resp = 500
  end.

(** The reply the size guard gives for the first refused image, if any. *)
Definition first_refusal (imgs : list value) : option http_response :=
  match find refused_image imgs with
  | None => None
  | Some (VString _) =>
      Some (response 413 (BodyError (str "One of the images is too large.") None))
  | Some _ =>
      Some (response 400 (BodyError (str "All images must be base64 strings") None))
  end.

(** The data URL the multi-image handler sends for one image. *)
Definition jpeg_url (img : jsstring) : jsstring :=
  str "data:image/jpeg;base64," ++ img.

(** A POST with three images, the second a number and the third an
    object. *)
Definition event_bad_second : event :=
  {| httpMethod := str "POST";
     event_body := Some (text "{'imagesBase64': ['abc', 7, {}]}") |}.

(** [{"images": [], "imageBase64": "abc"}] as [request.data]. *)
Definition data_empty_images : value :=
  VObject [(str "images", VArray []); (str "imageBase64", VString (str "abc"))].

(** [{"images": "abc", "imageBase64": "def"}] as [request.data]. *)
Definition data_images_string : value :=
  VObject [(str "images", VString (str "abc"));
           (str "imageBase64", VString (str "def"))].

(** [{}] as [request.data]. *)
Definition data_no_image : value := VObject [].

(** What the Firebase callable gives back when no image is given. *)
Definition image_data_missing : Firebase.outcome :=
  {| Firebase.gateway_calls := [];
     Firebase.result := Firebase.HttpsError Firebase.invalid_argument None |}.

(** [p] occurs in [s]. *)
Fixpoint occurs (p s : jsstring) : bool :=
  starts_with p s || match s with
                     | [] => false
                     | _ :: s' => occurs p s'
                     end.

(** A model whose call fails. *)
Definition quota_exceeded : list jsstring -> completion (option jsstring) :=
  fun _ => Throw (ProviderError (str "quota")).

(* ================================================================== *)
(** * Properties *)
(* ================================================================== *)

(** ** The parser does not depend on its fuel *)

Lemma skip_ws_length (s : jsstring) :
  (List.length (skip_ws s) <= List.length s)%nat.
Proof.
  induction s as [|c s IH]; simpl; [lia|].
  destruct (is_json_ws c); simpl; lia.
Qed.

Lemma token_length (c : N) (s r : jsstring) :
  token c s = Some r -> (List.length r < List.length s)%nat.
Proof.
  unfold token. pose proof (skip_ws_length s) as H.
  destruct (skip_ws s) as [|d t]; [discriminate|].
  destruct (N.eqb d c); [|discriminate].
  intros E. injection E as <-. simpl in H. lia.
Qed.

Lemma keyword_length (k s r : jsstring) :
  keyword k s = Some r -> (List.length r <= List.length s)%nat.
Proof.
  unfold keyword. destruct (starts_with k s); [|discriminate].
  intros E. injection E as <-. rewrite length_skipn. lia.
Qed.

Lemma strip_char_length (c : N) (s : jsstring) :
  (List.length (snd (strip_char c s)) <= List.length s)%nat.
Proof.
  unfold strip_char. destruct s as [|d t]; simpl; [lia|].
  destruct (N.eqb d c); simpl; lia.
Qed.

Lemma span_digits_length (s : jsstring) :
  (List.length (snd (span_digits s)) <= List.length s)%nat.
Proof.
  induction s as [|c s IH]; simpl; [lia|].
  destruct (is_digit c); simpl; [|lia].
  destruct (span_digits s) as [ds r]. simpl in *. lia.
Qed.

Lemma exponent_of_length (s r : jsstring) (x : Z) :
  exponent_of s = Some (x, r) -> (List.length r <= List.length s)%nat.
Proof.
  unfold exponent_of. destruct s as [|c s']; [intros E; injection E as _ <-; lia|].
  destruct (N.eqb c 101 || N.eqb c 69)%bool; [|intros E; injection E as _ <-; lia].
  pose proof (strip_char_length 45 s') as H1.
  destruct (strip_char 45 s') as [neg s1]. simpl in H1.
  pose proof (strip_char_length 43 s1) as H2.
  set (s2 := if neg then s1 else snd (strip_char 43 s1)).
  assert (H3 : (List.length s2 <= List.length s1)%nat)
    by (unfold s2; destruct neg; lia).
  pose proof (span_digits_length s2) as H4.
  destruct (span_digits s2) as [ds r']. simpl in H4.
  destruct ds; [discriminate|].
  intros E. injection E as _ <-. simpl. lia.
Qed.

Lemma cons_char_Some (c : N) (o : option (jsstring * jsstring)) (t r : jsstring) :
  cons_char c o = Some (t, r) -> exists t', o = Some (t', r).
Proof.
  destruct o as [[t' r']|]; simpl; [|discriminate].
  intros E. injection E as _ <-. eauto.
Qed.

Lemma string_body_length (s t r : jsstring) :
  string_body s = Some (t, r) -> (List.length r <= List.length s)%nat.
Proof.
  remember (List.length s) as n eqn:Hn.
  assert (Hle : (List.length s <= n)%nat) by lia. clear Hn.
  revert s t r Hle. induction n as [|n IH]; intros s t r Hle.
  - destruct s; [discriminate | simpl in Hle; lia].
  - destruct s as [|c rest]; [discriminate|]. simpl in Hle. simpl.
    destruct (N.eqb c 34); [intros E; injection E as _ <-; lia|].
    destruct (N.eqb c 92).
    + destruct rest as [|e rest1]; [discriminate|]. simpl in Hle.
      destruct (N.eqb e 117).
      * destruct rest1 as [|a [|b [|c' [|d rest2]]]]; try discriminate.
        simpl in Hle. destruct (hex4 a b c' d); [|discriminate].
        intros E. apply cons_char_Some in E. destruct E as (t' & E).
        apply IH in E; [simpl; lia | lia].
      * destruct (escape_char e); [|discriminate].
        intros E. apply cons_char_Some in E. destruct E as (t' & E).
        apply IH in E; [simpl; lia | lia].
    + destruct (c <? 32)%N; [discriminate|].
      intros E. apply cons_char_Some in E. destruct E as (t' & E).
      apply IH in E; [lia | lia].
Qed.

Lemma json_number_length (s r : jsstring) (n : number) :
  json_number s = Some (n, r) -> (List.length r <= List.length s)%nat.
Proof.
  unfold json_number.
  pose proof (strip_char_length 45 s) as H1.
  destruct (strip_char 45 s) as [neg s1]. simpl in H1.
  pose proof (strip_char_length 48 s1) as H2.
  pose proof (span_digits_length s1) as H3.
  assert (Hi : forall ip r1,
             match strip_char 48 s1 with
             | (true, t) => Some ([48%N], t)
             | (false, _) =>
                 match span_digits s1 with
                 | ([], _) => None
                 | r => Some r
                 end
             end = Some (ip, r1) -> (List.length r1 <= List.length s1)%nat).
  { intros ip r1. destruct (strip_char 48 s1) as [[|] t]; simpl in H2.
    - intros E. injection E as _ <-. exact H2.
    - destruct (span_digits s1) as [[|d ds] r']; [discriminate|].
      intros E. injection E as _ <-. exact H3. }
  destruct (match strip_char 48 s1 with
            | (true, t) => Some ([48%N], t)
            | (false, _) =>
                match span_digits s1 with
                | ([], _) => None
                | r => Some r
                end
            end) as [[ip r1]|]; [|discriminate].
  specialize (Hi ip r1 eq_refl).
  pose proof (strip_char_length 46 r1) as H4.
  destruct (strip_char 46 r1) as [[|] t]; simpl in H4.
  - pose proof (span_digits_length t) as H5.
    destruct (span_digits t) as [[|d ds] r2]; [discriminate|]. simpl in H5.
    destruct (exponent_of r2) as [[x r3]|] eqn:Ee; [|discriminate].
    apply exponent_of_length in Ee.
    intros E. injection E as _ <-. lia.
  - destruct (exponent_of r1) as [[x r3]|] eqn:Ee; [|discriminate].
    apply exponent_of_length in Ee.
    intros E. injection E as _ <-. lia.
Qed.

(** No parser returns more text than it was given. *)
Lemma json_rest_length (fuel : nat) :
  (forall s v r, json_value fuel s = Some (v, r) ->
                 (List.length r <= List.length s)%nat)
  /\ (forall s acc v r, json_elements fuel s acc = Some (v, r) ->
                        (List.length r <= List.length s)%nat)
  /\ (forall s acc v r, json_members fuel s acc = Some (v, r) ->
                        (List.length r <= List.length s)%nat).
Proof.
  induction fuel as [|fuel (IHv & IHe & IHm)];
    [repeat split; intros; discriminate|].
  split; [|split].
  - intros s v r. simpl.
    pose proof (skip_ws_length s) as Hws.
    destruct (token 34 s) as [rest|] eqn:E1.
    { apply token_length in E1.
      destruct (string_body rest) as [[t r']|] eqn:E2; [|discriminate].
      apply string_body_length in E2. intros E. injection E as _ <-. lia. }
    destruct (token 91 s) as [rest|] eqn:E2.
    { apply token_length in E2.
      destruct (token 93 rest) as [r'|] eqn:E3.
      - apply token_length in E3. intros E. injection E as _ <-. lia.
      - intros E. apply IHe in E. lia. }
    destruct (token 123 s) as [rest|] eqn:E3.
    { apply token_length in E3.
      destruct (token 125 rest) as [r'|] eqn:E4.
      - apply token_length in E4. intros E. injection E as _ <-. lia.
      - intros E. apply IHm in E. lia. }
    destruct (keyword (str "null") (skip_ws s)) as [r'|] eqn:E4.
    { apply keyword_length in E4. intros E. injection E as _ <-. lia. }
    destruct (keyword (str "true") (skip_ws s)) as [r'|] eqn:E5.
    { apply keyword_length in E5. intros E. injection E as _ <-. lia. }
    destruct (keyword (str "false") (skip_ws s)) as [r'|] eqn:E6.
    { apply keyword_length in E6. intros E. injection E as _ <-. lia. }
    destruct (json_number (skip_ws s)) as [[n r']|] eqn:E7; [|discriminate].
    apply json_number_length in E7. intros E. injection E as _ <-. lia.
  - intros s acc v r. simpl.
    destruct (json_value fuel s) as [[v' r0]|] eqn:E1; [|discriminate].
    apply IHv in E1.
    destruct (token 44 r0) as [r'|] eqn:E2.
    + apply token_length in E2. intros E. apply IHe in E. lia.
    + destruct (token 93 r0) as [r'|] eqn:E3; [|discriminate].
      apply token_length in E3. intros E. injection E as _ <-. lia.
  - intros s acc v r. simpl.
    destruct (token 34 s) as [rest|] eqn:E1; [|discriminate].
    apply token_length in E1.
    destruct (string_body rest) as [[k r0]|] eqn:E2; [|discriminate].
    apply string_body_length in E2.
    destruct (token 58 r0) as [r1|] eqn:E3; [|discriminate].
    apply token_length in E3.
    destruct (json_value fuel r1) as [[v' r2]|] eqn:E4; [|discriminate].
    apply IHv in E4.
    destruct (token 44 r2) as [r3|] eqn:E5.
    + apply token_length in E5. intros E. apply IHm in E. lia.
    + destruct (token 125 r2) as [r3|] eqn:E6; [|discriminate].
      apply token_length in E6. intros E. injection E as _ <-. lia.
Qed.

(** Beyond twice the length of the text, more fuel changes nothing. *)
Lemma json_fuel_enough (f1 : nat) :
  forall f2,
    (forall s, (2 * List.length s + 1 <= f1)%nat -> (2 * List.length s + 1 <= f2)%nat ->
               json_value f1 s = json_value f2 s)
    /\ (forall s acc, (2 * List.length s + 2 <= f1)%nat -> (2 * List.length s + 2 <= f2)%nat ->
                      json_elements f1 s acc = json_elements f2 s acc)
    /\ (forall s acc, (2 * List.length s + 2 <= f1)%nat -> (2 * List.length s + 2 <= f2)%nat ->
                      json_members f1 s acc = json_members f2 s acc).
Proof.
  induction f1 as [|f1 IH]; intros f2.
  - repeat split; intros; lia.
  - destruct f2 as [|f2]; [repeat split; intros; lia|].
    destruct (IH f2) as (IHv & IHe & IHm).
    destruct (json_rest_length f1) as (Lv & _ & _).
    split; [|split].
    + intros s H1 H2. simpl.
      destruct (token 34 s) as [rest|] eqn:E1; [reflexivity|].
      destruct (token 91 s) as [rest|] eqn:E2.
      { apply token_length in E2.
        destruct (token 93 rest); [reflexivity|]. apply IHe; lia. }
      destruct (token 123 s) as [rest|] eqn:E3; [|reflexivity].
      apply token_length in E3.
      destruct (token 125 rest); [reflexivity|]. apply IHm; lia.
    + intros s acc H1 H2. simpl.
      rewrite <- (IHv s) by lia.
      destruct (json_value f1 s) as [[v r0]|] eqn:E1; [|reflexivity].
      apply Lv in E1.
      destruct (token 44 r0) as [r'|] eqn:E2; [|reflexivity].
      apply token_length in E2. apply IHe; lia.
    + intros s acc H1 H2. simpl.
      destruct (token 34 s) as [rest|] eqn:E1; [|reflexivity].
      apply token_length in E1.
      destruct (string_body rest) as [[k r0]|] eqn:E2; [|reflexivity].
      apply string_body_length in E2.
      destruct (token 58 r0) as [r1|] eqn:E3; [|reflexivity].
      apply token_length in E3.
      rewrite <- (IHv r1) by lia.
      destruct (json_value f1 r1) as [[v r2]|] eqn:E4; [|reflexivity].
      apply Lv in E4.
      destruct (token 44 r2) as [r3|] eqn:E5; [|reflexivity].
      apply token_length in E5. apply IHm; lia.
Qed.

(** [JSON_parse] gives the result of the parser at any larger fuel. *)
Lemma json_value_fuel (text : jsstring) (fuel : nat) :
  (2 * List.length text + 2 <= fuel)%nat ->
  json_value fuel text = json_value (2 * List.length text + 2) text.
Proof.
  intros H. destruct (json_fuel_enough fuel (2 * List.length text + 2)) as (Hv & _).
  apply Hv; lia.
Qed.

(** ** Slices *)

Lemma slice_prefix {A : Type} (s : list A) (n : Z) :
  0 <= n -> slice s 0 n = firstn (Z.to_nat n) s.
Proof.
  intros Hn. unfold slice, slice_index.
  assert (H0 : (0 <? 0) = false) by reflexivity. rewrite H0.
  destruct (n <? 0) eqn:E; [apply Z.ltb_lt in E; lia|].
  rewrite (Z.min_l 0) by lia. simpl skipn.
  rewrite Z.sub_0_r.
  destruct (Z.le_ge_cases n (Z.of_nat (List.length s))) as [Hle|Hge].
  - rewrite Z.min_l by lia. reflexivity.
  - rewrite Z.min_r by lia. rewrite Nat2Z.id.
    rewrite firstn_all. symmetry. apply firstn_all2. lia.
Qed.

Lemma slice_prefix_length {A : Type} (s : list A) (n : Z) :
  0 <= n -> Z.of_nat (List.length (slice s 0 n)) <= n.
Proof.
  intros Hn. rewrite slice_prefix by assumption.
  pose proof (firstn_le_length (Z.to_nat n) s). lia.
Qed.

Lemma slice_prefix_short {A : Type} (s : list A) (n : Z) :
  Z.of_nat (List.length s) <= n -> slice s 0 n = s.
Proof.
  intros H. rewrite slice_prefix by lia. apply firstn_all2. lia.
Qed.

Lemma slice_prefix_idem {A : Type} (s : list A) (n : Z) :
  0 <= n -> slice (slice s 0 n) 0 n = slice s 0 n.
Proof.
  intros Hn. apply slice_prefix_short. apply slice_prefix_length, Hn.
Qed.

Lemma slice_prefix_nonempty {A : Type} (s : list A) (n : Z) :
  0 < n -> s <> [] -> slice s 0 n <> [].
Proof.
  intros Hn Hs. rewrite slice_prefix by lia.
  destruct s as [|x s]; [congruence|].
  destruct (Z.to_nat n) eqn:E; [lia|]. simpl. discriminate.
Qed.

(** ** Order on numbers and [clamp] *)

Lemma num_ltb_leb (a b : number) : num_ltb a b = true -> num_leb a b = true.
Proof.
  destruct a, b; simpl; try congruence.
  intros H. apply Z.ltb_lt in H. apply Z.leb_le. lia.
Qed.

Lemma num_ltb_false_leb (a b : number) :
  is_NaN a = false -> is_NaN b = false ->
  num_ltb a b = false -> num_leb b a = true.
Proof.
  destruct a, b; simpl; try congruence.
  intros _ _ H. apply Z.ltb_ge in H. apply Z.leb_le.
  rewrite Z.min_comm. exact H.
Qed.

Lemma num_leb_refl (a : number) : is_NaN a = false -> num_leb a a = true.
Proof.
  destruct a; simpl; try congruence. intros _. apply Z.leb_refl.
Qed.

(** [clamp] on a number returns the number itself or one of the bounds,
    and the result lies between the bounds. *)
Lemma clamp_cases (n lo hi : number) :
  is_NaN n = false -> is_NaN lo = false -> is_NaN hi = false ->
  num_leb lo hi = true ->
  (clamp n lo hi = n /\ num_ltb n hi = true /\ num_ltb lo n = true)
  \/ clamp n lo hi = lo \/ (clamp n lo hi = hi /\ num_ltb lo hi = true).
Proof.
  intros Hn Hlo Hhi Hle. unfold clamp, Math_min.
  destruct (num_ltb n hi) eqn:E1.
  - assert (Hm : match hi with NaN => NaN | _ => match n with NaN => NaN | _ => n end end = n)
      by (destruct hi, n; simpl in *; congruence).
    rewrite Hm. unfold Math_max.
    destruct (num_ltb lo n) eqn:E2.
    + left. destruct lo, n; simpl in *; try congruence; auto.
    + right; left. destruct lo, n; simpl in *; congruence.
  - assert (Hm : match hi with NaN => NaN | _ => match n with NaN => NaN | _ => hi end end = hi)
      by (destruct hi, n; simpl in *; congruence).
    rewrite Hm. unfold Math_max.
    destruct (num_ltb lo hi) eqn:E2.
    + right; right. destruct lo, hi; simpl in *; try congruence; auto.
    + right; left. destruct lo, hi; simpl in *; congruence.
Qed.

Lemma clamp_range (n lo hi : number) :
  is_NaN n = false -> is_NaN lo = false -> is_NaN hi = false ->
  num_leb lo hi = true ->
  num_leb lo (clamp n lo hi) = true /\ num_leb (clamp n lo hi) hi = true.
Proof.
  intros Hn Hlo Hhi Hle.
  destruct (clamp_cases n lo hi Hn Hlo Hhi Hle) as [(-> & H1 & H2)|[->|(-> & H)]].
  - split; apply num_ltb_leb; assumption.
  - split; [apply num_leb_refl|]; assumption.
  - split; [|apply num_leb_refl]; assumption.
Qed.

Lemma clamp_not_NaN (n lo hi : number) :
  is_NaN n = false -> is_NaN lo = false -> is_NaN hi = false ->
  num_leb lo hi = true -> is_NaN (clamp n lo hi) = false.
Proof.
  intros Hn Hlo Hhi Hle.
  destruct (clamp_cases n lo hi Hn Hlo Hhi Hle) as [(-> & _)|[->|(-> & _)]];
    assumption.
Qed.

Lemma clamp_idem (n lo hi : number) :
  is_NaN n = false -> is_NaN lo = false -> is_NaN hi = false ->
  num_leb lo hi = true ->
  clamp (clamp n lo hi) lo hi = clamp n lo hi.
Proof.
  intros Hn Hlo Hhi Hle.
  destruct (clamp_cases n lo hi Hn Hlo Hhi Hle) as [(E & H1 & H2)|[E|(E & H)]];
    rewrite E.
  - exact E.
  - unfold clamp, Math_min.
    destruct (num_ltb lo hi) eqn:E1.
    + replace (match hi with NaN => NaN | _ => match lo with NaN => NaN | _ => lo end end)
        with lo by (destruct hi, lo; simpl in *; congruence).
      unfold Math_max.
      replace (num_ltb lo lo) with false.
      * destruct lo; simpl in *; congruence.
      * destruct lo; simpl in *; try congruence. symmetry. apply Z.ltb_irrefl.
    + replace (match hi with NaN => NaN | _ => match lo with NaN => NaN | _ => hi end end)
        with hi by (destruct hi, lo; simpl in *; congruence).
      unfold Math_max. rewrite E1. destruct lo, hi; simpl in *; congruence.
  - unfold clamp, Math_min.
    replace (num_ltb hi hi) with false.
    + replace (match hi with NaN => NaN | _ => match hi with NaN => NaN | _ => hi end end)
        with hi by (destruct hi; simpl in *; congruence).
      unfold Math_max. rewrite H. destruct lo, hi; simpl in *; congruence.
    + destruct hi; simpl in *; try congruence. symmetry. apply Z.ltb_irrefl.
Qed.

Lemma number_or_truthy (n d : number) :
  truthy (VNumber d) = true -> truthy (VNumber (number_or n d)) = true.
Proof.
  intros Hd. unfold number_or. destruct (truthy (VNumber n)) eqn:E; assumption.
Qed.

Lemma truthy_number_not_NaN (n : number) :
  truthy (VNumber n) = true -> is_NaN n = false.
Proof.
  simpl. destruct (is_NaN n); simpl; congruence.
Qed.

(** The score of [cleaned] lies between 0 and 100, whatever the number. *)
Lemma clamped_score_range (n : number) :
  num_leb (Finite 0 0) (clamp (number_or n (Finite 50 0)) (Finite 0 0) (Finite 100 0)) = true
  /\ num_leb (clamp (number_or n (Finite 50 0)) (Finite 0 0) (Finite 100 0)) (Finite 100 0) = true.
Proof.
  apply clamp_range; try reflexivity.
  apply truthy_number_not_NaN, number_or_truthy. reflexivity.
Qed.

(** ** The fields of [cleaned] *)

Lemma bind_Normal {A B : Type} (c : completion A) (k : A -> completion B) (b : B) :
  bind c k = Normal b -> exists a, c = Normal a /\ k a = Normal b.
Proof.
  destruct c as [a|e]; simpl; [eauto | discriminate].
Qed.

Ltac invert_bind H :=
  let a := fresh "a" in
  let Ha := fresh "Ha" in
  apply bind_Normal in H; destruct H as (a & Ha & H).

Lemma Get_field (report v : value) (k : jsstring) :
  Get report k = Normal v -> field report k = v.
Proof.
  unfold field. intros ->. reflexivity.
Qed.

(** A text field is the fallback when the property is falsy and the
    property's own text otherwise, cut to [limit] code units. *)
Lemma text_field_Normal (report : value) (k fallback : jsstring) (limit : Z) (s : jsstring) :
  0 <= limit ->
  text_field report k fallback limit = Normal s ->
  Z.of_nat (List.length s) <= limit /\ text_rule report k fallback limit s.
Proof.
  intros Hl H. unfold text_field, text_rule in *.
  invert_bind H. invert_bind H. injection H as <-.
  rewrite (Get_field _ _ _ Ha). split.
  - apply slice_prefix_length, Hl.
  - unfold or_else in Ha0. destruct (truthy a) eqn:E.
    + left. split; [reflexivity|]. exists a0. auto.
    + right. split; [reflexivity|]. simpl in Ha0. injection Ha0 as <-. reflexivity.
Qed.

Lemma list_field_Normal (report : value) (k : jsstring) (l : list jsstring) :
  list_field report k = Normal l ->
  (List.length l <= 8)%nat
  /\ (isArray (field report k) = false -> l = []).
Proof.
  unfold list_field. intros H. invert_bind H.
  rewrite (Get_field _ _ _ Ha).
  destruct a; try (injection H as <-; simpl; split; [lia | reflexivity]).
  invert_bind H. injection H as <-. split.
  - pose proof (slice_prefix_length a 8 ltac:(lia)). lia.
  - simpl. discriminate.
Qed.

Lemma ensure_questions_spec (qs : list jsstring) :
  (List.length qs <= 8)%nat ->
  ((List.length qs < 3)%nat -> ensure_questions qs = qs ++ fallback_questions)
  /\ ((3 <= List.length qs)%nat -> ensure_questions qs = qs)
  /\ (3 <= List.length (ensure_questions qs) <= 8)%nat.
Proof.
  intros Hq. unfold ensure_questions.
  destruct (Z.of_nat (List.length qs) <? 3) eqn:E.
  - apply Z.ltb_lt in E.
    assert (Hs : slice (qs ++ fallback_questions) 0 8 = qs ++ fallback_questions).
    { apply slice_prefix_short. rewrite length_app. simpl. lia. }
    rewrite Hs. split; [reflexivity|]. split; [lia|].
    rewrite length_app. simpl. lia.
  - apply Z.ltb_ge in E. split; [lia|]. split; [reflexivity|]. lia.
Qed.

(** What [cleaned] returns, field by field. *)
Lemma cleaned_Normal (report : value) (r : ListingReport) :
  cleaned report = Normal r ->
  text_field report (str "vehicle_title") (str "Unknown Vehicle") 120
    = Normal (vehicle_title r)
  /\ (exists n, Number_ (field report (str "lens_score")) = Normal n
        /\ lens_score r = clamp (number_or n (Finite 50 0)) (Finite 0 0) (Finite 100 0))
  /\ text_field report (str "summary") (str "No summary returned.") 500
       = Normal (summary r)
  /\ text_field report (str "market_value_estimate") (str "Unknown") 80
       = Normal (market_value_estimate r)
  /\ list_field report (str "red_flags") = Normal (red_flags r)
  /\ (exists qs, list_field report (str "questions_to_ask") = Normal qs
        /\ questions_to_ask r = ensure_questions qs).
Proof.
  unfold cleaned. intros H.
  invert_bind H. invert_bind H. invert_bind H. invert_bind H.
  invert_bind H. invert_bind H. invert_bind H.
  injection H as <-. simpl.
  rewrite (Get_field _ _ _ Ha0).
  repeat split; try assumption; eauto.
Qed.

(** ** Claims on single fields *)

(** C3, counterexample: a numeric 0 is replaced by 50 ([Number(x) || 50]
    takes 0 for absent), and 85.5 stays 85.5, which is no integer. *)
Lemma lens_score_as_stated_fails :
  JSON_parse (text "{'lens_score': 0}") = Normal report_score_zero
  /\ ~ lens_score_as_stated report_score_zero
  /\ JSON_parse (text "{'lens_score': 85.5}") = Normal report_score_fraction
  /\ ~ lens_score_as_stated report_score_fraction.
Proof.
  split; [reflexivity|]. split; [|split; [reflexivity|]].
  - intros H.
    destruct (H {| vehicle_title := str "Unknown Vehicle";
                   lens_score := Finite 50 0;
                   summary := str "No summary returned.";
                   market_value_estimate := str "Unknown";
                   red_flags := [];
                   questions_to_ask := fallback_questions |}
                (Finite 0 0) eq_refl eq_refl) as (H1 & _).
    specialize (H1 eq_refl). vm_compute in H1. discriminate.
  - intros H.
    destruct (H {| vehicle_title := str "Unknown Vehicle";
                   lens_score := Finite 855 (-1);
                   summary := str "No summary returned.";
                   market_value_estimate := str "Unknown";
                   red_flags := [];
                   questions_to_ask := fallback_questions |}
                (Finite 855 (-1)) eq_refl eq_refl) as (_ & _ & H3 & _).
    vm_compute in H3. discriminate.
Qed.

(** C3, amended: the score is a number between 0 and 100; it is 50 when
    the property coerces to NaN, and the coerced number clamped to [0,100]
    when that number is not zero.  Nothing is said on integrality, nor on a
    property that coerces to zero. *)
Theorem lens_score_clamped (report : value) (r : ListingReport) :
  cleaned report = Normal r ->
  exists n,
    Number_ (field report (str "lens_score")) = Normal n
    /\ (is_NaN n = true -> lens_score r = Finite 50 0)
    /\ (is_NaN n = false -> is_zero n = false ->
        lens_score r = clamp n (Finite 0 0) (Finite 100 0))
    /\ num_leb (Finite 0 0) (lens_score r) = true
    /\ num_leb (lens_score r) (Finite 100 0) = true.
Proof.
  intros H. apply cleaned_Normal in H.
  destruct H as (_ & (n & Hn & Hs) & _).
  exists n. split; [exact Hn|]. rewrite Hs.
  split; [|split].
  - intros E. destruct n; simpl in E; try discriminate. reflexivity.
  - intros E1 E2. unfold number_or. simpl. rewrite E1, E2. reflexivity.
  - apply clamped_score_range.
Qed.

Lemma lens_score_clamped_witness :
  cleaned report_score_large
  = Normal {| vehicle_title := str "Unknown Vehicle";
              lens_score := Finite 100 0;
              summary := str "No summary returned.";
              market_value_estimate := str "Unknown";
              red_flags := [];
              questions_to_ask := fallback_questions |}
  /\ exists n,
      Number_ (field report_score_large (str "lens_score")) = Normal n
      /\ (is_NaN n = true -> Finite 100 0 = Finite 50 0)
      /\ (is_NaN n = false -> is_zero n = false ->
          Finite 100 0 = clamp n (Finite 0 0) (Finite 100 0))
      /\ num_leb (Finite 0 0) (Finite 100 0) = true
      /\ num_leb (Finite 100 0) (Finite 100 0) = true.
Proof.
  split; [reflexivity|].
  apply (lens_score_clamped report_score_large
           {| vehicle_title := str "Unknown Vehicle";
              lens_score := Finite 100 0;
              summary := str "No summary returned.";
              market_value_estimate := str "Unknown";
              red_flags := [];
              questions_to_ask := fallback_questions |}).
  reflexivity.
Defined.

(** C6: [questions_to_ask] has 3 to 8 entries.  With [qs] the property
    stringified and cut to 8 (empty when the property is no array), fewer
    than 3 entries get the three fallback questions appended, in their
    order and whatever [qs] holds, and the cut to 8 leaves them all. *)
Theorem questions_to_ask_backfilled (report : value) (r : ListingReport) :
  cleaned report = Normal r ->
  exists qs,
    list_field report (str "questions_to_ask") = Normal qs
    /\ (isArray (field report (str "questions_to_ask")) = false -> qs = [])
    /\ ((List.length qs < 3)%nat ->
        questions_to_ask r = slice (qs ++ fallback_questions) 0 8
        /\ questions_to_ask r = qs ++ fallback_questions)
    /\ ((3 <= List.length qs)%nat -> questions_to_ask r = qs)
    /\ (3 <= List.length (questions_to_ask r) <= 8)%nat.
Proof.
  intros H. apply cleaned_Normal in H.
  destruct H as (_ & _ & _ & _ & _ & (qs & Hq & Hr)).
  exists qs. split; [exact Hq|].
  destruct (list_field_Normal _ _ _ Hq) as (Hlen & Hna).
  destruct (ensure_questions_spec qs Hlen) as (Hlt & Hge & Hrange).
  rewrite Hr. split; [exact Hna|]. split; [|split; [exact Hge | exact Hrange]].
  intros Hl. split; [|exact (Hlt Hl)].
  unfold ensure_questions.
  assert (E : (Z.of_nat (List.length qs) <? 3) = true) by (apply Z.ltb_lt; lia).
  rewrite E. reflexivity.
Qed.

Lemma questions_to_ask_backfilled_witness :
  cleaned report_two_questions = Normal cleaned_two_questions
  /\ exists qs,
      list_field report_two_questions (str "questions_to_ask") = Normal qs
      /\ (isArray (field report_two_questions (str "questions_to_ask")) = false -> qs = [])
      /\ ((List.length qs < 3)%nat ->
          questions_to_ask cleaned_two_questions = slice (qs ++ fallback_questions) 0 8
          /\ questions_to_ask cleaned_two_questions = qs ++ fallback_questions)
      /\ ((3 <= List.length qs)%nat -> questions_to_ask cleaned_two_questions = qs)
      /\ (3 <= List.length (questions_to_ask cleaned_two_questions) <= 8)%nat.
Proof.
  split; [reflexivity|].
  apply (questions_to_ask_backfilled report_two_questions cleaned_two_questions).
  reflexivity.
Defined.

(** ** The text of a number is never empty *)

Lemma strip_zeros_front_last (l : jsstring) (c : N) :
  c <> 48%N -> fst (strip_zeros_front (l ++ [c])) <> [].
Proof.
  intros Hc. induction l as [|a l IH]; simpl.
  - destruct (N.eqb_spec c 48); [contradiction | simpl; discriminate].
  - destruct (N.eqb a 48); [|simpl; discriminate].
    destruct (strip_zeros_front (l ++ [c])) as [r z]. exact IH.
Qed.

Lemma strip_trailing_zeros_nonempty (c : N) (l : jsstring) :
  c <> 48%N -> fst (strip_trailing_zeros (c :: l)) <> [].
Proof.
  intros Hc. unfold strip_trailing_zeros. simpl rev.
  pose proof (strip_zeros_front_last (rev l) c Hc) as H.
  destruct (strip_zeros_front (rev l ++ [c])) as [r z]. simpl in *.
  intros E. apply H. apply (f_equal (@rev N)) in E.
  rewrite rev_involutive in E. exact E.
Qed.

Lemma to_uint_head (p : positive) :
  forall d, Pos.to_uint p <> Decimal.D0 d.
Proof.
  intros d E.
  assert (Hn : Decimal.unorm (Pos.to_uint p) = Pos.to_uint p).
  { rewrite <- DecimalPos.Unsigned.to_of, DecimalPos.Unsigned.of_to. reflexivity. }
  rewrite E in Hn. rewrite DecimalFacts.unorm_D0 in Hn.
  pose proof (DecimalFacts.nb_digits_unorm d) as Hd. rewrite Hn in Hd.
  destruct d as [|d|d|d|d|d|d|d|d|d|d];
    try (assert (Hl : (Decimal.nb_digits (Decimal.D0 _) <= Decimal.nb_digits _)%nat)
           by (apply Hd; discriminate);
         simpl in Hl; lia).
  apply (DecimalPos.Unsigned.to_uint_nonzero p). exact E.
Qed.

Lemma decimal_digits_head (p : positive) :
  exists c l, decimal_digits (Npos p) = c :: l /\ c <> 48%N.
Proof.
  unfold decimal_digits. simpl N.to_uint.
  pose proof (to_uint_head p) as Hh.
  pose proof (DecimalPos.Unsigned.to_uint_nonnil p) as Hnil.
  destruct (Pos.to_uint p) as [|d|d|d|d|d|d|d|d|d|d];
    [contradiction | exfalso; apply (Hh d); reflexivity | ..];
    simpl; eexists; eexists; (split; [reflexivity | discriminate]).
Qed.

Lemma format_digits_nonempty (ds : jsstring) (n : Z) :
  ds <> [] -> format_digits ds n <> [].
Proof.
  intros Hds. unfold format_digits.
  destruct ds as [|c ds]; [congruence|].
  repeat match goal with
         | |- (if ?b then _ else _) <> [] => destruct b
         end; try discriminate.
  destruct (firstn (Z.to_nat n) (c :: ds)); discriminate.
Qed.

Lemma Number_toString_nonempty (n : number) : Number_toString n <> [].
Proof.
  destruct n as [| | |m e]; try discriminate. simpl.
  destruct (m =? 0) eqn:E; [discriminate|].
  apply Z.eqb_neq in E.
  destruct (Z.to_N (Z.abs m)) as [|p] eqn:Ep; [lia|].
  destruct (decimal_digits_head p) as (c & l & Hd & Hc).
  rewrite Hd.
  pose proof (strip_trailing_zeros_nonempty c l Hc) as Hs.
  destruct (strip_trailing_zeros (c :: l)) as [ds z]. simpl in Hs.
  pose proof (format_digits_nonempty ds (Z.of_nat (List.length ds) + z + e) Hs) as Hf.
  destruct (m <? 0); [discriminate|]. exact Hf.
Qed.

(** ** The title *)

Lemma toString_nonempty (v : value) (t : jsstring) :
  truthy v = true -> isArray v = false -> toString v = Normal t -> t <> [].
Proof.
  destruct v as [| |b|n|s|l|props]; simpl; try discriminate.
  - intros -> _ H. injection H as <-. discriminate.
  - intros _ _ H. injection H as <-. apply Number_toString_nonempty.
  - intros Hs _ H. injection H as <-. destruct s; [discriminate|discriminate].
  - intros _ _ H. destruct (own_property props (str "toString")); [discriminate|].
    injection H as <-. discriminate.
Qed.

(** C7, counterexample: an empty array is truthy and its text is empty. *)
Lemma vehicle_title_as_stated_fails :
  JSON_parse (text "{'vehicle_title': []}") = Normal report_title_empty_array
  /\ cleaned report_title_empty_array = Normal (report_with [] (Finite 50 0))
  /\ ~ vehicle_title_as_stated report_title_empty_array.
Proof.
  split; [reflexivity|]. split; [reflexivity|].
  intros H. destruct (H (report_with [] (Finite 50 0)) eq_refl) as (Hne & _).
  apply Hne. reflexivity.
Qed.

(** C7, amended: the title has at most 120 code units and follows the
    rule (the property's text when it is truthy, "Unknown Vehicle"
    otherwise, cut to 120); it is empty only when the property is an array
    whose text is empty, such as []. *)
Theorem vehicle_title_bounded (report : value) (r : ListingReport) :
  cleaned report = Normal r ->
  Z.of_nat (List.length (vehicle_title r)) <= 120
  /\ text_rule report (str "vehicle_title") (str "Unknown Vehicle") 120
       (vehicle_title r)
  /\ (vehicle_title r = [] ->
      isArray (field report (str "vehicle_title")) = true
      /\ toString (field report (str "vehicle_title")) = Normal []).
Proof.
  intros H. apply cleaned_Normal in H. destruct H as (Ht & _).
  apply text_field_Normal in Ht; [|lia].
  destruct Ht as (Hlen & Hrule). split; [exact Hlen|]. split; [exact Hrule|].
  intros He. destruct Hrule as [(Htr & t & Hts & Hs)|(_ & Hs)].
  - destruct (isArray (field report (str "vehicle_title"))) eqn:Ea.
    + split; [reflexivity|]. rewrite Hts. f_equal.
      rewrite He in Hs. rewrite slice_prefix in Hs by lia.
      destruct t; [reflexivity | discriminate].
    + exfalso. apply (slice_prefix_nonempty t 120); [lia| |congruence].
      apply (toString_nonempty _ _ Htr Ea Hts).
  - rewrite He in Hs. discriminate.
Qed.

Lemma vehicle_title_bounded_witness :
  cleaned report_title_number = Normal (report_with (str "2019") (Finite 50 0))
  /\ Z.of_nat (List.length (str "2019")) <= 120
  /\ text_rule report_title_number (str "vehicle_title") (str "Unknown Vehicle") 120
       (str "2019")
  /\ (str "2019" = [] ->
      isArray (field report_title_number (str "vehicle_title")) = true
      /\ toString (field report_title_number (str "vehicle_title")) = Normal []).
Proof.
  split; [reflexivity|].
  apply (vehicle_title_bounded report_title_number
           (report_with (str "2019") (Finite 50 0))).
  reflexivity.
Defined.

(** ** A second pass over [cleaned] *)

Lemma mapM_String_strings (l : list jsstring) :
  mapM String_ (List.map VString l) = Normal l.
Proof.
  induction l as [|s l IH]; simpl; [reflexivity|]. rewrite IH. reflexivity.
Qed.

Lemma text_field_string (report : value) (k fallback s : jsstring) (limit : Z) :
  Get report k = Normal (VString s) ->
  Z.of_nat (List.length s) <= limit ->
  Z.of_nat (List.length fallback) <= limit ->
  text_field report k fallback limit = Normal (or_fallback s fallback).
Proof.
  intros Hg Hs Hf. unfold text_field. rewrite Hg. simpl.
  unfold or_else, or_fallback. destruct s as [|c s]; simpl.
  - rewrite slice_prefix_short by exact Hf. reflexivity.
  - rewrite slice_prefix_short by exact Hs. reflexivity.
Qed.

Lemma list_field_strings (report : value) (k : jsstring) (l : list jsstring) :
  Get report k = Normal (VArray (List.map VString l)) ->
  (List.length l <= 8)%nat ->
  list_field report k = Normal l.
Proof.
  intros Hg Hl. unfold list_field. rewrite Hg. simpl.
  rewrite mapM_String_strings. simpl.
  rewrite slice_prefix_short by lia. reflexivity.
Qed.

Lemma lens_score_second_pass (n : number) :
  let s := clamp (number_or n (Finite 50 0)) (Finite 0 0) (Finite 100 0) in
  is_zero s = false ->
  clamp (number_or s (Finite 50 0)) (Finite 0 0) (Finite 100 0) = s.
Proof.
  intros s Hz.
  assert (Hn : is_NaN (number_or n (Finite 50 0)) = false)
    by (apply truthy_number_not_NaN, number_or_truthy; reflexivity).
  assert (Hs : is_NaN s = false) by (apply clamp_not_NaN; auto).
  assert (Ho : number_or s (Finite 50 0) = s).
  { unfold number_or. simpl truthy. rewrite Hs, Hz. reflexivity. }
  rewrite Ho. apply clamp_idem; auto.
Qed.

(** C2, counterexample: a negative score is clamped to 0, which the second
    pass takes for absent and replaces by 50; an empty title ([] as the
    title) is replaced by the fallback on the second pass. *)
Lemma idempotent_as_stated_fails :
  (cleaned report_score_negative
     = Normal (report_with (str "Unknown Vehicle") (Finite 0 0))
   /\ cleaned (report_value (report_with (str "Unknown Vehicle") (Finite 0 0)))
     = Normal (report_with (str "Unknown Vehicle") (Finite 50 0))
   /\ ~ idempotent_as_stated report_score_negative)
  /\ (cleaned report_title_empty_array = Normal (report_with [] (Finite 50 0))
      /\ cleaned (report_value (report_with [] (Finite 50 0)))
        = Normal (report_with (str "Unknown Vehicle") (Finite 50 0))
      /\ ~ idempotent_as_stated report_title_empty_array).
Proof.
  split; (split; [reflexivity|]); (split; [reflexivity|]).
  - intros H.
    specialize (H (report_with (str "Unknown Vehicle") (Finite 0 0)) eq_refl).
    vm_compute in H. discriminate.
  - intros H. specialize (H (report_with [] (Finite 50 0)) eq_refl).
    vm_compute in H. discriminate.
Qed.

(** C2, amended: when the score of [cleaned] is not zero, a second pass
    returns [cleaned] with its empty texts replaced by their fallbacks, so
    it changes nothing when the title, the summary and the estimate are not
    empty.  Nothing is said on a score of zero. *)
Theorem cleaned_second_pass (x : value) (r : ListingReport) :
  cleaned x = Normal r ->
  is_zero (lens_score r) = false ->
  cleaned (report_value r) = Normal (refilled r)
  /\ (vehicle_title r <> [] -> summary r <> [] -> market_value_estimate r <> [] ->
      cleaned (report_value r) = Normal r).
Proof.
  intros H Hz.
  destruct (cleaned_Normal _ _ H) as (Ht & (n & Hn & Hs) & Hsum & Hm & Hrf & (qs & Hq & Hqs)).
  apply text_field_Normal in Ht; [|lia]. destruct Ht as (Ht & _).
  apply text_field_Normal in Hsum; [|lia]. destruct Hsum as (Hsum & _).
  apply text_field_Normal in Hm; [|lia]. destruct Hm as (Hm & _).
  apply list_field_Normal in Hrf. destruct Hrf as (Hrf & _).
  apply list_field_Normal in Hq. destruct Hq as (Hq & _).
  destruct (ensure_questions_spec qs Hq) as (_ & _ & Hlen). rewrite <- Hqs in Hlen.
  assert (E : cleaned (report_value r) = Normal (refilled r)).
  { unfold cleaned.
    rewrite (text_field_string (report_value r) (str "vehicle_title") _ (vehicle_title r));
      [|reflexivity|exact Ht|vm_compute; discriminate].
    rewrite (text_field_string (report_value r) (str "summary") _ (summary r));
      [|reflexivity|exact Hsum|vm_compute; discriminate].
    rewrite (text_field_string (report_value r) (str "market_value_estimate") _
               (market_value_estimate r));
      [|reflexivity|exact Hm|vm_compute; discriminate].
    rewrite (list_field_strings (report_value r) (str "red_flags") (red_flags r));
      [|reflexivity|exact Hrf].
    rewrite (list_field_strings (report_value r) (str "questions_to_ask") (questions_to_ask r));
      [|reflexivity|lia].
    change (Get (report_value r) (str "lens_score")) with (Normal (VNumber (lens_score r))).
    simpl bind. unfold refilled. f_equal. f_equal.
    - rewrite Hs in *. apply lens_score_second_pass. exact Hz.
    - destruct (ensure_questions_spec (questions_to_ask r)) as (_ & Hge & _); [lia|].
      apply Hge. lia. }
  split; [exact E|].
  intros H1 H2 H3. rewrite E. f_equal. unfold refilled.
  destruct r as [t s sm mv rf q]. simpl in *.
  destruct t; [congruence|]. destruct sm; [congruence|]. destruct mv; [congruence|].
  reflexivity.
Qed.

Lemma cleaned_second_pass_witness :
  cleaned report_score_large
    = Normal (report_with (str "Unknown Vehicle") (Finite 100 0))
  /\ is_zero (Finite 100 0) = false
  /\ cleaned (report_value (report_with (str "Unknown Vehicle") (Finite 100 0)))
     = Normal (refilled (report_with (str "Unknown Vehicle") (Finite 100 0)))
  /\ (str "Unknown Vehicle" <> [] -> str "No summary returned." <> [] ->
      str "Unknown" <> [] ->
      cleaned (report_value (report_with (str "Unknown Vehicle") (Finite 100 0)))
      = Normal (report_with (str "Unknown Vehicle") (Finite 100 0))).
Proof.
  split; [reflexivity|]. split; [reflexivity|].
  apply (cleaned_second_pass report_score_large
           (report_with (str "Unknown Vehicle") (Finite 100 0)));
    reflexivity.
Defined.

(** ** When [cleaned] returns *)

Lemma join_element_decided (x : value) :
  ToString_decided x ->
  (convertible x = true ->
   exists s, match x with
             | VUndefined | VNull => Normal []
             | _ => ToString x
             end = Normal s)
  /\ (convertible x = false ->
      match x with
      | VUndefined | VNull => Normal []
      | _ => ToString x
      end = Throw TypeError).
Proof.
  intros (Hok & Hko). destruct x; simpl in *; try (split; [eauto | discriminate]);
    split; auto.
Qed.

Lemma join_rest_decided (l : list value) :
  Forall ToString_decided l ->
  (forallb convertible l = true -> exists s, join_rest ToString l = Normal s)
  /\ (forallb convertible l = false -> join_rest ToString l = Throw TypeError).
Proof.
  induction 1 as [|x l Hx _ (IHok & IHko)]; simpl.
  - split; [eauto | discriminate].
  - destruct (join_element_decided x Hx) as (Hxok & Hxko).
    destruct (convertible x) eqn:Ex; simpl.
    + destruct (Hxok eq_refl) as (s & ->). simpl. split.
      * intros E. destruct (IHok E) as (t & ->). simpl. eauto.
      * intros E. rewrite (IHko E). reflexivity.
    + rewrite (Hxko eq_refl). simpl. split; [discriminate | reflexivity].
Qed.

Lemma join_decided (l : list value) :
  Forall ToString_decided l ->
  (forallb convertible l = true -> exists s, join ToString l = Normal s)
  /\ (forallb convertible l = false -> join ToString l = Throw TypeError).
Proof.
  intros H. destruct H as [|x l Hx Hl]; simpl.
  - split; [eauto | discriminate].
  - destruct (join_element_decided x Hx) as (Hxok & Hxko).
    destruct (join_rest_decided l Hl) as (IHok & IHko).
    destruct (convertible x) eqn:Ex; simpl.
    + destruct (Hxok eq_refl) as (s & ->). simpl. split.
      * intros E. destruct (IHok E) as (t & ->). simpl. eauto.
      * intros E. rewrite (IHko E). reflexivity.
    + rewrite (Hxko eq_refl). simpl. split; [discriminate | reflexivity].
Qed.

Lemma ToString_convertible (v : value) : ToString_decided v.
Proof.
  induction v using value_induction; unfold ToString_decided;
    try (simpl; split; [eauto | discriminate]).
  - apply join_decided. assumption.
  - simpl. destruct (own_property props (str "toString"));
      split; eauto; discriminate.
Qed.

Lemma Get_truthy (report : value) (k : jsstring) :
  truthy report = true -> Get report k = Normal (field report k).
Proof.
  unfold field. destruct report; simpl; try discriminate; reflexivity.
Qed.

Lemma falsy_convertible (v : value) : truthy v = false -> convertible v = true.
Proof.
  destruct v; simpl; try reflexivity; discriminate.
Qed.

Lemma text_field_decided (report : value) (k fallback : jsstring) (limit : Z) :
  truthy report = true ->
  (convertible (field report k) = true ->
   exists s, text_field report k fallback limit = Normal s)
  /\ (convertible (field report k) = false ->
      text_field report k fallback limit = Throw TypeError).
Proof.
  intros Hr. unfold text_field. rewrite (Get_truthy _ _ Hr). simpl.
  unfold or_else. destruct (truthy (field report k)) eqn:Et.
  - destruct (ToString_convertible (field report k)) as (Hok & Hko).
    assert (Hm : toString (field report k) = ToString (field report k))
      by (destruct (field report k); simpl in *; try discriminate; reflexivity).
    rewrite Hm. split.
    + intros E. destruct (Hok E) as (s & ->). simpl. eauto.
    + intros E. rewrite (Hko E). reflexivity.
  - simpl. split; [eauto|].
    intros E. rewrite (falsy_convertible _ Et) in E. discriminate.
Qed.

Lemma Number_decided (v : value) :
  (convertible v = true -> exists n, Number_ v = Normal n)
  /\ (convertible v = false -> Number_ v = Throw TypeError).
Proof.
  destruct (ToString_convertible v) as (Hok & Hko).
  destruct v; try (simpl; split; [eauto | discriminate]);
    unfold Number_; (split; intros E;
      [destruct (Hok E) as (s & ->); simpl; eauto | rewrite (Hko E); reflexivity]).
Qed.

Lemma list_field_decided (report : value) (k : jsstring) :
  truthy report = true ->
  ((if isArray (field report k) then convertible (field report k) else true) = true ->
   exists l, list_field report k = Normal l)
  /\ ((if isArray (field report k) then convertible (field report k) else true) = false ->
      list_field report k = Throw TypeError).
Proof.
  intros Hr. unfold list_field. rewrite (Get_truthy _ _ Hr). simpl.
  destruct (field report k) as [| | | | |l|]; simpl;
    try (split; [eauto | discriminate]).
  assert (H : (forallb convertible l = true -> exists r, mapM String_ l = Normal r)
              /\ (forallb convertible l = false -> mapM String_ l = Throw TypeError)).
  { induction l as [|x l (IHok & IHko)]; simpl; [split; [eauto | discriminate]|].
    destruct (ToString_convertible x) as (Hok & Hko). unfold String_ at 1 3.
    destruct (convertible x); simpl.
    - destruct (Hok eq_refl) as (s & ->). simpl. split.
      + intros E. destruct (IHok E) as (r & ->). simpl. eauto.
      + intros E. rewrite (IHko E). reflexivity.
    - rewrite (Hko eq_refl). simpl. split; [discriminate | reflexivity]. }
  destruct H as (Hok & Hko). split; intros E.
  - destruct (Hok E) as (r & ->). simpl. eauto.
  - rewrite (Hko E). reflexivity.
Qed.

(** C1, counterexample: a title that is an object with a property named
    toString.  The text parses, the value is truthy, [cleaned] throws a
    TypeError (the property shadows Object.prototype.toString and cannot be
    called), and the handler's [catch] answers 500 "Analysis failed". *)
Lemma total_as_stated_fails :
  JSON_parse (text "{'vehicle_title': {'toString': 1}}") = Normal report_title_shadowed
  /\ extractJson (text "{'vehicle_title': {'toString': 1}}") = report_title_shadowed
  /\ cleaned report_title_shadowed = Throw TypeError
  /\ catch_err (normalize (text "{'vehicle_title': {'toString': 1}}"))
     = response 500 (BodyFailed (str "Analysis failed") TypeError)
  /\ ~ total_as_stated (text "{'vehicle_title': {'toString': 1}}").
Proof.
  split; [reflexivity|]. split; [reflexivity|]. split; [reflexivity|].
  split; [reflexivity|].
  intros H. destruct (H eq_refl) as (r & Hr). vm_compute in Hr. discriminate.
Qed.

(** C1, amended: on a truthy value, [cleaned] returns a report when none of
    the values it converts to text or to a number (the title, the score,
    the summary, the estimate, the elements of the two lists, through
    nested arrays) is an object with an own property named toString;
    otherwise it throws a TypeError, which the handler answers with 500
    "Analysis failed". *)
Theorem cleaned_returns_or_throws (report : value) :
  truthy report = true ->
  (fields_convertible report = true -> exists r, cleaned report = Normal r)
  /\ (fields_convertible report = false ->
      cleaned report = Throw TypeError
      /\ catch_err (c <- cleaned report ;; Normal (response 200 (BodyData c)))
         = response 500 (BodyFailed (str "Analysis failed") TypeError)).
Proof.
  intros Hr. unfold fields_convertible, cleaned.
  destruct (text_field_decided report (str "vehicle_title") (str "Unknown Vehicle") 120 Hr)
    as (H1ok & H1ko).
  destruct (convertible (field report (str "vehicle_title")));
    [destruct (H1ok eq_refl) as (t & ->)
    | rewrite (H1ko eq_refl); simpl; split; [discriminate | split; reflexivity]].
  cbn [bind]. rewrite (Get_truthy _ (str "lens_score") Hr). cbn [bind].
  destruct (Number_decided (field report (str "lens_score"))) as (H2ok & H2ko).
  destruct (convertible (field report (str "lens_score")));
    [destruct (H2ok eq_refl) as (n & ->)
    | rewrite (H2ko eq_refl); simpl; split; [discriminate | split; reflexivity]].
  destruct (text_field_decided report (str "summary") (str "No summary returned.") 500 Hr)
    as (H3ok & H3ko).
  destruct (convertible (field report (str "summary")));
    [destruct (H3ok eq_refl) as (sm & ->)
    | rewrite (H3ko eq_refl); simpl; split; [discriminate | split; reflexivity]].
  destruct (text_field_decided report (str "market_value_estimate") (str "Unknown") 80 Hr)
    as (H4ok & H4ko).
  destruct (convertible (field report (str "market_value_estimate")));
    [destruct (H4ok eq_refl) as (mv & ->)
    | rewrite (H4ko eq_refl); simpl; split; [discriminate | split; reflexivity]].
  destruct (list_field_decided report (str "red_flags") Hr) as (H5ok & H5ko).
  destruct (if isArray (field report (str "red_flags"))
            then convertible (field report (str "red_flags")) else true);
    [destruct (H5ok eq_refl) as (rf & ->)
    | rewrite (H5ko eq_refl); simpl; split; [discriminate | split; reflexivity]].
  destruct (list_field_decided report (str "questions_to_ask") Hr) as (H6ok & H6ko).
  destruct (if isArray (field report (str "questions_to_ask"))
            then convertible (field report (str "questions_to_ask")) else true);
    [destruct (H6ok eq_refl) as (q & ->)
    | rewrite (H6ko eq_refl); simpl; split; [discriminate | split; reflexivity]].
  simpl. split; [eauto | discriminate].
Qed.

Lemma cleaned_returns_or_throws_witness :
  truthy report_title_shadowed = true
  /\ (fields_convertible report_title_shadowed = true ->
      exists r, cleaned report_title_shadowed = Normal r)
  /\ (fields_convertible report_title_shadowed = false ->
      cleaned report_title_shadowed = Throw TypeError
      /\ catch_err (c <- cleaned report_title_shadowed ;; Normal (response 200 (BodyData c)))
         = response 500 (BodyFailed (str "Analysis failed") TypeError)).
Proof.
  split; [reflexivity|].
  apply (cleaned_returns_or_throws report_title_shadowed). reflexivity.
Defined.

(** ** Extraction *)

Lemma indexOf_from_lower (p s : jsstring) (i : Z) :
  0 <= i -> -1 <= indexOf_from p s i.
Proof.
  revert i. induction s as [|c s IH]; intros i Hi; simpl.
  - destruct (starts_with p []); lia.
  - destruct (starts_with p (c :: s)); [lia|]. apply IH. lia.
Qed.

(** C4, counterexample: the whole text parses, as an array, and the direct
    parse comes first; the object between the braces is not what
    [extractJson] returns. *)
Lemma extract_as_stated_fails :
  JSON_parse (slice (text "[{'vehicle_title': 'X'}]") 1 23)
  = Normal (VObject [(str "vehicle_title", VString (str "X"))])
  /\ extractJson (text "[{'vehicle_title': 'X'}]")
     = VArray [VObject [(str "vehicle_title", VString (str "X"))]]
  /\ ~ extract_as_stated (text "[{'vehicle_title': 'X'}]").
Proof.
  split; [reflexivity|]. split; [reflexivity|].
  intros H.
  specialize (H [(str "vehicle_title", VString (str "X"))]).
  assert (E : extractJson (text "[{'vehicle_title': 'X'}]")
              = VObject [(str "vehicle_title", VString (str "X"))]).
  { apply H; [vm_compute; discriminate | vm_compute; reflexivity | reflexivity]. }
  vm_compute in E. discriminate.
Qed.

(** C4, amended: when the text from the first [{] to the last [}] parses as
    an object, [extractJson] returns that object if the whole text does not
    parse, and the value of the whole text if it does. *)
Theorem extractJson_brace_span (raw : jsstring) (props : list (jsstring * value)) :
  indexOf raw (str "{") <> -1 ->
  lastIndexOf raw (str "}") > indexOf raw (str "{") ->
  JSON_parse (slice raw (indexOf raw (str "{")) (lastIndexOf raw (str "}") + 1))
  = Normal (VObject props) ->
  (forall e, JSON_parse raw = Throw e -> extractJson raw = VObject props)
  /\ (forall v, JSON_parse raw = Normal v -> extractJson raw = v).
Proof.
  intros Hs He Hp.
  assert (Hne : raw <> []) by (intros ->; apply Hs; reflexivity).
  pose proof (indexOf_from_lower (str "{") raw 0 ltac:(lia)) as Hlow.
  fold (indexOf raw (str "{")) in Hlow.
  unfold extractJson. destruct raw as [|c raw]; [congruence|].
  split.
  - intros e E. rewrite E.
    assert (C : negb (indexOf (c :: raw) (str "{") =? -1)
                && negb (lastIndexOf (c :: raw) (str "}") =? -1)
                && (lastIndexOf (c :: raw) (str "}") >? indexOf (c :: raw) (str "{"))
                = true).
    { rewrite !andb_true_iff, !negb_true_iff, !Z.eqb_neq, Z.gtb_gt. lia. }
    rewrite C, Hp. reflexivity.
  - intros v E. rewrite E. reflexivity.
Qed.

Lemma extractJson_brace_span_witness :
  indexOf (text "Here you go: {'lens_score': 'N/A'} Thanks!") (str "{") = 13
  /\ lastIndexOf (text "Here you go: {'lens_score': 'N/A'} Thanks!") (str "}") = 33
  /\ (forall e, JSON_parse (text "Here you go: {'lens_score': 'N/A'} Thanks!") = Throw e ->
      extractJson (text "Here you go: {'lens_score': 'N/A'} Thanks!")
      = VObject [(str "lens_score", VString (str "N/A"))])
  /\ (forall v, JSON_parse (text "Here you go: {'lens_score': 'N/A'} Thanks!") = Normal v ->
      extractJson (text "Here you go: {'lens_score': 'N/A'} Thanks!") = v).
Proof.
  split; [reflexivity|]. split; [reflexivity|].
  apply (extractJson_brace_span (text "Here you go: {'lens_score': 'N/A'} Thanks!")
           [(str "lens_score", VString (str "N/A"))]).
  - vm_compute. discriminate.
  - vm_compute. reflexivity.
  - reflexivity.
Defined.

(** C5: when neither the text nor its part from the first [{] to the last
    [}] parses, [extractJson] returns null and the handler answers with the
    extraction failure, whose [raw] is the first 2000 code units of the
    text: the whole text when it has no more. *)
Theorem extraction_failure_reply (raw : jsstring) :
  (exists e, JSON_parse raw = Throw e) ->
  (indexOf raw (str "{") = -1
   \/ lastIndexOf raw (str "}") = -1
   \/ lastIndexOf raw (str "}") <= indexOf raw (str "{")
   \/ exists e,
       JSON_parse (slice raw (indexOf raw (str "{")) (lastIndexOf raw (str "}") + 1))
       = Throw e) ->
  extractJson raw = VNull
  /\ normalize raw = Normal (extraction_failure raw)
  /\ body (extraction_failure raw)
     = BodyError (str "Model returned non-JSON output") (Some (firstn 2000 raw))
  /\ (List.length (firstn 2000 raw) <= 2000)%nat
  /\ ((List.length raw <= 2000)%nat -> firstn 2000 raw = raw).
Proof.
  intros (e & E) Hspan.
  assert (Hx : extractJson raw = VNull).
  { unfold extractJson. destruct raw as [|c raw]; [reflexivity|]. rewrite E.
    destruct Hspan as [H|[H|[H|(e' & H)]]].
    - rewrite H. reflexivity.
    - rewrite H. rewrite andb_false_r. reflexivity.
    - assert (G : (lastIndexOf (c :: raw) (str "}") >? indexOf (c :: raw) (str "{")) = false).
      { destruct (Z.gtb_spec (lastIndexOf (c :: raw) (str "}")) (indexOf (c :: raw) (str "{")));
          [lia | reflexivity]. }
      rewrite G, andb_false_r. reflexivity.
    - rewrite H.
      destruct (negb (indexOf (c :: raw) (str "{") =? -1)
                && negb (lastIndexOf (c :: raw) (str "}") =? -1)
                && (lastIndexOf (c :: raw) (str "}") >? indexOf (c :: raw) (str "{")));
        reflexivity. }
  split; [exact Hx|]. split.
  - unfold normalize. rewrite Hx. reflexivity.
  - split; [|split].
    + unfold extraction_failure. simpl. rewrite slice_prefix by lia. reflexivity.
    + apply firstn_le_length.
    + intros Hl. apply firstn_all2. exact Hl.
Qed.

Lemma extraction_failure_reply_witness :
  JSON_parse (text "No JSON here at all.") = Throw SyntaxError
  /\ indexOf (text "No JSON here at all.") (str "{") = -1
  /\ extractJson (text "No JSON here at all.") = VNull
  /\ normalize (text "No JSON here at all.")
     = Normal (extraction_failure (text "No JSON here at all."))
  /\ body (extraction_failure (text "No JSON here at all."))
     = BodyError (str "Model returned non-JSON output")
                 (Some (firstn 2000 (text "No JSON here at all.")))
  /\ (List.length (firstn 2000 (text "No JSON here at all.")) <= 2000)%nat
  /\ ((List.length (text "No JSON here at all.") <= 2000)%nat ->
      firstn 2000 (text "No JSON here at all.") = text "No JSON here at all.").
Proof.
  split; [reflexivity|]. split; [reflexivity|].
  apply (extraction_failure_reply (text "No JSON here at all.")).
  - exists SyntaxError. reflexivity.
  - left. reflexivity.
Defined.

(** C10: a text that parses to a value other than an object is handed on
    as that value.  When the value is truthy (an array, a number other than
    zero, true, a text that is not empty) the handler answers 200 with the
    report of all defaults; when it is falsy (null, 0, false, the empty
    text) the handler answers with the extraction failure. *)
Theorem non_object_reply (raw : jsstring) (v : value) :
  JSON_parse raw = Normal v ->
  (forall props, v <> VObject props) ->
  extractJson raw = v
  /\ (truthy v = true ->
      cleaned v = Normal default_report
      /\ normalize raw = Normal (response 200 (BodyData default_report)))
  /\ (truthy v = false -> normalize raw = Normal (extraction_failure raw)).
Proof.
  intros E Hv.
  assert (Hx : extractJson raw = v).
  { unfold extractJson. destruct raw as [|c raw]; [discriminate|].
    rewrite E. reflexivity. }
  split; [exact Hx|]. split.
  - intros Ht.
    assert (Hc : cleaned v = Normal default_report).
    { destruct v; simpl in Ht; try discriminate; try reflexivity.
      exfalso. apply (Hv props). reflexivity. }
    split; [exact Hc|].
    unfold normalize. rewrite Hx, Ht. simpl negb. cbv iota.
    rewrite Hc. reflexivity.
  - intros Hf. unfold normalize. rewrite Hx, Hf. reflexivity.
Qed.

Lemma non_object_reply_witness :
  JSON_parse (text "[1, 'two']")
  = Normal (VArray [VNumber (Finite 1 0); VString (str "two")])
  /\ extractJson (text "[1, 'two']")
     = VArray [VNumber (Finite 1 0); VString (str "two")]
  /\ (truthy (VArray [VNumber (Finite 1 0); VString (str "two")]) = true ->
      cleaned (VArray [VNumber (Finite 1 0); VString (str "two")]) = Normal default_report
      /\ normalize (text "[1, 'two']") = Normal (response 200 (BodyData default_report)))
  /\ (truthy (VArray [VNumber (Finite 1 0); VString (str "two")]) = false ->
      normalize (text "[1, 'two']") = Normal (extraction_failure (text "[1, 'two']"))).
Proof.
  split; [reflexivity|].
  apply (non_object_reply (text "[1, 'two']")
           (VArray [VNumber (Finite 1 0); VString (str "two")])).
  - reflexivity.
  - intros props. discriminate.
Defined.

(** The values named in C10, one by one. *)
Example non_object_replies :
  normalize (text "7") = Normal (response 200 (BodyData default_report))
  /\ normalize (text "'seven'") = Normal (response 200 (BodyData default_report))
  /\ normalize (text "[]") = Normal (response 200 (BodyData default_report))
  /\ normalize (text "true") = Normal (response 200 (BodyData default_report))
  /\ normalize (text "null") = Normal (extraction_failure (text "null"))
  /\ normalize (text "0") = Normal (extraction_failure (text "0"))
  /\ normalize (text "false") = Normal (extraction_failure (text "false"))
  /\ normalize (text "''") = Normal (extraction_failure (text "''")).
Proof.
  repeat split; reflexivity.
Qed.

(** ** Validation of the images *)

Lemma size_guard_refuses (imgs : list value) :
  existsb refused_image imgs = true ->
  exists status msg,
    NetlifyMulti.size_guard imgs = Some (response status (BodyError msg None))
    /\ (status = 400 \/ status = 413).
Proof.
  induction imgs as [|img imgs IH]; simpl; [discriminate|].
  intros H. destruct img as [| | | |s| |]; simpl in *;
    try (eexists; eexists; split; [reflexivity | left; reflexivity]).
  destruct (Z.of_nat (List.length s) >? 12000000); simpl in H.
  - eexists; eexists; split; [reflexivity | right; reflexivity].
  - apply IH, H.
Qed.

(** C8, counterexample: the Firebase callable has no check on the
    sequence; five images are sent to the model as they are. *)
Lemma images_checked_as_stated_fails :
  invalid_images (VArray five_images) = true
  /\ Firebase.gateway_calls
       (Firebase.analyzeListing (replies (text "{}")) data_five_images)
     = [five_images]
  /\ ~ images_checked_as_stated (replies (text "{}")) data_five_images.
Proof.
  split; [reflexivity|]. split; [reflexivity|].
  intros H. specialize (H five_images eq_refl eq_refl).
  vm_compute in H. discriminate.
Qed.

(** C8, amended: in the multi-image Netlify handler, a request whose
    imagesBase64 is no array, is empty, has more than 4 elements, or holds
    an element that is no string or has more than 12,000,000 code units,
    never reaches the model; when it is a POST and the key is set, the
    answer is the error reply 400 (413 for the length). *)
Theorem invalid_images_rejected
  (responses_create : list jsstring -> completion (option jsstring))
  (key : option jsstring) (ev : event) (payload imgs : value) :
  JSON_parse (body_text ev) = Normal payload ->
  Get payload (str "imagesBase64") = Normal imgs ->
  invalid_images imgs = true ->
  gateway_calls (NetlifyMulti.handler responses_create key ev) = []
  /\ (httpMethod ev = str "POST" -> nonempty key = true ->
      exists status msg,
        NetlifyMulti.handler responses_create key ev
        = finish (response status (BodyError msg None))
        /\ (status = 400 \/ status = 413)).
Proof.
  intros Hp Hg Hi.
  assert (Hv : exists status msg,
             (match imgs with
              | VArray imagesBase64 =>
                  if Z.of_nat (List.length imagesBase64) =? 0 then
                    finish (response 400 (BodyError (str "imagesBase64 must be a non-empty array") None))
                  else if Z.of_nat (List.length imagesBase64) >? 4 then
                    finish (response 400 (BodyError (str "Maximum 4 images allowed") None))
                  else
                    match NetlifyMulti.size_guard imagesBase64 with
                    | Some r => finish r
                    | None =>
                        analyse responses_create
                          (List.map (fun b64 => str "data:image/jpeg;base64," ++ NetlifyMulti.string_of b64)
                                    imagesBase64)
                    end
              | _ => finish (response 400 (BodyError (str "imagesBase64 must be a non-empty array") None))
              end = finish (response status (BodyError msg None)))
             /\ (status = 400 \/ status = 413)).
  { destruct imgs as [| | | | |l|];
      try (eexists; eexists; split; [reflexivity | left; reflexivity]).
    simpl in Hi.
    destruct (Z.of_nat (List.length l) =? 0);
      [eexists; eexists; split; [reflexivity | left; reflexivity]|].
    destruct (Z.of_nat (List.length l) >? 4);
      [eexists; eexists; split; [reflexivity | left; reflexivity]|].
    simpl in Hi. destruct (size_guard_refuses l Hi) as (st & msg & -> & Hst).
    exists st, msg. split; [reflexivity | exact Hst]. }
  destruct Hv as (status & msg & Hv & Hst).
  split.
  - unfold NetlifyMulti.handler.
    destruct (jsstring_eqb (httpMethod ev) (str "OPTIONS")); [reflexivity|].
    destruct (negb (jsstring_eqb (httpMethod ev) (str "POST"))); [reflexivity|].
    destruct (negb (nonempty key)); [reflexivity|].
    rewrite Hp, Hg.
    destruct imgs as [| | | | |l|]; try reflexivity.
    rewrite Hv. reflexivity.
  - intros Hm Hk. exists status, msg. split; [|exact Hst].
    unfold NetlifyMulti.handler. rewrite Hm, Hk, Hp, Hg.
    change (jsstring_eqb (str "POST") (str "OPTIONS")) with false.
    change (jsstring_eqb (str "POST") (str "POST")) with true.
    cbv iota. simpl negb. cbv iota.
    destruct imgs as [| | | | |l|]; exact Hv.
Qed.

Lemma invalid_images_rejected_witness :
  JSON_parse (body_text event_five_images)
    = Normal (VObject [(str "imagesBase64", VArray five_images)])
  /\ invalid_images (VArray five_images) = true
  /\ gateway_calls (NetlifyMulti.handler (replies_text (text "{}"))
                      (Some (str "sk-test")) event_five_images) = []
  /\ (httpMethod event_five_images = str "POST" ->
      nonempty (Some (str "sk-test")) = true ->
      exists status msg,
        NetlifyMulti.handler (replies_text (text "{}")) (Some (str "sk-test"))
          event_five_images
        = finish (response status (BodyError msg None))
        /\ (status = 400 \/ status = 413)).
Proof.
  split; [reflexivity|]. split; [reflexivity|].
  apply (invalid_images_rejected (replies_text (text "{}")) (Some (str "sk-test"))
           event_five_images
           (VObject [(str "imagesBase64", VArray five_images)])
           (VArray five_images)); reflexivity.
Defined.

(** ** What a success carries *)

Lemma cleaned_bounds (report : value) (r : ListingReport) :
  cleaned report = Normal r -> report_bounds r.
Proof.
  intros H.
  destruct (cleaned_Normal _ _ H)
    as (Ht & (n & _ & Hn) & Hs & Hm & Hrf & (qs & Hqs & Hq)).
  destruct (clamped_score_range n) as (Hlo & Hhi). rewrite <- Hn in Hlo, Hhi.
  apply list_field_Normal in Hqs. destruct Hqs as (Hqs & _).
  destruct (ensure_questions_spec qs Hqs) as (_ & _ & Hlen). rewrite <- Hq in Hlen.
  apply text_field_Normal in Ht; [|lia].
  apply text_field_Normal in Hs; [|lia].
  apply text_field_Normal in Hm; [|lia].
  apply list_field_Normal in Hrf.
  unfold report_bounds. intuition.
Qed.

Lemma normalize_data (outText : jsstring) (resp : http_response) (d : ListingReport) :
  catch_err (normalize outText) = resp ->
  body resp = BodyData d ->
  statusCode resp = 200 /\ cleaned (extractJson outText) = Normal d.
Proof.
  unfold normalize. intros <-.
  destruct (negb (truthy (extractJson outText))); [discriminate|].
  destruct (cleaned (extractJson outText)) as [c|e]; simpl; [|discriminate].
  intros E. injection E as ->. split; reflexivity.
Qed.

Lemma analyse_data
  (responses_create : list jsstring -> completion (option jsstring))
  (urls : list jsstring) (resp : http_response) (d : ListingReport) :
  result (analyse responses_create urls) = Normal resp ->
  body resp = BodyData d ->
  statusCode resp = 200 /\ exists report, cleaned report = Normal d.
Proof.
  unfold analyse. simpl. intros E. injection E as E.
  destruct (responses_create urls) as [o|e]; simpl in E.
  - intros Hb. destruct (normalize_data _ _ _ E Hb) as (Hs & Hc). eauto.
  - rewrite <- E. discriminate.
Qed.

Lemma finish_no_data (r resp : http_response) (d : ListingReport) :
  result (finish r) = Normal resp ->
  (forall x, body r <> BodyData x) ->
  body resp = BodyData d -> False.
Proof.
  simpl. intros E. injection E as <-. intros H Hb. apply (H d Hb).
Qed.

Lemma size_guard_no_data (imgs : list value) (r : http_response) :
  NetlifyMulti.size_guard imgs = Some r -> forall x, body r <> BodyData x.
Proof.
  induction imgs as [|img imgs IH]; simpl; [discriminate|].
  destruct img as [| | | |s| |]; try (intros E; injection E as <-; discriminate).
  destruct (Z.of_nat (List.length s) >? 12000000); [|exact IH].
  intros E; injection E as <-; discriminate.
Qed.

Ltac no_data :=
  match goal with
  | H : result _ = Normal _, Hb : body _ = BodyData ?d |- _ =>
      cbv iota in H;
      first [ discriminate H
            | exfalso; apply (finish_no_data _ _ d H);
              [simpl; discriminate | exact Hb] ]
  end.

Lemma single_handler_data
  (responses_create : list jsstring -> completion (option jsstring))
  (key : option jsstring) (ev : event) (resp : http_response) (d : ListingReport) :
  result (Netlify.handler responses_create key ev) = Normal resp ->
  body resp = BodyData d ->
  statusCode resp = 200 /\ exists report, cleaned report = Normal d.
Proof.
  unfold Netlify.handler. intros H Hb.
  destruct (jsstring_eqb (httpMethod ev) (str "OPTIONS")); [no_data|].
  destruct (negb (jsstring_eqb (httpMethod ev) (str "POST"))); [no_data|].
  destruct (negb (nonempty key)); [no_data|].
  destruct (JSON_parse (body_text ev)) as [payload|e]; [|no_data].
  destruct (Get payload (str "imageBase64")) as [img|e];
    destruct (Get payload (str "mimeType")) as [mt|e']; try no_data.
  destruct img as [| | | |s| |]; try no_data.
  destruct (negb (truthy (VString s))); [no_data|].
  destruct (Z.of_nat (List.length s) >? 12000000); [no_data|].
  destruct (ToString (or_else mt (VString (str "image/jpeg")))) as [m|e]; [|no_data].
  exact (analyse_data _ _ _ _ H Hb).
Qed.

Lemma multi_handler_data
  (responses_create : list jsstring -> completion (option jsstring))
  (key : option jsstring) (ev : event) (resp : http_response) (d : ListingReport) :
  result (NetlifyMulti.handler responses_create key ev) = Normal resp ->
  body resp = BodyData d ->
  statusCode resp = 200 /\ exists report, cleaned report = Normal d.
Proof.
  unfold NetlifyMulti.handler. intros H Hb.
  destruct (jsstring_eqb (httpMethod ev) (str "OPTIONS")); [no_data|].
  destruct (negb (jsstring_eqb (httpMethod ev) (str "POST"))); [no_data|].
  destruct (negb (nonempty key)); [no_data|].
  destruct (JSON_parse (body_text ev)) as [payload|e]; [|no_data].
  destruct (Get payload (str "imagesBase64")) as [imgs|e]; [|no_data].
  destruct imgs as [| | | | |l|]; try no_data.
  destruct (Z.of_nat (List.length l) =? 0); [no_data|].
  destruct (Z.of_nat (List.length l) >? 4); [no_data|].
  destruct (NetlifyMulti.size_guard l) as [r|] eqn:Eg.
  - exfalso. apply (finish_no_data _ _ d H); [|exact Hb].
    apply (size_guard_no_data _ _ Eg).
  - exact (analyse_data _ _ _ _ H Hb).
Qed.

(** X22: a success of the Firebase callable carries exactly what the
    reply parses to once the fences are removed, with no normalisation, and
    the model was called once. *)
Lemma firebase_success_is_parsed_reply
  (generateContent : list value -> completion jsstring) (data d : value) :
  Firebase.result (Firebase.analyzeListing generateContent data) = Firebase.Success d ->
  exists parts reply,
    Firebase.gateway_calls (Firebase.analyzeListing generateContent data) = [parts]
    /\ generateContent parts = Normal reply
    /\ Firebase.parse_reply reply = Normal d.
Proof.
  assert (G : forall imgs,
             Firebase.result (Firebase.generate generateContent imgs) = Firebase.Success d ->
             exists parts reply,
               Firebase.gateway_calls (Firebase.generate generateContent imgs) = [parts]
               /\ generateContent parts = Normal reply
               /\ Firebase.parse_reply reply = Normal d).
  { intros imgs. unfold Firebase.generate.
    destruct imgs as [| | | | |l|]; simpl; try discriminate.
    destruct (generateContent l) as [reply|e] eqn:El; simpl; [|discriminate].
    destruct (Firebase.parse_reply reply) as [v|e] eqn:Ep; [|discriminate].
    intros E. injection E as ->. exists l, reply. auto. }
  unfold Firebase.analyzeListing.
  destruct (Get data (str "images")) as [imgs|e]; [|discriminate].
  destruct (truthy imgs); [apply G|].
  destruct (Get data (str "imageBase64")) as [img|e]; [|discriminate].
  destruct (truthy img); [apply G | discriminate].
Qed.

(** C9, counterexample: the Firebase callable hands on whatever the reply
    parses to, here an object with no property at all; and the Netlify
    handler can answer 200 with an empty title and a score that is no
    integer. *)
Lemma success_as_stated_fails :
  (Firebase.result (Firebase.analyzeListing (replies (text "{}")) data_one_image)
   = Firebase.Success (VObject [])
   /\ ~ firebase_success_as_stated (replies (text "{}")) data_one_image)
  /\ (result (Netlify.handler
                (replies_text (text "{'vehicle_title': [], 'lens_score': 85.5}"))
                (Some (str "sk-test")) event_one_image)
      = Normal (response 200 (BodyData cleaned_degraded))
      /\ ~ netlify_success_as_stated
             (replies_text (text "{'vehicle_title': [], 'lens_score': 85.5}"))
             (Some (str "sk-test")) event_one_image).
Proof.
  split; (split; [reflexivity|]).
  - intros H. destruct (H (VObject []) eq_refl) as (r & Hr & _).
    unfold report_value in Hr. discriminate.
  - intros H.
    destruct (H (response 200 (BodyData cleaned_degraded)) cleaned_degraded
                eq_refl eq_refl) as (_ & Hne & _).
    apply Hne. reflexivity.
Qed.

(** C9, amended: in the two Netlify handlers, a reply that carries data
    has status 200 and its data is a [cleaned]: all six fields are there,
    the title has at most 120 code units, the score lies between 0 and
    100, the summary has at most 500 and the estimate at most 80 code
    units, there are at most 8 red flags and 3 to 8 questions. *)
Theorem netlify_success_bounds
  (responses_create : list jsstring -> completion (option jsstring))
  (key : option jsstring) (ev : event) (resp : http_response) (d : ListingReport) :
  result (Netlify.handler responses_create key ev) = Normal resp
  \/ result (NetlifyMulti.handler responses_create key ev) = Normal resp ->
  body resp = BodyData d ->
  statusCode resp = 200
  /\ (exists report, cleaned report = Normal d)
  /\ report_bounds d.
Proof.
  intros [H|H] Hb.
  - destruct (single_handler_data _ _ _ _ _ H Hb) as (Hs & report & Hc).
    split; [exact Hs|]. split; [eauto|]. apply (cleaned_bounds _ _ Hc).
  - destruct (multi_handler_data _ _ _ _ _ H Hb) as (Hs & report & Hc).
    split; [exact Hs|]. split; [eauto|]. apply (cleaned_bounds _ _ Hc).
Qed.

Lemma netlify_success_bounds_witness :
  result (Netlify.handler
            (replies_text (text "{'vehicle_title': [], 'lens_score': 85.5}"))
            (Some (str "sk-test")) event_one_image)
  = Normal (response 200 (BodyData cleaned_degraded))
  /\ statusCode (response 200 (BodyData cleaned_degraded)) = 200
  /\ (exists report, cleaned report = Normal cleaned_degraded)
  /\ report_bounds cleaned_degraded.
Proof.
  split; [reflexivity|].
  apply (netlify_success_bounds
           (replies_text (text "{'vehicle_title': [], 'lens_score': 85.5}"))
           (Some (str "sk-test")) event_one_image
           (response 200 (BodyData cleaned_degraded)) cleaned_degraded).
  - left. reflexivity.
  - reflexivity.
Defined.

(** ** The scenarios of the specification *)

(** A fenced reply: the direct parse fails on the fence, the text from the
    first brace to the last parses, and the single question is followed by
    the three fallback questions.  The Firebase callable strips the fence
    and returns the parsed object as it is. *)
Example fenced_reply_scenario :
  JSON_parse fenced_reply = Throw SyntaxError
  /\ normalize fenced_reply = Normal (response 200 (BodyData cleaned_hilux))
  /\ List.length (questions_to_ask cleaned_hilux) = 4%nat
  /\ Firebase.parse_reply fenced_reply = JSON_parse (slice fenced_reply 8 (-4)).
Proof.
  repeat split; reflexivity.
Qed.

(** A reply wrapped in prose, with a score that is no number. *)
Example prose_reply_scenario :
  normalize (text "Here you go: {'lens_score': 'N/A'} Thanks!")
  = Normal (response 200 (BodyData default_report)).
Proof.
  reflexivity.
Qed.

(** The values of [lens_score] the specification lists, and zero. *)
Example lens_score_scenarios :
  List.map (fun t => match cleaned (extractJson (text t)) with
                     | Normal r => Some (lens_score r)
                     | Throw _ => None
                     end)
    [ "{'lens_score': -10}"; "{'lens_score': 'abc'}"; "{'lens_score': 999}";
      "{'lens_score': null}"; "{}"; "{'lens_score': 0}"; "{'lens_score': '42'}";
      "{'lens_score': [7]}"; "{'lens_score': 85.5}" ]%string
  = [ Some (Finite 0 0); Some (Finite 50 0); Some (Finite 100 0);
      Some (Finite 50 0); Some (Finite 50 0); Some (Finite 50 0);
      Some (Finite 42 0); Some (Finite 7 0); Some (Finite 855 (-1)) ].
Proof.
  reflexivity.
Qed.

(** Long lists are cut to 8. *)
Example red_flags_scenario :
  match cleaned (extractJson (text "{'red_flags': [1,2,3,4,5,6,7,8,9,10,11,12]}")) with
  | Normal r => List.map (fun s => s) (red_flags r)
  | Throw _ => []
  end
  = List.map str ["1"; "2"; "3"; "4"; "5"; "6"; "7"; "8"]%string.
Proof.
  reflexivity.
Qed.

(* ================================================================== *)
(** * Further properties of the handlers *)
(* ================================================================== *)

(** ** [clamp] *)

Lemma scaled_lower (m e e' e0 : Z) :
  e0 <= e' -> e' <= e -> scaled m e e0 = scaled m e e' * 10 ^ (e' - e0).
Proof.
  intros H1 H2. unfold scaled.
  replace (e - e0) with ((e - e') + (e' - e0)) by lia.
  rewrite Z.pow_add_r by lia. ring.
Qed.

Lemma ltb_common (m1 e1 m2 e2 e0 : Z) :
  e0 <= Z.min e1 e2 ->
  (scaled m1 e1 (Z.min e1 e2) <? scaled m2 e2 (Z.min e1 e2))
  = (scaled m1 e1 e0 <? scaled m2 e2 e0).
Proof.
  intros H.
  rewrite (scaled_lower m1 e1 (Z.min e1 e2) e0) by lia.
  rewrite (scaled_lower m2 e2 (Z.min e1 e2) e0) by lia.
  assert (Hp : 0 < 10 ^ (Z.min e1 e2 - e0)) by (apply Z.pow_pos_nonneg; lia).
  destruct (Z.ltb_spec (scaled m1 e1 (Z.min e1 e2)) (scaled m2 e2 (Z.min e1 e2)));
    destruct (Z.ltb_spec (scaled m1 e1 (Z.min e1 e2) * 10 ^ (Z.min e1 e2 - e0))
                         (scaled m2 e2 (Z.min e1 e2) * 10 ^ (Z.min e1 e2 - e0)));
    try reflexivity; nia.
Qed.

Lemma leb_common (m1 e1 m2 e2 e0 : Z) :
  e0 <= Z.min e1 e2 ->
  (scaled m1 e1 (Z.min e1 e2) <=? scaled m2 e2 (Z.min e1 e2))
  = (scaled m1 e1 e0 <=? scaled m2 e2 e0).
Proof.
  intros H.
  rewrite (scaled_lower m1 e1 (Z.min e1 e2) e0) by lia.
  rewrite (scaled_lower m2 e2 (Z.min e1 e2) e0) by lia.
  assert (Hp : 0 < 10 ^ (Z.min e1 e2 - e0)) by (apply Z.pow_pos_nonneg; lia).
  destruct (Z.leb_spec (scaled m1 e1 (Z.min e1 e2)) (scaled m2 e2 (Z.min e1 e2)));
    destruct (Z.leb_spec (scaled m1 e1 (Z.min e1 e2) * 10 ^ (Z.min e1 e2 - e0))
                         (scaled m2 e2 (Z.min e1 e2) * 10 ^ (Z.min e1 e2 - e0)));
    try reflexivity; nia.
Qed.

Lemma num_leb_ltb_trans (a b c : number) :
  num_leb a b = true -> num_ltb b c = true -> num_ltb a c = true.
Proof.
  destruct a as [| | |m1 e1], b as [| | |m2 e2], c as [| | |m3 e3];
    simpl; try congruence.
  rewrite (leb_common m1 e1 m2 e2 (Z.min e1 (Z.min e2 e3))) by lia.
  rewrite (ltb_common m2 e2 m3 e3 (Z.min e1 (Z.min e2 e3))) by lia.
  rewrite (ltb_common m1 e1 m3 e3 (Z.min e1 (Z.min e2 e3))) by lia.
  intros H1 H2. apply Z.leb_le in H1. apply Z.ltb_lt in H2. apply Z.ltb_lt. lia.
Qed.

Lemma num_leb_not_ltb (a b : number) :
  num_leb a b = true -> num_ltb b a = false.
Proof.
  destruct a, b; simpl; try congruence.
  rewrite (Z.min_comm e0 e). intros H. apply Z.leb_le in H. apply Z.ltb_ge. exact H.
Qed.

(** X1: [clamp(n, lo, hi)] with [lo < hi] is [n] when [n] lies strictly
    between the bounds, [hi] when [n] is at least [hi], [lo] when [n] is at
    most [lo], and NaN when [n] is NaN (which is why the handler puts
    [|| 50] before it). *)
Theorem clamp_spec (n lo hi : number) :
  num_ltb lo hi = true ->
  (is_NaN n = true -> clamp n lo hi = NaN)
  /\ (num_ltb lo n = true -> num_ltb n hi = true -> clamp n lo hi = n)
  /\ (num_leb hi n = true -> clamp n lo hi = hi)
  /\ (num_leb n lo = true -> clamp n lo hi = lo).
Proof.
  intros Hlt.
  assert (Hlo : is_NaN lo = false) by (destruct lo, hi; simpl in *; congruence).
  assert (Hhi : is_NaN hi = false) by (destruct lo, hi; simpl in *; congruence).
  split; [|split; [|split]].
  - destruct n; simpl; try discriminate. intros _. unfold clamp, Math_min, Math_max.
    destruct hi, lo; reflexivity.
  - intros H1 H2. unfold clamp, Math_min. rewrite H2.
    replace (match hi with NaN => NaN | _ => match n with NaN => NaN | _ => n end end)
      with n by (destruct hi, n; simpl in *; congruence).
    unfold Math_max. rewrite H1. destruct lo, n; simpl in *; congruence.
  - intros H. pose proof (num_leb_not_ltb _ _ H) as Hn.
    unfold clamp, Math_min. rewrite Hn.
    replace (match hi with NaN => NaN | _ => match n with NaN => NaN | _ => hi end end)
      with hi by (destruct hi, n; simpl in *; congruence).
    unfold Math_max. rewrite Hlt. destruct lo, hi; simpl in *; congruence.
  - intros H. pose proof (num_leb_ltb_trans _ _ _ H Hlt) as H2.
    pose proof (num_leb_not_ltb _ _ H) as H1.
    unfold clamp, Math_min. rewrite H2.
    replace (match hi with NaN => NaN | _ => match n with NaN => NaN | _ => n end end)
      with n by (destruct hi, n; simpl in *; congruence).
    unfold Math_max. rewrite H1. destruct lo, n; simpl in *; congruence.
Qed.

Lemma clamp_spec_witness :
  num_ltb (Finite 0 0) (Finite 100 0) = true
  /\ (is_NaN (Finite 999 0) = true -> clamp (Finite 999 0) (Finite 0 0) (Finite 100 0) = NaN)
  /\ (num_ltb (Finite 0 0) (Finite 999 0) = true ->
      num_ltb (Finite 999 0) (Finite 100 0) = true ->
      clamp (Finite 999 0) (Finite 0 0) (Finite 100 0) = Finite 999 0)
  /\ (num_leb (Finite 100 0) (Finite 999 0) = true ->
      clamp (Finite 999 0) (Finite 0 0) (Finite 100 0) = Finite 100 0)
  /\ (num_leb (Finite 999 0) (Finite 0 0) = true ->
      clamp (Finite 999 0) (Finite 0 0) (Finite 100 0) = Finite 0 0).
Proof.
  split; [reflexivity|].
  apply (clamp_spec (Finite 999 0) (Finite 0 0) (Finite 100 0)). reflexivity.
Defined.

(** X2: the score of [cleaned] is a finite number, never NaN and never an
    infinity, so it is written as a number in the reply. *)
Theorem lens_score_finite (report : value) (r : ListingReport) :
  cleaned report = Normal r -> exists m e, lens_score r = Finite m e.
Proof.
  intros H. destruct (cleaned_Normal _ _ H) as (_ & (n & _ & Hn) & _).
  destruct (clamped_score_range n) as (Hlo & Hhi). rewrite <- Hn in Hlo, Hhi.
  destruct (lens_score r) as [| | |m e]; simpl in *; try discriminate. eauto.
Qed.

Lemma lens_score_finite_witness :
  Number_ (field report_score_infinite (str "lens_score")) = Normal PosInfinity
  /\ cleaned report_score_infinite
     = Normal (report_with (str "Unknown Vehicle") (Finite 100 0))
  /\ exists m e,
      lens_score (report_with (str "Unknown Vehicle") (Finite 100 0)) = Finite m e.
Proof.
  split; [reflexivity|]. split; [reflexivity|].
  apply (lens_score_finite report_score_infinite
           (report_with (str "Unknown Vehicle") (Finite 100 0))).
  reflexivity.
Defined.

(** ** The other fields of [cleaned] *)

Lemma mapM_length {A B : Type} (f : A -> completion B) (l : list A) (r : list B) :
  mapM f l = Normal r -> List.length r = List.length l.
Proof.
  revert r. induction l as [|x l IH]; simpl; intros r H.
  - injection H as <-. reflexivity.
  - invert_bind H. invert_bind H. injection H as <-. simpl. f_equal. apply IH, Ha0.
Qed.

(** X3: [red_flags] holds at most 8 texts.  When the property is an array
    they are its first 8 elements, in order, each converted by [String]
    (all elements are converted, also those beyond the eighth); when it is
    anything else the list is empty. *)
Theorem red_flags_rule (report : value) (r : ListingReport) :
  cleaned report = Normal r ->
  (List.length (red_flags r) <= 8)%nat
  /\ (forall l, field report (str "red_flags") = VArray l ->
      exists texts,
        mapM String_ l = Normal texts
        /\ List.length texts = List.length l
        /\ red_flags r = firstn 8 texts)
  /\ (isArray (field report (str "red_flags")) = false -> red_flags r = []).
Proof.
  intros H. destruct (cleaned_Normal _ _ H) as (_ & _ & _ & _ & Hrf & _).
  destruct (list_field_Normal _ _ _ Hrf) as (Hlen & Hna).
  split; [exact Hlen|]. split; [|exact Hna].
  intros l Hl. unfold list_field in Hrf. invert_bind Hrf.
  rewrite (Get_field _ _ _ Ha) in Hl. subst a.
  invert_bind Hrf. injection Hrf as Hrf. exists a.
  split; [exact Ha0|]. split; [apply (mapM_length _ _ _ Ha0)|].
  rewrite <- Hrf. apply slice_prefix. lia.
Qed.

Lemma red_flags_rule_witness :
  cleaned report_ten_flags
  = Normal {| vehicle_title := str "Unknown Vehicle";
              lens_score := Finite 50 0;
              summary := str "No summary returned.";
              market_value_estimate := str "Unknown";
              red_flags := eight_flags;
              questions_to_ask := fallback_questions |}
  /\ (List.length eight_flags <= 8)%nat
  /\ (forall l, field report_ten_flags (str "red_flags") = VArray l ->
      exists texts,
        mapM String_ l = Normal texts
        /\ List.length texts = List.length l
        /\ eight_flags = firstn 8 texts)
  /\ (isArray (field report_ten_flags (str "red_flags")) = false -> eight_flags = []).
Proof.
  split; [reflexivity|].
  apply (red_flags_rule report_ten_flags
           {| vehicle_title := str "Unknown Vehicle";
              lens_score := Finite 50 0;
              summary := str "No summary returned.";
              market_value_estimate := str "Unknown";
              red_flags := eight_flags;
              questions_to_ask := fallback_questions |}).
  reflexivity.
Defined.

Lemma text_field_empty (report : value) (k fallback : jsstring) (limit : Z) :
  0 < limit -> fallback <> [] ->
  text_field report k fallback limit = Normal [] ->
  isArray (field report k) = true /\ toString (field report k) = Normal [].
Proof.
  intros Hl Hf H. apply text_field_Normal in H; [|lia].
  destruct H as (_ & [(Htr & t & Hts & Hs)|(_ & Hs)]).
  - destruct (isArray (field report k)) eqn:Ea.
    + split; [reflexivity|]. rewrite Hts. f_equal.
      rewrite slice_prefix in Hs by lia.
      destruct t; [reflexivity|]. destruct (Z.to_nat limit) eqn:E; [lia | discriminate].
    + exfalso. apply (slice_prefix_nonempty t limit); [lia| |congruence].
      apply (toString_nonempty _ _ Htr Ea Hts).
  - exfalso. apply (slice_prefix_nonempty fallback limit); [lia|exact Hf|congruence].
Qed.

(** X4: the summary has at most 500 code units and the estimate at most
    80; each is the property's own text when the property is truthy and
    its fallback ("No summary returned.", "Unknown") otherwise, cut to the
    limit; each is empty only when the property is an array whose text is
    empty. *)
Theorem summary_and_estimate_rule (report : value) (r : ListingReport) :
  cleaned report = Normal r ->
  (Z.of_nat (List.length (summary r)) <= 500
   /\ text_rule report (str "summary") (str "No summary returned.") 500 (summary r)
   /\ (summary r = [] -> isArray (field report (str "summary")) = true))
  /\ (Z.of_nat (List.length (market_value_estimate r)) <= 80
      /\ text_rule report (str "market_value_estimate") (str "Unknown") 80
           (market_value_estimate r)
      /\ (market_value_estimate r = [] ->
          isArray (field report (str "market_value_estimate")) = true)).
Proof.
  intros H. destruct (cleaned_Normal _ _ H) as (_ & _ & Hs & Hm & _).
  split.
  - pose proof Hs as Hs'. apply text_field_Normal in Hs'; [|lia].
    destruct Hs' as (Hlen & Hrule).
    split; [exact Hlen|]. split; [exact Hrule|].
    intros E. rewrite E in Hs.
    apply text_field_empty in Hs; [apply Hs | lia | discriminate].
  - pose proof Hm as Hm'. apply text_field_Normal in Hm'; [|lia].
    destruct Hm' as (Hlen & Hrule).
    split; [exact Hlen|]. split; [exact Hrule|].
    intros E. rewrite E in Hm.
    apply text_field_empty in Hm; [apply Hm | lia | discriminate].
Qed.

Lemma summary_and_estimate_rule_witness :
  cleaned report_odd_texts
  = Normal {| vehicle_title := str "Unknown Vehicle";
              lens_score := Finite 50 0;
              summary := str "a,b";
              market_value_estimate := str "15000";
              red_flags := [];
              questions_to_ask := fallback_questions |}
  /\ (Z.of_nat (List.length (str "a,b")) <= 500
      /\ text_rule report_odd_texts (str "summary") (str "No summary returned.") 500
           (str "a,b")
      /\ (str "a,b" = [] -> isArray (field report_odd_texts (str "summary")) = true))
  /\ (Z.of_nat (List.length (str "15000")) <= 80
      /\ text_rule report_odd_texts (str "market_value_estimate") (str "Unknown") 80
           (str "15000")
      /\ (str "15000" = [] ->
          isArray (field report_odd_texts (str "market_value_estimate")) = true)).
Proof.
  split; [reflexivity|].
  apply (summary_and_estimate_rule report_odd_texts
           {| vehicle_title := str "Unknown Vehicle";
              lens_score := Finite 50 0;
              summary := str "a,b";
              market_value_estimate := str "15000";
              red_flags := [];
              questions_to_ask := fallback_questions |}).
  reflexivity.
Defined.

(** X5: [cleaned] reads the six properties and nothing else: two values
    that agree on them, whatever else they hold and in whatever order, give
    the same result (the same report, or the same error). *)
Theorem cleaned_reads_six (a b : value) :
  truthy a = true -> truthy b = true ->
  (forall k, In k report_keys -> field a k = field b k) ->
  cleaned a = cleaned b.
Proof.
  intros Ha Hb Hk. unfold cleaned, text_field, list_field.
  rewrite !(Get_truthy a) by exact Ha. rewrite !(Get_truthy b) by exact Hb.
  rewrite (Hk (str "vehicle_title")) by (vm_compute; tauto).
  rewrite (Hk (str "lens_score")) by (vm_compute; tauto).
  rewrite (Hk (str "summary")) by (vm_compute; tauto).
  rewrite (Hk (str "market_value_estimate")) by (vm_compute; tauto).
  rewrite (Hk (str "red_flags")) by (vm_compute; tauto).
  rewrite (Hk (str "questions_to_ask")) by (vm_compute; tauto).
  reflexivity.
Qed.

Lemma cleaned_reads_six_witness :
  truthy report_with_note = true
  /\ truthy report_with_extra = true
  /\ cleaned report_with_note = cleaned report_with_extra.
Proof.
  split; [reflexivity|]. split; [reflexivity|].
  apply (cleaned_reads_six report_with_note report_with_extra);
    [reflexivity | reflexivity |].
  intros k Hk. vm_compute in Hk.
  repeat (destruct Hk as [<-|Hk]; [reflexivity|]). contradiction.
Defined.

(** ** Extraction from a reply with prose around the object *)

Lemma indexOf_from_char (c : N) (p t : jsstring) (i : Z) :
  no_char c p = true ->
  indexOf_from [c] (p ++ c :: t) i = i + Z.of_nat (List.length p).
Proof.
  revert i. induction p as [|a p IH]; intros i Hp; simpl.
  - rewrite N.eqb_refl. simpl. lia.
  - simpl in Hp. apply andb_true_iff in Hp. destruct Hp as (Ha & Hp).
    apply negb_true_iff in Ha. rewrite N.eqb_sym, Ha. simpl.
    rewrite IH by exact Hp. lia.
Qed.

Lemma lastIndexOf_from_none (c : N) (q : jsstring) (i f : Z) :
  no_char c q = true -> lastIndexOf_from [c] q i f = f.
Proof.
  revert i. induction q as [|a q IH]; intros i Hq; simpl; [reflexivity|].
  simpl in Hq. apply andb_true_iff in Hq. destruct Hq as (Ha & Hq).
  apply negb_true_iff in Ha. rewrite N.eqb_sym, Ha. simpl. apply IH, Hq.
Qed.

Lemma lastIndexOf_from_char (c : N) (s q : jsstring) (i f : Z) :
  no_char c q = true ->
  lastIndexOf_from [c] (s ++ c :: q) i f = i + Z.of_nat (List.length s).
Proof.
  intros Hq. revert i f. induction s as [|a s IH]; intros i f.
  - simpl. rewrite N.eqb_refl. simpl.
    rewrite lastIndexOf_from_none by exact Hq. lia.
  - change ((a :: s) ++ c :: q) with (a :: (s ++ c :: q)).
    cbn [lastIndexOf_from]. rewrite IH. simpl List.length. lia.
Qed.

Lemma skipn_length_app {A : Type} (p r : list A) : skipn (List.length p) (p ++ r) = r.
Proof.
  induction p as [|a p IH]; simpl; [reflexivity | exact IH].
Qed.

Lemma firstn_length_app {A : Type} (d q : list A) : firstn (List.length d) (d ++ q) = d.
Proof.
  induction d as [|a d IH]; simpl; [reflexivity | f_equal; exact IH].
Qed.

Lemma slice_middle {A : Type} (p d q : list A) :
  slice (p ++ d ++ q) (Z.of_nat (List.length p))
        (Z.of_nat (List.length p) + Z.of_nat (List.length d)) = d.
Proof.
  unfold slice, slice_index. rewrite !length_app.
  destruct (Z.ltb_spec (Z.of_nat (List.length p)) 0); [lia|].
  destruct (Z.ltb_spec (Z.of_nat (List.length p) + Z.of_nat (List.length d)) 0); [lia|].
  rewrite !Z.min_l by lia.
  replace (Z.of_nat (List.length p) + Z.of_nat (List.length d) - Z.of_nat (List.length p))
    with (Z.of_nat (List.length d)) by lia.
  rewrite !Nat2Z.id. rewrite skipn_length_app. apply firstn_length_app.
Qed.

Lemma extractJson_nonempty (t : jsstring) :
  t <> [] ->
  extractJson t
  = match JSON_parse t with
    | Normal v => v
    | Throw _ =>
        if negb (indexOf t (str "{") =? -1) && negb (lastIndexOf t (str "}") =? -1)
           && (lastIndexOf t (str "}") >? indexOf t (str "{"))
        then match JSON_parse (slice t (indexOf t (str "{")) (lastIndexOf t (str "}") + 1)) with
             | Normal v => v
             | Throw _ => VNull
             end
        else VNull
    end.
Proof.
  destruct t; [congruence | reflexivity].
Qed.

(** X6: prose around the object is ignored.  For a reply [p ++ doc ++ q]
    where [doc] runs from an opening to a closing brace, [p] holds no
    opening brace and [q] no closing brace, and the whole reply is no JSON,
    [extractJson] returns what [doc] parses to, and null when [doc] does not
    parse. *)
Theorem extractJson_ignores_prose (p m q : jsstring) :
  no_char 123 p = true ->
  no_char 125 q = true ->
  (exists e, JSON_parse (p ++ (123%N :: m ++ [125%N]) ++ q) = Throw e) ->
  extractJson (p ++ (123%N :: m ++ [125%N]) ++ q)
  = match JSON_parse (123%N :: m ++ [125%N]) with
    | Normal v => v
    | Throw _ => VNull
    end.
Proof.
  intros Hp Hq (e & He).
  rewrite extractJson_nonempty by (destruct p; discriminate).
  rewrite He.
  assert (Hs : indexOf (p ++ (123%N :: m ++ [125%N]) ++ q) (str "{")
               = Z.of_nat (List.length p)).
  { unfold indexOf. change (str "{") with [123%N].
    change ((123%N :: m ++ [125%N]) ++ q) with (123%N :: ((m ++ [125%N]) ++ q)).
    rewrite indexOf_from_char by exact Hp. lia. }
  assert (Hl : lastIndexOf (p ++ (123%N :: m ++ [125%N]) ++ q) (str "}")
               = Z.of_nat (List.length p) + Z.of_nat (List.length m) + 1).
  { unfold lastIndexOf. change (str "}") with [125%N].
    replace (p ++ (123%N :: m ++ [125%N]) ++ q)
      with ((p ++ 123%N :: m) ++ 125%N :: q)
      by (simpl; rewrite <- !app_assoc; reflexivity).
    rewrite lastIndexOf_from_char by exact Hq.
    rewrite length_app. simpl. lia. }
  rewrite Hs, Hl.
  assert (C : negb (Z.of_nat (List.length p) =? -1)
              && negb (Z.of_nat (List.length p) + Z.of_nat (List.length m) + 1 =? -1)
              && (Z.of_nat (List.length p) + Z.of_nat (List.length m) + 1
                  >? Z.of_nat (List.length p)) = true).
  { rewrite !andb_true_iff, !negb_true_iff, !Z.eqb_neq, Z.gtb_gt. lia. }
  rewrite C.
  replace (Z.of_nat (List.length p) + Z.of_nat (List.length m) + 1 + 1)
    with (Z.of_nat (List.length p) + Z.of_nat (List.length (123%N :: m ++ [125%N])))
    by (simpl List.length; rewrite length_app; simpl; lia).
  rewrite slice_middle. reflexivity.
Qed.

Lemma extractJson_ignores_prose_witness :
  no_char 123 (str "Here you go: ") = true
  /\ no_char 125 (str " Thanks!") = true
  /\ extractJson (str "Here you go: " ++ (123%N :: text "'lens_score': 'N/A'" ++ [125%N])
                  ++ str " Thanks!")
     = match JSON_parse (123%N :: text "'lens_score': 'N/A'" ++ [125%N]) with
       | Normal v => v
       | Throw _ => VNull
       end.
Proof.
  split; [reflexivity|]. split; [reflexivity|].
  apply (extractJson_ignores_prose (str "Here you go: ") (text "'lens_score': 'N/A'")
           (str " Thanks!")).
  - reflexivity.
  - reflexivity.
  - exists SyntaxError. reflexivity.
Defined.

(** ** The single-image handler *)

Lemma jsstring_eqb_eq (a b : jsstring) : jsstring_eqb a b = true <-> a = b.
Proof.
  revert b. induction a as [|x a IH]; destruct b as [|y b]; simpl;
    try (split; [discriminate | discriminate]); [tauto|].
  rewrite andb_true_iff, N.eqb_eq, IH. split.
  - intros (-> & ->). reflexivity.
  - intros E. injection E as -> ->. auto.
Qed.

Lemma jsstring_eqb_neq (a b : jsstring) : a <> b -> jsstring_eqb a b = false.
Proof.
  intros H. destruct (jsstring_eqb a b) eqn:E; [|reflexivity].
  apply jsstring_eqb_eq in E. contradiction.
Qed.

Lemma Get_Normal_field (payload v : value) (k k' : jsstring) :
  Get payload k = Normal v -> Get payload k' = Normal (field payload k').
Proof.
  unfold field. destruct payload; simpl; try discriminate; reflexivity.
Qed.

Ltac enter_post Hm Hk :=
  rewrite Hm, Hk;
  change (jsstring_eqb (str "POST") (str "OPTIONS")) with false;
  change (jsstring_eqb (str "POST") (str "POST")) with true;
  cbv iota; simpl negb; cbv iota.

(** X7: a request that is no POST, or that comes while the key is not set,
    is answered without reading the body and without calling the model:
    200 for OPTIONS, 405 for every other method, 500 for a POST without
    key, in both Netlify handlers. *)
Theorem gate_before_body
  (responses_create responses_create' : list jsstring -> completion (option jsstring))
  (key : option jsstring) (ev : event) (other_body : option jsstring) :
  httpMethod ev <> str "POST" \/ nonempty key = false ->
  let ev' := {| httpMethod := httpMethod ev; event_body := other_body |} in
  (Netlify.handler responses_create key ev = Netlify.handler responses_create' key ev'
   /\ gateway_calls (Netlify.handler responses_create key ev) = []
   /\ exists resp,
       result (Netlify.handler responses_create key ev) = Normal resp
       /\ statusCode resp
          = (if jsstring_eqb (httpMethod ev) (str "OPTIONS") then 200
             else if jsstring_eqb (httpMethod ev) (str "POST") then 500 else 405))
  /\ (NetlifyMulti.handler responses_create key ev
      = NetlifyMulti.handler responses_create' key ev'
      /\ gateway_calls (NetlifyMulti.handler responses_create key ev) = []
      /\ exists resp,
          result (NetlifyMulti.handler responses_create key ev) = Normal resp
          /\ statusCode resp
             = (if jsstring_eqb (httpMethod ev) (str "OPTIONS") then 200
                else if jsstring_eqb (httpMethod ev) (str "POST") then 500 else 405)).
Proof.
  intros H ev'. unfold Netlify.handler, NetlifyMulti.handler. subst ev'. simpl httpMethod.
  destruct (jsstring_eqb (httpMethod ev) (str "OPTIONS")) eqn:Eo.
  - split; (split; [reflexivity|]); (split; [reflexivity|]); eexists; split; reflexivity.
  - destruct (jsstring_eqb (httpMethod ev) (str "POST")) eqn:Ep; simpl negb; cbv iota.
    + destruct H as [H|H]; [apply jsstring_eqb_eq in Ep; contradiction|].
      rewrite H. simpl negb. cbv iota.
      split; (split; [reflexivity|]); (split; [reflexivity|]); eexists; split; reflexivity.
    + split; (split; [reflexivity|]); (split; [reflexivity|]); eexists; split; reflexivity.
Qed.

Lemma gate_before_body_witness :
  (httpMethod event_get <> str "POST" \/ nonempty (Some (str "sk-test")) = false)
  /\ Netlify.handler (replies_text (text "{}")) (Some (str "sk-test")) event_get
     = finish (response 405 (BodyError (str "Method Not Allowed") None))
  /\ Netlify.handler (replies_text (text "{}")) (Some (str "sk-test")) event_get
     = Netlify.handler (replies_text []) (Some (str "sk-test"))
         {| httpMethod := httpMethod event_get; event_body := None |}.
Proof.
  split; [left; discriminate|]. split; [reflexivity|].
  apply (gate_before_body (replies_text (text "{}")) (replies_text [])
           (Some (str "sk-test")) event_get None).
  left. discriminate.
Defined.

(** X8: a POST with the key set, a body that parses, an [imageBase64] that
    is a string of 1 to 12,000,000 code units and a MIME type that converts
    to text calls the model once, with the single data URL
    data:MIME;base64,IMAGE; the MIME type is image/jpeg when the body gives
    none.  Nothing else of the image is checked. *)
Theorem single_image_sent
  (responses_create : list jsstring -> completion (option jsstring))
  (key : option jsstring) (ev : event) (payload : value) (img m : jsstring) :
  httpMethod ev = str "POST" ->
  nonempty key = true ->
  JSON_parse (body_text ev) = Normal payload ->
  Get payload (str "imageBase64") = Normal (VString img) ->
  img <> [] ->
  Z.of_nat (List.length img) <= 12000000 ->
  ToString (or_else (field payload (str "mimeType")) (VString (str "image/jpeg")))
  = Normal m ->
  Netlify.handler responses_create key ev = analyse responses_create [data_url m img]
  /\ gateway_calls (Netlify.handler responses_create key ev) = [[data_url m img]]
  /\ (truthy (field payload (str "mimeType")) = false -> m = str "image/jpeg").
Proof.
  intros Hm Hk Hp Hg Hne Hlen Hmime.
  assert (E : Netlify.handler responses_create key ev
              = analyse responses_create [data_url m img]).
  { unfold Netlify.handler. enter_post Hm Hk. rewrite Hp, Hg.
    rewrite (Get_Normal_field _ _ _ (str "mimeType") Hg).
    assert (Ht : truthy (VString img) = true) by (destruct img; [congruence | reflexivity]).
    rewrite Ht. simpl negb. cbv iota.
    destruct (Z.gtb_spec (Z.of_nat (List.length img)) 12000000) as [Hgt|_]; [lia|].
    rewrite Hmime. reflexivity. }
  split; [exact E|]. split; [rewrite E; reflexivity|].
  intros Hf. unfold or_else in Hmime. rewrite Hf in Hmime. simpl in Hmime.
  injection Hmime as <-. reflexivity.
Qed.

Lemma single_image_sent_witness :
  JSON_parse (body_text event_png)
  = Normal (VObject [(str "imageBase64", VString (str "abc"));
                     (str "mimeType", VString (str "image/png"))])
  /\ Netlify.handler (replies_text (text "{}")) (Some (str "sk-test")) event_png
     = analyse (replies_text (text "{}")) [data_url (str "image/png") (str "abc")]
  /\ gateway_calls (Netlify.handler (replies_text (text "{}")) (Some (str "sk-test")) event_png)
     = [[str "data:image/png;base64,abc"]]
  /\ (truthy (field (VObject [(str "imageBase64", VString (str "abc"));
                              (str "mimeType", VString (str "image/png"))])
                    (str "mimeType")) = false ->
      str "image/png" = str "image/jpeg").
Proof.
  split; [reflexivity|].
  apply (single_image_sent (replies_text (text "{}")) (Some (str "sk-test")) event_png
           (VObject [(str "imageBase64", VString (str "abc"));
                     (str "mimeType", VString (str "image/png"))])
           (str "abc") (str "image/png"));
    try reflexivity; try discriminate.
Defined.

(** X9: the single-image handler calls the model at most once, and only
    for a POST with the key set whose body parses to a value holding a
    string [imageBase64] of 1 to 12,000,000 code units. *)
Theorem single_call_only_if_valid
  (responses_create : list jsstring -> completion (option jsstring))
  (key : option jsstring) (ev : event) :
  gateway_calls (Netlify.handler responses_create key ev) <> [] ->
  exists payload img m,
    httpMethod ev = str "POST"
    /\ nonempty key = true
    /\ JSON_parse (body_text ev) = Normal payload
    /\ Get payload (str "imageBase64") = Normal (VString img)
    /\ img <> []
    /\ Z.of_nat (List.length img) <= 12000000
    /\ gateway_calls (Netlify.handler responses_create key ev) = [[data_url m img]].
Proof.
  unfold Netlify.handler.
  destruct (jsstring_eqb (httpMethod ev) (str "OPTIONS")); [simpl; congruence|].
  destruct (jsstring_eqb (httpMethod ev) (str "POST")) eqn:Ep; [|simpl; congruence].
  apply jsstring_eqb_eq in Ep. simpl negb. cbv iota.
  destruct (nonempty key) eqn:Ek; [|simpl; congruence]. simpl negb. cbv iota.
  destruct (JSON_parse (body_text ev)) as [payload|e]; [|simpl; congruence].
  destruct (Get payload (str "imageBase64")) as [v|e] eqn:Eg;
    destruct (Get payload (str "mimeType")) as [mt|e']; try (simpl; congruence).
  destruct v as [| | | |img| |]; try (simpl; congruence).
  destruct img as [|c img]; [simpl; congruence|]. simpl truthy. simpl negb. cbv iota.
  destruct (Z.gtb_spec (Z.of_nat (List.length (c :: img))) 12000000) as [Hgt|Hle];
    [simpl; congruence|].
  destruct (ToString (or_else mt (VString (str "image/jpeg")))) as [m|e];
    [|simpl; congruence].
  intros _. exists payload, (c :: img), m.
  repeat split; try assumption; try reflexivity. discriminate.
Qed.

Lemma single_call_only_if_valid_witness :
  gateway_calls (Netlify.handler (replies_text (text "{}")) (Some (str "sk-test")) event_png)
  <> []
  /\ exists payload img m,
      httpMethod event_png = str "POST"
      /\ nonempty (Some (str "sk-test")) = true
      /\ JSON_parse (body_text event_png) = Normal payload
      /\ Get payload (str "imageBase64") = Normal (VString img)
      /\ img <> []
      /\ Z.of_nat (List.length img) <= 12000000
      /\ gateway_calls (Netlify.handler (replies_text (text "{}")) (Some (str "sk-test"))
                          event_png)
         = [[data_url m img]].
Proof.
  split; [vm_compute; discriminate|].
  apply (single_call_only_if_valid (replies_text (text "{}")) (Some (str "sk-test"))
           event_png).
  vm_compute. discriminate.
Defined.

(** X10: with a POST, the key set and a body that parses, an [imageBase64]
    that is absent, no string, or the empty string is answered 400
    "imageBase64 is required", and a string of more than 12,000,000 code
    units is answered 413; the model is not called. *)
Theorem single_image_rejected
  (responses_create : list jsstring -> completion (option jsstring))
  (key : option jsstring) (ev : event) (payload v : value) :
  httpMethod ev = str "POST" ->
  nonempty key = true ->
  JSON_parse (body_text ev) = Normal payload ->
  Get payload (str "imageBase64") = Normal v ->
  (match v with VString (_ :: _) => False | _ => True end ->
   Netlify.handler responses_create key ev
   = finish (response 400 (BodyError (str "imageBase64 is required") None)))
  /\ (forall img, v = VString img -> Z.of_nat (List.length img) > 12000000 ->
      Netlify.handler responses_create key ev
      = finish (response 413 (BodyError (str "Image too large. Use a smaller screenshot.")
                                        None))).
Proof.
  intros Hm Hk Hp Hg. split.
  - intros Hv. unfold Netlify.handler. enter_post Hm Hk. rewrite Hp, Hg.
    rewrite (Get_Normal_field _ _ _ (str "mimeType") Hg).
    destruct v as [| | | |[|c img]| |]; try reflexivity. contradiction.
  - intros img -> Hlen. unfold Netlify.handler. enter_post Hm Hk. rewrite Hp, Hg.
    rewrite (Get_Normal_field _ _ _ (str "mimeType") Hg).
    destruct img as [|c img]; [simpl in Hlen; lia|]. simpl truthy. simpl negb. cbv iota.
    destruct (Z.gtb_spec (Z.of_nat (List.length (c :: img))) 12000000); [reflexivity | lia].
Qed.

Lemma single_image_rejected_witness :
  JSON_parse (body_text event_image_number)
  = Normal (VObject [(str "imageBase64", VNumber (Finite 42 0))])
  /\ (True ->
      Netlify.handler (replies_text (text "{}")) (Some (str "sk-test")) event_image_number
      = finish (response 400 (BodyError (str "imageBase64 is required") None)))
  /\ (forall img, VNumber (Finite 42 0) = VString img ->
      Z.of_nat (List.length img) > 12000000 ->
      Netlify.handler (replies_text (text "{}")) (Some (str "sk-test")) event_image_number
      = finish (response 413 (BodyError (str "Image too large. Use a smaller screenshot.")
                                        None))).
Proof.
  split; [reflexivity|].
  apply (single_image_rejected (replies_text (text "{}")) (Some (str "sk-test"))
           event_image_number
           (VObject [(str "imageBase64", VNumber (Finite 42 0))])
           (VNumber (Finite 42 0))); reflexivity.
Defined.

(** ** Errors that escape, and the [try] block *)

(** X11: a POST with the key set whose body is the JSON text null makes
    both Netlify handlers throw a TypeError (reading a property of null,
    before the [try]) instead of answering; the model is not called. *)
Theorem null_body_escapes
  (responses_create : list jsstring -> completion (option jsstring))
  (key : option jsstring) (ev : event) :
  httpMethod ev = str "POST" ->
  nonempty key = true ->
  JSON_parse (body_text ev) = Normal VNull ->
  Netlify.handler responses_create key ev = escape TypeError
  /\ NetlifyMulti.handler responses_create key ev = escape TypeError.
Proof.
  intros Hm Hk Hp. split.
  - unfold Netlify.handler. enter_post Hm Hk. rewrite Hp. reflexivity.
  - unfold NetlifyMulti.handler. enter_post Hm Hk. rewrite Hp. reflexivity.
Qed.

Lemma null_body_escapes_witness :
  JSON_parse (body_text event_null_body) = Normal VNull
  /\ Netlify.handler (replies_text (text "{}")) (Some (str "sk-test")) event_null_body
     = escape TypeError
  /\ NetlifyMulti.handler (replies_text (text "{}")) (Some (str "sk-test")) event_null_body
     = escape TypeError.
Proof.
  split; [reflexivity|].
  apply (null_body_escapes (replies_text (text "{}")) (Some (str "sk-test"))
           event_null_body); reflexivity.
Defined.

(** X12: in the single-image handler, a valid image with a MIME type that
    does not convert to text (an object with a property named toString)
    makes the handler throw while it builds the data URL, before the [try]:
    no reply, and no call of the model. *)
Theorem mime_type_escapes
  (responses_create : list jsstring -> completion (option jsstring))
  (key : option jsstring) (ev : event) (payload : value) (img : jsstring) (e : exn) :
  httpMethod ev = str "POST" ->
  nonempty key = true ->
  JSON_parse (body_text ev) = Normal payload ->
  Get payload (str "imageBase64") = Normal (VString img) ->
  img <> [] ->
  Z.of_nat (List.length img) <= 12000000 ->
  ToString (or_else (field payload (str "mimeType")) (VString (str "image/jpeg")))
  = Throw e ->
  Netlify.handler responses_create key ev = escape e.
Proof.
  intros Hm Hk Hp Hg Hne Hlen Hmime.
  unfold Netlify.handler. enter_post Hm Hk. rewrite Hp, Hg.
  rewrite (Get_Normal_field _ _ _ (str "mimeType") Hg).
  assert (Ht : truthy (VString img) = true) by (destruct img; [congruence | reflexivity]).
  rewrite Ht. simpl negb. cbv iota.
  destruct (Z.gtb_spec (Z.of_nat (List.length img)) 12000000) as [Hgt|_]; [lia|].
  rewrite Hmime. reflexivity.
Qed.

Lemma mime_type_escapes_witness :
  JSON_parse (body_text event_mime_shadowed)
  = Normal (VObject [(str "imageBase64", VString (str "abc"));
                     (str "mimeType", VObject [(str "toString", VNumber (Finite 1 0))])])
  /\ Netlify.handler (replies_text (text "{}")) (Some (str "sk-test")) event_mime_shadowed
     = escape TypeError.
Proof.
  split; [reflexivity|].
  apply (mime_type_escapes (replies_text (text "{}")) (Some (str "sk-test"))
           event_mime_shadowed
           (VObject [(str "imageBase64", VString (str "abc"));
                     (str "mimeType", VObject [(str "toString", VNumber (Finite 1 0))])])
           (str "abc") TypeError);
    try reflexivity; try discriminate.
Defined.

(** X13: once the model is called, the handler always answers: the [try]
    block lets no error escape.  The status is 200, 500 or 502; an error of
    the model gives 500 "Analysis failed" with that error, and a reply
    without text gives the extraction failure with an empty [raw]. *)
Theorem try_block_always_answers
  (responses_create : list jsstring -> completion (option jsstring))
  (urls : list jsstring) :
  exists resp,
    analyse responses_create urls
    = {| gateway_calls := [urls]; result := Normal resp |}
    /\ (statusCode resp = 200 \/ statusCode resp = 500 \/ statusCode resp = 502)
    /\ (forall e, responses_create urls = Throw e ->
        resp = response 500 (BodyFailed (str "Analysis failed") e))
    /\ (responses_create urls = Normal None \/ responses_create urls = Normal (Some []) ->
        resp = extraction_failure []
        /\ body resp = BodyError (str "Model returned non-JSON output") (Some [])).
Proof.
  unfold analyse. eexists. split; [reflexivity|].
  destruct (responses_create urls) as [[t|]|e]; simpl.
  - unfold normalize. destruct (negb (truthy (extractJson t))) eqn:Et.
    + split; [right; right; reflexivity|]. split; [discriminate|].
      intros [H|H]; [discriminate|]. injection H as ->. split; reflexivity.
    + destruct (cleaned (extractJson t)) as [c|e]; simpl.
      * split; [left; reflexivity|]. split; [discriminate|].
        intros [H|H]; [discriminate|]. injection H as ->. discriminate.
      * split; [right; left; reflexivity|]. split; [discriminate|].
        intros [H|H]; [discriminate|]. injection H as ->. discriminate.
  - split; [right; right; reflexivity|]. split; [discriminate|].
    intros _. split; reflexivity.
  - split; [right; left; reflexivity|]. split.
    + intros e' E. injection E as <-. reflexivity.
    + intros [H|H]; discriminate.
Qed.

Lemma try_block_always_answers_witness :
  exists resp,
    analyse quota_exceeded [str "data:image/jpeg;base64,abc"]
    = {| gateway_calls := [[str "data:image/jpeg;base64,abc"]]; result := Normal resp |}
    /\ (statusCode resp = 200 \/ statusCode resp = 500 \/ statusCode resp = 502)
    /\ (forall e, quota_exceeded [str "data:image/jpeg;base64,abc"] = Throw e ->
        resp = response 500 (BodyFailed (str "Analysis failed") e))
    /\ (quota_exceeded [str "data:image/jpeg;base64,abc"] = Normal None
        \/ quota_exceeded [str "data:image/jpeg;base64,abc"] = Normal (Some []) ->
        resp = extraction_failure []
        /\ body resp = BodyError (str "Model returned non-JSON output") (Some [])).
Proof.
  exact (try_block_always_answers quota_exceeded [str "data:image/jpeg;base64,abc"]).
Defined.

(** ** Status and body of a reply *)

Lemma normalize_shape (outText : jsstring) :
  reply_shape (catch_err (normalize outText)).
Proof.
  unfold normalize, reply_shape.
  destruct (negb (truthy (extractJson outText))); simpl.
  - split; [reflexivity|]. rewrite slice_prefix by lia. apply firstn_le_length.
  - destruct (cleaned (extractJson outText)); simpl; [reflexivity | split; reflexivity].
Qed.

Lemma analyse_shape
  (responses_create : list jsstring -> completion (option jsstring))
  (urls : list jsstring) (resp : http_response) :
  result (analyse responses_create urls) = Normal resp -> reply_shape resp.
Proof.
  unfold analyse. simpl. intros E. injection E as <-.
  destruct (responses_create urls) as [o|e]; simpl.
  - apply normalize_shape.
  - unfold reply_shape. simpl. split; reflexivity.
Qed.

Lemma size_guard_shape (imgs : list value) (r : http_response) :
  NetlifyMulti.size_guard imgs = Some r -> reply_shape r.
Proof.
  induction imgs as [|img imgs IH]; simpl; [discriminate|].
  destruct img as [| | | |s| |];
    try (intros E; injection E as <-; unfold reply_shape; simpl; tauto).
  destruct (Z.of_nat (List.length s) >? 12000000); [|exact IH].
  intros E; injection E as <-; unfold reply_shape; simpl; tauto.
Qed.

Ltac shape_done :=
  match goal with
  | H : result _ = Normal _ |- _ =>
      cbv iota in H;
      first [ discriminate H
            | simpl in H; injection H as <-; unfold reply_shape; simpl; tauto ]
  end.

(** X14: in both Netlify handlers the status of a reply is decided by its
    body: 200 with [ok] or [data], 500 with "Analysis failed", 502 with a
    [raw] of at most 2000 code units, and 400, 405, 413 or 500 with a plain
    error. *)
Theorem reply_status_and_body
  (responses_create : list jsstring -> completion (option jsstring))
  (key : option jsstring) (ev : event) (resp : http_response) :
  result (Netlify.handler responses_create key ev) = Normal resp
  \/ result (NetlifyMulti.handler responses_create key ev) = Normal resp ->
  reply_shape resp.
Proof.
  intros [H|H].
  - unfold Netlify.handler in H.
    destruct (jsstring_eqb (httpMethod ev) (str "OPTIONS")); [shape_done|].
    destruct (negb (jsstring_eqb (httpMethod ev) (str "POST"))); [shape_done|].
    destruct (negb (nonempty key)); [shape_done|].
    destruct (JSON_parse (body_text ev)) as [payload|e]; [|shape_done].
    destruct (Get payload (str "imageBase64")) as [img|e];
      destruct (Get payload (str "mimeType")) as [mt|e']; try shape_done.
    destruct img as [| | | |s| |]; try shape_done.
    destruct (negb (truthy (VString s))); [shape_done|].
    destruct (Z.of_nat (List.length s) >? 12000000); [shape_done|].
    destruct (ToString (or_else mt (VString (str "image/jpeg")))) as [m|e]; [|shape_done].
    exact (analyse_shape _ _ _ H).
  - unfold NetlifyMulti.handler in H.
    destruct (jsstring_eqb (httpMethod ev) (str "OPTIONS")); [shape_done|].
    destruct (negb (jsstring_eqb (httpMethod ev) (str "POST"))); [shape_done|].
    destruct (negb (nonempty key)); [shape_done|].
    destruct (JSON_parse (body_text ev)) as [payload|e]; [|shape_done].
    destruct (Get payload (str "imagesBase64")) as [imgs|e]; [|shape_done].
    destruct imgs as [| | | | |l|]; try shape_done.
    destruct (Z.of_nat (List.length l) =? 0); [shape_done|].
    destruct (Z.of_nat (List.length l) >? 4); [shape_done|].
    destruct (NetlifyMulti.size_guard l) as [r|] eqn:Eg.
    + simpl in H. injection H as <-. apply (size_guard_shape _ _ Eg).
    + exact (analyse_shape _ _ _ H).
Qed.

Lemma reply_status_and_body_witness :
  result (Netlify.handler (replies_text (str "No JSON here at all."))
            (Some (str "sk-test")) event_one_image)
  = Normal (extraction_failure (str "No JSON here at all."))
  /\ reply_shape (extraction_failure (str "No JSON here at all.")).
Proof.
  split; [reflexivity|].
  apply (reply_status_and_body (replies_text (str "No JSON here at all."))
           (Some (str "sk-test")) event_one_image
           (extraction_failure (str "No JSON here at all."))).
  left. reflexivity.
Defined.

(** ** The multi-image handler *)

Lemma size_guard_strings (imgs : list jsstring) :
  Forall (fun s => Z.of_nat (List.length s) <= 12000000) imgs ->
  NetlifyMulti.size_guard (List.map VString imgs) = None.
Proof.
  induction 1 as [|s imgs Hs _ IH]; simpl; [reflexivity|].
  destruct (Z.gtb_spec (Z.of_nat (List.length s)) 12000000); [lia | exact IH].
Qed.

Lemma map_url_strings (imgs : list jsstring) :
  List.map (fun b64 => str "data:image/jpeg;base64," ++ NetlifyMulti.string_of b64)
           (List.map VString imgs)
  = List.map jpeg_url imgs.
Proof.
  rewrite map_map. reflexivity.
Qed.

(** X15: a POST with the key set whose [imagesBase64] is an array of 1 to
    4 strings, each of at most 12,000,000 code units, calls the model once,
    with one data URL data:image/jpeg;base64,IMAGE per image, in the order
    of the array. *)
Theorem multi_images_sent
  (responses_create : list jsstring -> completion (option jsstring))
  (key : option jsstring) (ev : event) (payload : value) (imgs : list jsstring) :
  httpMethod ev = str "POST" ->
  nonempty key = true ->
  JSON_parse (body_text ev) = Normal payload ->
  Get payload (str "imagesBase64") = Normal (VArray (List.map VString imgs)) ->
  (1 <= List.length imgs <= 4)%nat ->
  Forall (fun s => Z.of_nat (List.length s) <= 12000000) imgs ->
  NetlifyMulti.handler responses_create key ev
  = analyse responses_create (List.map jpeg_url imgs)
  /\ gateway_calls (NetlifyMulti.handler responses_create key ev)
     = [List.map jpeg_url imgs].
Proof.
  intros Hm Hk Hp Hg Hlen Hall.
  assert (E : NetlifyMulti.handler responses_create key ev
              = analyse responses_create (List.map jpeg_url imgs)).
  { unfold NetlifyMulti.handler. enter_post Hm Hk. rewrite Hp, Hg.
    rewrite length_map.
    destruct (Z.eqb_spec (Z.of_nat (List.length imgs)) 0); [lia|].
    destruct (Z.gtb_spec (Z.of_nat (List.length imgs)) 4); [lia|].
    rewrite (size_guard_strings _ Hall), map_url_strings. reflexivity. }
  split; [exact E | rewrite E; reflexivity].
Qed.

Lemma multi_images_sent_witness :
  JSON_parse (body_text event_two_images)
  = Normal (VObject [(str "imagesBase64",
                      VArray (List.map VString [str "abc"; str "def"]))])
  /\ NetlifyMulti.handler (replies_text (text "{}")) (Some (str "sk-test")) event_two_images
     = analyse (replies_text (text "{}")) (List.map jpeg_url [str "abc"; str "def"])
  /\ gateway_calls (NetlifyMulti.handler (replies_text (text "{}")) (Some (str "sk-test"))
                      event_two_images)
     = [List.map jpeg_url [str "abc"; str "def"]].
Proof.
  split; [reflexivity|].
  apply (multi_images_sent (replies_text (text "{}")) (Some (str "sk-test"))
           event_two_images
           (VObject [(str "imagesBase64",
                      VArray (List.map VString [str "abc"; str "def"]))])
           [str "abc"; str "def"]);
    try reflexivity.
  - simpl. lia.
  - repeat constructor; discriminate.
Defined.

Lemma size_guard_first (pre post : list value) (x : value) :
  existsb refused_image pre = false ->
  refused_image x = true ->
  NetlifyMulti.size_guard (pre ++ x :: post) = first_refusal (pre ++ x :: post)
  /\ first_refusal (pre ++ x :: post)
     = Some (match x with
             | VString _ =>
                 response 413 (BodyError (str "One of the images is too large.") None)
             | _ =>
                 response 400 (BodyError (str "All images must be base64 strings") None)
             end).
Proof.
  intros Hpre Hx. unfold first_refusal.
  induction pre as [|a pre IH]; simpl.
  - rewrite Hx. destruct x as [| | | |s| |]; simpl in *; try (split; reflexivity).
    rewrite Hx. split; reflexivity.
  - simpl in Hpre. apply orb_false_iff in Hpre. destruct Hpre as (Ha & Hpre).
    rewrite Ha. destruct a as [| | | |s| |]; simpl in Ha; try discriminate.
    rewrite Ha. apply IH, Hpre.
Qed.

(** X16: the order of the checks in the multi-image handler.  An
    [imagesBase64] that is no array or is empty is answered 400
    "imagesBase64 must be a non-empty array"; more than 4 elements are
    answered 400 "Maximum 4 images allowed" whatever the elements are; with
    1 to 4 elements the first element the size guard refuses decides: 400
    "All images must be base64 strings" when it is no string, 413 when it is
    too long. *)
Theorem multi_rejection_order
  (responses_create : list jsstring -> completion (option jsstring))
  (key : option jsstring) (ev : event) (payload v : value) :
  httpMethod ev = str "POST" ->
  nonempty key = true ->
  JSON_parse (body_text ev) = Normal payload ->
  Get payload (str "imagesBase64") = Normal v ->
  (match v with VArray (_ :: _) => False | _ => True end ->
   NetlifyMulti.handler responses_create key ev
   = finish (response 400 (BodyError (str "imagesBase64 must be a non-empty array") None)))
  /\ (forall l, v = VArray l -> (4 < List.length l)%nat ->
      NetlifyMulti.handler responses_create key ev
      = finish (response 400 (BodyError (str "Maximum 4 images allowed") None)))
  /\ (forall pre x post,
      v = VArray (pre ++ x :: post) ->
      (List.length (pre ++ x :: post) <= 4)%nat ->
      existsb refused_image pre = false ->
      refused_image x = true ->
      NetlifyMulti.handler responses_create key ev
      = finish (match x with
                | VString _ =>
                    response 413 (BodyError (str "One of the images is too large.") None)
                | _ =>
                    response 400 (BodyError (str "All images must be base64 strings") None)
                end)).
Proof.
  intros Hm Hk Hp Hg. split; [|split].
  - intros Hv. unfold NetlifyMulti.handler. enter_post Hm Hk. rewrite Hp, Hg.
    destruct v as [| | | | |[|a l]|]; try reflexivity. contradiction.
  - intros l -> Hl. unfold NetlifyMulti.handler. enter_post Hm Hk. rewrite Hp, Hg.
    destruct (Z.eqb_spec (Z.of_nat (List.length l)) 0); [lia|].
    destruct (Z.gtb_spec (Z.of_nat (List.length l)) 4); [reflexivity | lia].
  - intros pre x post -> Hl Hpre Hx.
    unfold NetlifyMulti.handler. enter_post Hm Hk. rewrite Hp, Hg.
    destruct (Z.eqb_spec (Z.of_nat (List.length (pre ++ x :: post))) 0) as [E0|_];
      [rewrite length_app in E0; simpl in E0; lia|].
    destruct (Z.gtb_spec (Z.of_nat (List.length (pre ++ x :: post))) 4); [lia|].
    destruct (size_guard_first pre post x Hpre Hx) as (-> & ->). reflexivity.
Qed.

Lemma multi_rejection_order_witness :
  JSON_parse (body_text event_bad_second)
  = Normal (VObject [(str "imagesBase64",
                      VArray ([VString (str "abc")] ++ VNumber (Finite 7 0) :: [VObject []]))])
  /\ NetlifyMulti.handler (replies_text (text "{}")) (Some (str "sk-test")) event_bad_second
     = finish (response 400 (BodyError (str "All images must be base64 strings") None))
  /\ JSON_parse (body_text event_six_images)
     = Normal (VObject [(str "imagesBase64",
                         VArray [VNumber (Finite 1 0); VString (str "b"); VString (str "c");
                                 VString (str "d"); VString (str "e"); VString (str "f")])])
  /\ NetlifyMulti.handler (replies_text (text "{}")) (Some (str "sk-test")) event_six_images
     = finish (response 400 (BodyError (str "Maximum 4 images allowed") None)).
Proof.
  split; [reflexivity|]. split; [|split; [reflexivity|]].
  - destruct (multi_rejection_order (replies_text (text "{}")) (Some (str "sk-test"))
                event_bad_second
                (VObject [(str "imagesBase64",
                           VArray ([VString (str "abc")] ++ VNumber (Finite 7 0)
                                   :: [VObject []]))])
                (VArray ([VString (str "abc")] ++ VNumber (Finite 7 0) :: [VObject []]))
                eq_refl eq_refl eq_refl eq_refl) as (_ & _ & H).
    apply (H [VString (str "abc")] (VNumber (Finite 7 0)) [VObject []]);
      [reflexivity | simpl; lia | reflexivity | reflexivity].
  - destruct (multi_rejection_order (replies_text (text "{}")) (Some (str "sk-test"))
                event_six_images
                (VObject [(str "imagesBase64",
                           VArray [VNumber (Finite 1 0); VString (str "b"); VString (str "c");
                                   VString (str "d"); VString (str "e"); VString (str "f")])])
                (VArray [VNumber (Finite 1 0); VString (str "b"); VString (str "c");
                         VString (str "d"); VString (str "e"); VString (str "f")])
                eq_refl eq_refl eq_refl eq_refl) as (_ & H & _).
    apply (H _ eq_refl). simpl. lia.
Defined.

(** X17: the multi-image handler calls the model at most once, and only
    with the data URLs of an [imagesBase64] that is an array of 1 to 4
    strings of at most 12,000,000 code units each. *)
Theorem multi_call_only_if_valid
  (responses_create : list jsstring -> completion (option jsstring))
  (key : option jsstring) (ev : event) :
  gateway_calls (NetlifyMulti.handler responses_create key ev) <> [] ->
  exists payload l,
    httpMethod ev = str "POST"
    /\ nonempty key = true
    /\ JSON_parse (body_text ev) = Normal payload
    /\ Get payload (str "imagesBase64") = Normal (VArray l)
    /\ (1 <= List.length l <= 4)%nat
    /\ existsb refused_image l = false
    /\ gateway_calls (NetlifyMulti.handler responses_create key ev)
       = [List.map (fun b64 => jpeg_url (NetlifyMulti.string_of b64)) l].
Proof.
  unfold NetlifyMulti.handler.
  destruct (jsstring_eqb (httpMethod ev) (str "OPTIONS")); [simpl; congruence|].
  destruct (jsstring_eqb (httpMethod ev) (str "POST")) eqn:Ep; [|simpl; congruence].
  apply jsstring_eqb_eq in Ep. simpl negb. cbv iota.
  destruct (nonempty key) eqn:Ek; [|simpl; congruence]. simpl negb. cbv iota.
  destruct (JSON_parse (body_text ev)) as [payload|e]; [|simpl; congruence].
  destruct (Get payload (str "imagesBase64")) as [v|e] eqn:Eg; [|simpl; congruence].
  destruct v as [| | | | |l|]; try (simpl; congruence).
  destruct (Z.eqb_spec (Z.of_nat (List.length l)) 0); [simpl; congruence|].
  destruct (Z.gtb_spec (Z.of_nat (List.length l)) 4); [simpl; congruence|].
  destruct (NetlifyMulti.size_guard l) as [r|] eqn:Es; [simpl; congruence|].
  intros _. exists payload, l.
  repeat split; try assumption; try reflexivity; try lia.
  destruct (existsb refused_image l) eqn:Ee; [|reflexivity].
  destruct (size_guard_refuses l Ee) as (st & msg & Hsg & _). congruence.
Qed.

Lemma multi_call_only_if_valid_witness :
  gateway_calls (NetlifyMulti.handler (replies_text (text "{}")) (Some (str "sk-test"))
                   event_two_images) <> []
  /\ exists payload l,
      httpMethod event_two_images = str "POST"
      /\ nonempty (Some (str "sk-test")) = true
      /\ JSON_parse (body_text event_two_images) = Normal payload
      /\ Get payload (str "imagesBase64") = Normal (VArray l)
      /\ (1 <= List.length l <= 4)%nat
      /\ existsb refused_image l = false
      /\ gateway_calls (NetlifyMulti.handler (replies_text (text "{}"))
                          (Some (str "sk-test")) event_two_images)
         = [List.map (fun b64 => jpeg_url (NetlifyMulti.string_of b64)) l].
Proof.
  split; [vm_compute; discriminate|].
  apply (multi_call_only_if_valid (replies_text (text "{}")) (Some (str "sk-test"))
           event_two_images).
  vm_compute. discriminate.
Defined.

(** ** The Firebase callable *)

(** X18: whatever array [request.data.images] holds is sent to the model
    as it is, in one call: no bound on the number of elements (none at
    all, or more than 4), no check of the elements, and [imageBase64] is
    not looked at. *)
Theorem firebase_array_sent_as_is
  (generateContent : list value -> completion jsstring) (data : value)
  (parts : list value) :
  Get data (str "images") = Normal (VArray parts) ->
  Firebase.gateway_calls (Firebase.analyzeListing generateContent data) = [parts]
  /\ Firebase.analyzeListing generateContent data
     = Firebase.generate generateContent (VArray parts).
Proof.
  intros Hg. unfold Firebase.analyzeListing. rewrite Hg. simpl truthy. cbv iota.
  split; reflexivity.
Qed.

Lemma firebase_array_sent_as_is_witness :
  Get data_empty_images (str "images") = Normal (VArray [])
  /\ Firebase.gateway_calls (Firebase.analyzeListing (replies (text "{}")) data_empty_images)
     = [[]]
  /\ Firebase.analyzeListing (replies (text "{}")) data_empty_images
     = Firebase.generate (replies (text "{}")) (VArray []).
Proof.
  split; [reflexivity|].
  apply (firebase_array_sent_as_is (replies (text "{}")) data_empty_images []).
  reflexivity.
Defined.

(** X19: when [images] is absent or falsy and [imageBase64] is truthy, the
    model is called once with that single value, whatever it is. *)
Theorem firebase_single_image
  (generateContent : list value -> completion jsstring) (data imgs img : value) :
  Get data (str "images") = Normal imgs ->
  truthy imgs = false ->
  Get data (str "imageBase64") = Normal img ->
  truthy img = true ->
  Firebase.gateway_calls (Firebase.analyzeListing generateContent data) = [[img]].
Proof.
  intros Hg Hf Hi Ht. unfold Firebase.analyzeListing.
  rewrite Hg, Hf, Hi, Ht. reflexivity.
Qed.

Lemma firebase_single_image_witness :
  Get data_one_image (str "images") = Normal VUndefined
  /\ Firebase.gateway_calls (Firebase.analyzeListing (replies (text "{}")) data_one_image)
     = [[VString (str "abc")]].
Proof.
  split; [reflexivity|].
  apply (firebase_single_image (replies (text "{}")) data_one_image VUndefined
           (VString (str "abc"))); reflexivity.
Defined.

Lemma generate_not_missing
  (generateContent : list value -> completion jsstring) (imgs : value) :
  Firebase.generate generateContent imgs <> image_data_missing.
Proof.
  unfold Firebase.generate, image_data_missing.
  destruct imgs as [| | | | |l|]; discriminate.
Qed.

(** X20: the Firebase callable turns a request down as an invalid
    argument exactly when [images] and [imageBase64] are both absent or
    falsy; the model is then not called. *)
Theorem firebase_missing_images
  (generateContent : list value -> completion jsstring) (data imgs : value) :
  Get data (str "images") = Normal imgs ->
  (truthy imgs = false /\ truthy (field data (str "imageBase64")) = false)
  <-> Firebase.analyzeListing generateContent data = image_data_missing.
Proof.
  intros Hg. unfold Firebase.analyzeListing. rewrite Hg.
  rewrite (Get_Normal_field _ _ _ (str "imageBase64") Hg).
  destruct (truthy imgs).
  - split; [intros (H & _); discriminate|].
    intros H. exfalso. apply (generate_not_missing _ _ H).
  - destruct (truthy (field data (str "imageBase64"))).
    + split; [intros (_ & H); discriminate|].
      intros H. exfalso. apply (generate_not_missing _ _ H).
    + split; [reflexivity | auto].
Qed.

Lemma firebase_missing_images_witness :
  Get data_no_image (str "images") = Normal VUndefined
  /\ ((truthy VUndefined = false /\ truthy (field data_no_image (str "imageBase64")) = false)
      <-> Firebase.analyzeListing (replies (text "{}")) data_no_image = image_data_missing).
Proof.
  split; [reflexivity|].
  apply (firebase_missing_images (replies (text "{}")) data_no_image VUndefined).
  reflexivity.
Defined.

(** X21: an [images] that is truthy but no array (a single base64 string,
    say) fails as an internal error with the TypeError of
    [images.forEach]; the model is not called, and a valid [imageBase64]
    beside it is not used. *)
Theorem firebase_images_not_array
  (generateContent : list value -> completion jsstring) (data imgs : value) :
  Get data (str "images") = Normal imgs ->
  truthy imgs = true ->
  isArray imgs = false ->
  Firebase.analyzeListing generateContent data
  = {| Firebase.gateway_calls := [];
       Firebase.result := Firebase.HttpsError Firebase.internal (Some TypeError) |}.
Proof.
  intros Hg Ht Ha. unfold Firebase.analyzeListing. rewrite Hg, Ht.
  destruct imgs; simpl in *; try discriminate; reflexivity.
Qed.

Lemma firebase_images_not_array_witness :
  Get data_images_string (str "images") = Normal (VString (str "abc"))
  /\ Firebase.analyzeListing (replies (text "{}")) data_images_string
     = {| Firebase.gateway_calls := [];
          Firebase.result := Firebase.HttpsError Firebase.internal (Some TypeError) |}.
Proof.
  split; [reflexivity|].
  apply (firebase_images_not_array (replies (text "{}")) data_images_string
           (VString (str "abc"))); reflexivity.
Defined.

Lemma firebase_success_is_parsed_reply_witness :
  Firebase.result (Firebase.analyzeListing (replies fenced_reply) data_one_image)
  = Firebase.Success (report_value {| vehicle_title := str "2019 Toyota Hilux";
                                      lens_score := Finite 85 0;
                                      summary := str "Solid truck.";
                                      market_value_estimate := str "$28k-$33k";
                                      red_flags := [];
                                      questions_to_ask := [str "Any accidents?"] |})
  /\ exists parts reply,
      Firebase.gateway_calls (Firebase.analyzeListing (replies fenced_reply) data_one_image)
      = [parts]
      /\ replies fenced_reply parts = Normal reply
      /\ Firebase.parse_reply reply
         = Normal (report_value {| vehicle_title := str "2019 Toyota Hilux";
                                   lens_score := Finite 85 0;
                                   summary := str "Solid truck.";
                                   market_value_estimate := str "$28k-$33k";
                                   red_flags := [];
                                   questions_to_ask := [str "Any accidents?"] |}).
Proof.
  split; [reflexivity|].
  apply (firebase_success_is_parsed_reply (replies fenced_reply) data_one_image).
  reflexivity.
Defined.

(** X23: after the call, an error of the model and a reply that is no JSON
    once the fences are removed both end as an internal error carrying the
    cause.  There is no search for an object inside the reply: prose
    around the object, which [extractJson] gets over, fails here. *)
Theorem firebase_failure_is_internal
  (generateContent : list value -> completion jsstring) (data : value)
  (parts : list value) (e : exn) :
  Get data (str "images") = Normal (VArray parts) ->
  (generateContent parts = Throw e
   \/ exists reply, generateContent parts = Normal reply
                    /\ Firebase.parse_reply reply = Throw e) ->
  Firebase.analyzeListing generateContent data
  = {| Firebase.gateway_calls := [parts];
       Firebase.result := Firebase.HttpsError Firebase.internal (Some e) |}.
Proof.
  intros Hg H. unfold Firebase.analyzeListing. rewrite Hg. simpl truthy. cbv iota.
  unfold Firebase.generate. destruct H as [H|(reply & H & Hp)]; rewrite H; simpl.
  - reflexivity.
  - rewrite Hp. reflexivity.
Qed.

Lemma firebase_failure_is_internal_witness :
  extractJson (text "Here you go: {'lens_score': 'N/A'} Thanks!")
  = VObject [(str "lens_score", VString (str "N/A"))]
  /\ Firebase.parse_reply (text "Here you go: {'lens_score': 'N/A'} Thanks!")
     = Throw SyntaxError
  /\ Firebase.analyzeListing (replies (text "Here you go: {'lens_score': 'N/A'} Thanks!"))
       data_five_images
     = {| Firebase.gateway_calls := [five_images];
          Firebase.result := Firebase.HttpsError Firebase.internal (Some SyntaxError) |}.
Proof.
  split; [reflexivity|]. split; [reflexivity|].
  apply (firebase_failure_is_internal
           (replies (text "Here you go: {'lens_score': 'N/A'} Thanks!"))
           data_five_images five_images SyntaxError).
  - reflexivity.
  - right. eexists. split; reflexivity.
Defined.

(** ** Removing the fences *)

Lemma remove_all_from_none (fuel : nat) (p s : jsstring) :
  occurs p s = false -> remove_all_from fuel p s = s.
Proof.
  revert fuel. induction s as [|c s IH]; intros fuel H.
  - destruct fuel; reflexivity.
  - destruct fuel as [|fuel]; [reflexivity|]. simpl in H.
    apply orb_false_iff in H. destruct H as (Hs & Ho).
    cbn [remove_all_from]. rewrite Hs. f_equal. apply IH, Ho.
Qed.

Lemma starts_with_backtick (p s : jsstring) (c : N) :
  c <> 96%N -> starts_with (96%N :: p) (c :: s) = false.
Proof.
  intros Hc. cbn [starts_with].
  assert (E : N.eqb 96 c = false) by (apply N.eqb_neq; congruence).
  rewrite E. reflexivity.
Qed.

Lemma occurs_tagged_fence (t : jsstring) :
  no_char 96 t = true -> occurs (str "```json") (t ++ str "```") = false.
Proof.
  induction t as [|c t IH]; intros H; [reflexivity|].
  simpl in H. apply andb_true_iff in H. destruct H as (Hc & Ht).
  apply negb_true_iff, N.eqb_neq in Hc.
  change ((c :: t) ++ str "```") with (c :: (t ++ str "```")).
  cbn [occurs]. change (str "```json") with (96%N :: str "``json") at 1.
  rewrite starts_with_backtick by exact Hc. simpl. apply IH, Ht.
Qed.

Lemma remove_closing_fence (fuel : nat) (t : jsstring) :
  no_char 96 t = true ->
  (List.length t < fuel)%nat ->
  remove_all_from fuel (str "```") (t ++ str "```") = t.
Proof.
  revert fuel. induction t as [|c t IH]; intros fuel H Hf.
  - destruct fuel as [|fuel]; [lia|]. destruct fuel; reflexivity.
  - destruct fuel as [|fuel]; [lia|].
    simpl in H. apply andb_true_iff in H. destruct H as (Hc & Ht).
    apply negb_true_iff, N.eqb_neq in Hc.
    change ((c :: t) ++ str "```") with (c :: (t ++ str "```")).
    cbn [remove_all_from]. change (str "```") with (96%N :: str "``") at 1.
    rewrite starts_with_backtick by exact Hc.
    f_equal. apply IH; [exact Ht | simpl in Hf; lia].
Qed.

Lemma remove_all_nonempty (p s : jsstring) :
  p <> [] -> remove_all p s = remove_all_from (List.length s) p s.
Proof.
  destruct p; [congruence | reflexivity].
Qed.

Lemma starts_with_app (p s : jsstring) : starts_with p (p ++ s) = true.
Proof.
  induction p as [|c p IH]; [reflexivity|].
  change ((c :: p) ++ s) with (c :: (p ++ s)). cbn [starts_with].
  rewrite N.eqb_refl, IH. reflexivity.
Qed.

Lemma remove_all_from_prefix (fuel : nat) (p s : jsstring) :
  p <> [] -> remove_all_from (S fuel) p (p ++ s) = remove_all_from fuel p s.
Proof.
  intros Hp. pose proof (starts_with_app p s) as Hs.
  pose proof (skipn_length_app p s) as Hk.
  destruct p as [|c p]; [congruence|].
  change ((c :: p) ++ s) with (c :: (p ++ s)) in *.
  cbn [remove_all_from]. rewrite Hs, Hk. reflexivity.
Qed.

(** X24: a reply without back quotes of its own is parsed as it is, and
    inside a fence tagged json it is parsed as the text between the fences;
    in both cases after white space at its ends is trimmed. *)
Theorem fenced_reply_parsed (t : jsstring) :
  no_char 96 t = true ->
  Firebase.parse_reply (str "```json" ++ t ++ str "```") = JSON_parse (trim t)
  /\ Firebase.parse_reply t = JSON_parse (trim t).
Proof.
  intros H. unfold Firebase.parse_reply. split.
  - assert (E1 : remove_all (str "```json") (str "```json" ++ t ++ str "```")
                 = t ++ str "```").
    { rewrite remove_all_nonempty by discriminate.
      rewrite length_app. change (List.length (str "```json")) with 7%nat.
      change (7 + List.length (t ++ str "```"))%nat
        with (S (6 + List.length (t ++ str "```"))).
      rewrite remove_all_from_prefix by discriminate.
      apply remove_all_from_none. apply (occurs_tagged_fence t H). }
    rewrite E1.
    assert (E2 : remove_all (str "```") (t ++ str "```") = t).
    { rewrite remove_all_nonempty by discriminate.
      apply remove_closing_fence; [exact H|].
      rewrite length_app. simpl. lia. }
    rewrite E2. reflexivity.
  - assert (O1 : occurs (str "```json") t = false).
    { clear -H. induction t as [|c t IH]; [reflexivity|].
      simpl in H. apply andb_true_iff in H. destruct H as (Hc & Ht).
      apply negb_true_iff, N.eqb_neq in Hc.
      cbn [occurs]. change (str "```json") with (96%N :: str "``json") at 1.
      rewrite starts_with_backtick by exact Hc. simpl. apply IH, Ht. }
    assert (O2 : occurs (str "```") t = false).
    { clear -H. induction t as [|c t IH]; [reflexivity|].
      simpl in H. apply andb_true_iff in H. destruct H as (Hc & Ht).
      apply negb_true_iff, N.eqb_neq in Hc.
      cbn [occurs]. change (str "```") with (96%N :: str "``") at 1.
      rewrite starts_with_backtick by exact Hc. simpl. apply IH, Ht. }
    assert (E1 : remove_all (str "```json") t = t)
      by (rewrite remove_all_nonempty by discriminate; apply remove_all_from_none, O1).
    rewrite E1.
    assert (E2 : remove_all (str "```") t = t)
      by (rewrite remove_all_nonempty by discriminate; apply remove_all_from_none, O2).
    rewrite E2. reflexivity.
Qed.

Lemma fenced_reply_parsed_witness :
  no_char 96 (10%N :: text "{'lens_score': 85}" ++ [10%N]) = true
  /\ Firebase.parse_reply (str "```json" ++ (10%N :: text "{'lens_score': 85}" ++ [10%N])
                           ++ str "```")
     = JSON_parse (trim (10%N :: text "{'lens_score': 85}" ++ [10%N]))
  /\ Firebase.parse_reply (10%N :: text "{'lens_score': 85}" ++ [10%N])
     = JSON_parse (trim (10%N :: text "{'lens_score': 85}" ++ [10%N])).
Proof.
  split; [reflexivity|].
  apply (fenced_reply_parsed (10%N :: text "{'lens_score': 85}" ++ [10%N])).
  reflexivity.
Defined.
